(** * bplvkit: the order, tax and inventory engine of [db_driver.py] and [api.py]

    A shallow embedding of [DatabaseDriver] (the SQLite persistence layer), of
    [AssistantFnc], which fronts it, and of the two callers that read it
    ([handle_query] of [agent.py] and the menu of [visualization.py]),
    followed by the properties of the specification that concern them and by
    further properties of the code.

    Modelling conventions.
    - A table is the list of its rows in rowid order; a [SELECT ... fetchone()]
      is the first matching row, an [INSERT] appends, an [UPDATE] rewrites the
      matching rows in place.  Foreign keys are not enforced (SQLite's default).
    - Every [with self._get_connection()] block reads and writes the one store;
      an exception leaving a block before [conn.commit()] discards the writes
      of that block.  A block opened inside another one is a second
      connection: it may read, but while the outer connection has written and
      not yet committed, a write of the inner one ends, after the busy
      timeout, in "database is locked".
    - Python [int] is [Z]; integers are assumed to fit SQLite's 64 bit INTEGER.
      Python [float] and SQLite REAL are IEEE binary64 ([PrimFloat.float]).
    - [str.lower] and [int] of a string are modelled on ASCII.
    - The tables of events and bookings stand in a record of their own
      ([event_db]): the operations on them touch no other table.  The tables
      of customers, suppliers and the revenue summary are left out: no
      operation below writes them. *)

From Stdlib Require Import ZArith List String Ascii Bool Lia Sorted Permutation.
From Stdlib Require Import PrimFloat SpecFloat FloatOps.
From Stdlib Require DecimalString.
Import ListNotations.
Open Scope string_scope.
Open Scope Z_scope.

Set Implicit Arguments.

(* ================================================================== *)
(** ** Python numbers *)

(** A Python number is an [int] or a [float]. *)
Inductive num : Type :=
| NInt (z : Z)
| NFloat (f : float).

Definition Z2SF (z : Z) : spec_float :=
  match z with
  | Z0 => S754_zero false
  | Zpos p => S754_finite false p 0
  | Zneg p => S754_finite true p 0
  end.

(** [float(z)]: the nearest binary64, ties to even. *)
Definition of_Z (z : Z) : float :=
  SF2Prim (binary_normalize prec emax z 0 false).

Definition to_float (n : num) : float :=
  match n with
  | NInt z => of_Z z
  | NFloat f => f
  end.

(** [a + b] and [a * b]: exact on two ints, binary64 otherwise. *)
Definition py_add (a b : num) : num :=
  match a, b with
  | NInt x, NInt y => NInt (x + y)
  | _, _ => NFloat (PrimFloat.add (to_float a) (to_float b))
  end.

Definition py_mul (a b : num) : num :=
  match a, b with
  | NInt x, NInt y => NInt (x * y)
  | _, _ => NFloat (PrimFloat.mul (to_float a) (to_float b))
  end.

(** [a / q] for an int [q <> 0]: true division; on two ints the quotient is
    rounded once. *)
Definition py_truediv (a : num) (q : Z) : num :=
  match a with
  | NInt z => NFloat (SF2Prim (SFdiv prec emax (Z2SF z) (Z2SF q)))
  | NFloat f => NFloat (PrimFloat.div f (of_Z q))
  end.

(** The literals of the source. *)
Definition f0_0 : float := 0%float.
Definition f0_07 : float := 0x1.1eb851eb851ecp-4%float.
Definition f0_09 : float := 0x1.70a3d70a3d70ap-4%float.
Definition f0_10 : float := 0x1.999999999999ap-4%float.
Definition f0_7 : float := 0x1.6666666666666p-1%float.

(** SQLite compares REAL values numerically; NaN is never stored. *)
Definition real_leb (x y : float) : bool := SFleb (Prim2SF x) (Prim2SF y).

(** [int(f)]: truncation towards zero of a finite float. *)
Definition trunc_SF (x : spec_float) : option Z :=
  match x with
  | S754_zero _ => Some 0
  | S754_finite s m e =>
      let a := if 0 <=? e then Z.shiftl (Zpos m) e else Z.shiftr (Zpos m) (- e) in
      Some (if s then - a else a)
  | _ => None
  end.

(* ================================================================== *)
(** ** Python values, exceptions *)

Unset Elimination Schemes.
Inductive pyval : Type :=
| PNone
| PBool (b : bool)
| PInt (z : Z)
| PFloat (f : float)
| PStr (s : string)
| PList (l : list pyval)
| PDict (d : list (string * pyval)).
Set Elimination Schemes.

(** [BindingError] is sqlite3's error for a parameter of an unsupported
    type. *)
Inductive pyerr : Type :=
| TypeError
| ValueError
| OverflowError
| BindingError
| IntegrityError
| OperationalError.

Inductive exc (A : Type) : Type :=
| Ok (a : A)
| Raise (e : pyerr).
Arguments Ok {A} a.
Arguments Raise {A} e.

Definition bind_exc {A B : Type} (m : exc A) (k : A -> exc B) : exc B :=
  match m with
  | Ok a => k a
  | Raise e => Raise e
  end.

Notation "x <- m ;; k" := (bind_exc m (fun x => k))
  (at level 61, m at next level, right associativity).

(** Dictionary lookup: [key in d] and [d[key]] / [d.get(key)]. *)
Fixpoint dict_get (key : string) (d : list (string * pyval)) : option pyval :=
  match d with
  | [] => None
  | (k, v) :: d' => if String.eqb k key then Some v else dict_get key d'
  end.

(** ** Strings *)

Definition is_space (c : ascii) : bool :=
  let n := nat_of_ascii c in
  orb (Nat.eqb n 32) (andb (Nat.leb 9 n) (Nat.leb n 13)).

Definition digit_of (c : ascii) : option Z :=
  let n := nat_of_ascii c in
  if andb (Nat.leb 48 n) (Nat.leb n 57) then Some (Z.of_nat n - 48) else None.

Fixpoint lstrip (s : string) : string :=
  match s with
  | String c s' => if is_space c then lstrip s' else s
  | EmptyString => EmptyString
  end.

(** Digits with single underscores between them, then optional white space;
    [acc] is the value read so far and [after_digit] tells whether the last
    character was a digit. *)
Fixpoint digits (s : string) (acc : Z) (after_digit : bool) : option Z :=
  match s with
  | EmptyString => if after_digit then Some acc else None
  | String c s' =>
      match digit_of c with
      | Some d => digits s' (10 * acc + d) true
      | None =>
          if andb after_digit (Ascii.eqb c "_") then
            match s' with
            | String c' _ =>
                match digit_of c' with
                | Some _ => digits s' acc false
                | None => None
                end
            | EmptyString => None
            end
          else if andb after_digit (is_space c) then
            match lstrip s' with
            | EmptyString => Some acc
            | _ => None
            end
          else None
      end
  end.

(** [int(s)] for a string in base ten (ASCII digits). *)
Definition int_of_str (s : string) : option Z :=
  match lstrip s with
  | String "-" s' => option_map Z.opp (digits s' 0 false)
  | String "+" s' => digits s' 0 false
  | s' => digits s' 0 false
  end.

(** The builtin [int(v)]. *)
Definition py_int (v : pyval) : exc Z :=
  match v with
  | PInt z => Ok z
  | PBool b => Ok (if b then 1 else 0)
  | PFloat f =>
      match Prim2SF f with
      | S754_nan => Raise ValueError
      | S754_infinity _ => Raise OverflowError
      | x => match trunc_SF x with Some z => Ok z | None => Raise ValueError end
      end
  | PStr s =>
      match int_of_str s with
      | Some z => Ok z
      | None => Raise ValueError
      end
  | _ => Raise TypeError
  end.

Definition lower_ascii (c : ascii) : ascii :=
  let n := nat_of_ascii c in
  if andb (Nat.leb 65 n) (Nat.leb n 90) then ascii_of_nat (n + 32) else c.

Fixpoint str_map (f : ascii -> ascii) (s : string) : string :=
  match s with
  | EmptyString => EmptyString
  | String c s' => String (f c) (str_map f s')
  end.

Definition dec_of_Z (z : Z) : string :=
  match z with
  | Z0 => "0"
  | Zpos p => DecimalString.NilEmpty.string_of_uint (Pos.to_uint p)
  | Zneg p => String "-" (DecimalString.NilEmpty.string_of_uint (Pos.to_uint p))
  end.

(* ================================================================== *)
(** ** SQLite values *)

Inductive sqlval : Type :=
| SNull
| SInt (z : Z)
| SReal (f : float)
| SText (s : string).

(** Binding a Python value as a statement parameter; lists and dicts are
    refused. *)
Definition bind_param (v : pyval) : exc sqlval :=
  match v with
  | PNone => Ok SNull
  | PBool b => Ok (SInt (if b then 1 else 0))
  | PInt z => Ok (SInt z)
  | PFloat f => Ok (match Prim2SF f with S754_nan => SNull | _ => SReal f end)
  | PStr s => Ok (SText s)
  | PList _ | PDict _ => Raise BindingError
  end.

(** TEXT affinity, applied to a value stored in or compared with a TEXT
    column; [None] is NULL.  [real_text] is SQLite's rendering of a REAL. *)
Definition text_affinity (real_text : float -> string) (v : sqlval)
  : option string :=
  match v with
  | SNull => None
  | SInt z => Some (dec_of_Z z)
  | SReal f => Some (real_text f)
  | SText s => Some s
  end.

Definition is_nan (f : float) : bool :=
  match Prim2SF f with
  | S754_nan => true
  | _ => false
  end.

(** A number bound to a [REAL NOT NULL] column: NaN is bound as NULL and
    refused. *)
Definition real_not_null (n : num) : exc float :=
  let f := to_float n in
  if is_nan f then Raise IntegrityError else Ok f.

(* ================================================================== *)
(** ** Rows and tables *)

Module Bev.
Record t : Type := mk {
  id : string;
  name : string;
  category : string;
  subcategory : string;
  price : Z;
  inventory : Z;
  image : string;
  sales : Z
}.
End Bev.

Module TaxRate.
Record t : Type := mk {
  tax_id : Z;
  tax_type : string;
  rate : float;
  description : string
}.
End TaxRate.

Module Txn.
Record t : Type := mk {
  transaction_id : Z;
  transaction_date : string;
  transaction_time : string;
  total_amount : float;
  tax_amount : float;
  payment_method : string;
  employee_id : option Z
}.
End Txn.

Module TxnItem.
Record t : Type := mk {
  transaction_item_id : Z;
  transaction_id : Z;
  item_id : string;
  quantity : Z;
  unit_price : float;
  line_total : float;
  tax_category : string;
  tax_amount : float
}.
End TxnItem.

Module TaxDetail.
Record t : Type := mk {
  tax_detail_id : Z;
  transaction_item_id : Z;
  tax_id : Z;
  calculated_tax_amount : float
}.
End TaxDetail.

Module Batch.
Record t : Type := mk {
  batch_id : Z;
  order_time : string;
  table_number : string;
  status : string;
  customer_id : option Z
}.
End Batch.

Module BatchItem.
Record t : Type := mk {
  item_id : Z;
  batch_id : Z;
  bev_id : string;
  quantity : Z;
  notes : option string;
  status : string
}.
End BatchItem.

Module Recommendation.
Record t : Type := mk {
  recommendation_id : Z;
  bev_id : string;
  recommended_bev_id : string;
  confidence : float
}.
End Recommendation.

(** The tables of [_init_db] that the engine reads or writes. *)
Record db : Type := mkdb {
  bevs : list Bev.t;
  tax_rates : list TaxRate.t;
  transactions : list Txn.t;
  transaction_items : list TxnItem.t;
  tax_details : list TaxDetail.t;
  order_batches : list Batch.t;
  batch_items : list BatchItem.t;
  drink_recommendations : list Recommendation.t
}.

Definition empty_db : db := mkdb [] [] [] [] [] [] [] [].

Definition set_bevs (d : db) (x : list Bev.t) : db :=
  mkdb x (tax_rates d) (transactions d) (transaction_items d) (tax_details d)
       (order_batches d) (batch_items d) (drink_recommendations d).
Definition set_tax_rates (d : db) (x : list TaxRate.t) : db :=
  mkdb (bevs d) x (transactions d) (transaction_items d) (tax_details d)
       (order_batches d) (batch_items d) (drink_recommendations d).
Definition set_transactions (d : db) (x : list Txn.t) : db :=
  mkdb (bevs d) (tax_rates d) x (transaction_items d) (tax_details d)
       (order_batches d) (batch_items d) (drink_recommendations d).
Definition set_transaction_items (d : db) (x : list TxnItem.t) : db :=
  mkdb (bevs d) (tax_rates d) (transactions d) x (tax_details d)
       (order_batches d) (batch_items d) (drink_recommendations d).
Definition set_tax_details (d : db) (x : list TaxDetail.t) : db :=
  mkdb (bevs d) (tax_rates d) (transactions d) (transaction_items d) x
       (order_batches d) (batch_items d) (drink_recommendations d).
Definition set_order_batches (d : db) (x : list Batch.t) : db :=
  mkdb (bevs d) (tax_rates d) (transactions d) (transaction_items d)
       (tax_details d) x (batch_items d) (drink_recommendations d).
Definition set_batch_items (d : db) (x : list BatchItem.t) : db :=
  mkdb (bevs d) (tax_rates d) (transactions d) (transaction_items d)
       (tax_details d) (order_batches d) x (drink_recommendations d).
Definition set_drink_recommendations (d : db) (x : list Recommendation.t) : db :=
  mkdb (bevs d) (tax_rates d) (transactions d) (transaction_items d)
       (tax_details d) (order_batches d) (batch_items d) x.

(** [cursor.lastrowid] after an insert into an AUTOINCREMENT table whose
    present keys are [ids]. *)
Definition lastrowid (ids : list Z) : Z := 1 + fold_right Z.max 0 ids.

(** [LIMIT n]: a negative [n] is no limit. *)
Definition limit_rows {A : Type} (n : Z) (l : list A) : list A :=
  if n <? 0 then l else firstn (Z.to_nat n) l.

(** [ORDER BY]: a stable insertion sort; [before x y] tells that [x] may
    stand before [y]. *)
Fixpoint insert_by {A : Type} (before : A -> A -> bool) (x : A) (l : list A)
  : list A :=
  match l with
  | [] => [x]
  | y :: l' => if before x y then x :: l else y :: insert_by before x l'
  end.

Definition order_by {A : Type} (before : A -> A -> bool) (l : list A) : list A :=
  fold_right (insert_by before) [] l.

(** The store behind [self.conn], which [finalize_batch] and [cancel_batch]
    use.  The class never assigns that attribute, and [_init_db] creates
    neither [beverages] nor [batches]; the tables here are the ones the two
    methods name, with the columns they read and write. *)
Module Legacy.
Record beverage : Type := mk_beverage {
  id : string;
  price : Z;
  inventory : Z;
  sales : Z
}.
Record batch : Type := mk_batch {
  batch_id : Z;
  status : string;
  payment_method : option string;
  total : option Z
}.
Record item : Type := mk_item {
  item_batch_id : Z;
  bev_id : string;
  quantity : Z
}.
Record t : Type := mk {
  beverages : list beverage;
  batches : list batch;
  batch_items : list item
}.
End Legacy.

(** A [DatabaseDriver] object: the database file, and the attribute [conn]
    when the object has one. *)
Record DatabaseDriver : Type := mkdriver {
  store : db;
  conn : option Legacy.t
}.

(** [datetime.now()], rendered as the driver stores it. *)
Record clock : Type := mkclock {
  date_str : string;
  time_str : string
}.

(** An element of [items] in [create_transaction]: a dict with the keys
    ['id'] and ['quantity'] and maybe ['tax_category']. *)
Record tx_item : Type := mk_tx_item {
  it_id : pyval;
  it_quantity : Z;
  it_tax_category : option pyval
}.

(* ================================================================== *)
(** ** [DatabaseDriver]: catalog and tax policy *)

(** [name.lower().replace(" ", "_")] *)
Definition _generate_id (name : string) : string :=
  str_map (fun c => if Ascii.eqb c " " then "_"%char else c)
          (str_map lower_ascii name).

Definition _bev_exists (d : db) (id : string) : bool :=
  existsb (fun b => String.eqb (Bev.id b) id) (bevs d).

(** Updates the row of [id] when there is one, inserts a row otherwise. *)
Definition create_bev (d : db) (id name category subcategory : string)
  (price inventory : Z) (image : string) (sales : Z) : db * Bev.t :=
  let bev := Bev.mk id name category subcategory price inventory image sales in
  if _bev_exists d id then
    (set_bevs d (map (fun b => if String.eqb (Bev.id b) id then bev else b)
                     (bevs d)), bev)
  else
    (set_bevs d (bevs d ++ [bev]), bev).

Definition get_bev_by_id (d : db) (id : string) : option Bev.t :=
  find (fun b => String.eqb (Bev.id b) id) (bevs d).

Definition delete_bev (d : db) (id : string) : db * bool :=
  (set_bevs d (filter (fun b => negb (String.eqb (Bev.id b) id)) (bevs d)),
   _bev_exists d id).

Definition default_rates : list (string * float * string) :=
  [ ("pour/shot", f0_07, "Standard tax for individual pours/shots");
    ("glass", f0_07, "Standard tax for glass service");
    ("bottle", f0_09, "Higher tax rate for bottle service");
    ("event", f0_10, "Special tax rate for event packages") ].

(** [executemany]: one insert per tuple. *)
Fixpoint insert_rates (rows : list TaxRate.t)
  (new : list (string * float * string)) : list TaxRate.t :=
  match new with
  | [] => rows
  | (ty, r, descr) :: new' =>
      insert_rates
        (rows ++ [TaxRate.mk (lastrowid (map TaxRate.tax_id rows)) ty r descr])
        new'
  end.

Definition initialize_tax_rates (d : db) : db :=
  match tax_rates d with
  | [] => set_tax_rates d (insert_rates [] default_rates)
  | _ :: _ => d
  end.

Section Rendering.

(** SQLite's text rendering of a REAL value, used where a float meets a TEXT
    column. *)
Variable real_text : float -> string.

(** [WHERE column = ?] on a TEXT column. *)
Definition text_eq (column : string) (param : sqlval) : bool :=
  match text_affinity real_text param with
  | Some s => String.eqb column s
  | None => false
  end.

Definition calculate_item_tax (d : db) (item_id : pyval) (quantity : Z)
  (tax_category : pyval) : exc (num * num) :=
  key <- bind_param item_id ;;
  match find (fun b => text_eq (Bev.id b) key) (bevs d) with
  | None => Ok (NFloat f0_0, NFloat f0_0)
  | Some price_row =>
      let unit_price := Bev.price price_row in
      let line_total := NInt (unit_price * quantity) in
      cat <- bind_param tax_category ;;
      let tax_rate :=
        match find (fun r => text_eq (TaxRate.tax_type r) cat) (tax_rates d) with
        | Some tax_row => TaxRate.rate tax_row
        | None => f0_07
        end in
      let tax_amount := py_mul line_total (NFloat tax_rate) in
      Ok (line_total, tax_amount)
  end.

(** [write_locked] tells whether another connection holds the write lock of
    the database file; the insert then raises "database is locked". *)
Definition record_tax_detail (write_locked : bool) (d : db)
  (transaction_item_id : Z) (tax_category : pyval) (tax_amount : float)
  : exc db :=
  cat <- bind_param tax_category ;;
  match find (fun r => text_eq (TaxRate.tax_type r) cat) (tax_rates d) with
  | None => Ok d
  | Some tax_row =>
      if write_locked then Raise OperationalError
      else
        Ok (set_tax_details d
              (tax_details d ++
               [TaxDetail.mk
                  (lastrowid (map TaxDetail.tax_detail_id (tax_details d)))
                  transaction_item_id (TaxRate.tax_id tax_row) tax_amount]))
  end.

(** The [INSERT INTO transaction_items] of the loop; gives the new store and
    [cursor.lastrowid]. *)
Definition insert_transaction_item (d : db) (transaction_id : Z)
  (bev_id : pyval) (quantity : Z) (unit_price line_total : num)
  (tax_category : pyval) (tax_amount : num) : exc (db * Z) :=
  key <- bind_param bev_id ;;
  cat <- bind_param tax_category ;;
  match text_affinity real_text key, text_affinity real_text cat with
  | Some item_id, Some category =>
      up <- real_not_null unit_price ;;
      lt <- real_not_null line_total ;;
      ta <- real_not_null tax_amount ;;
      let rowid :=
        lastrowid (map TxnItem.transaction_item_id (transaction_items d)) in
      Ok (set_transaction_items d
            (transaction_items d ++
             [TxnItem.mk rowid transaction_id item_id quantity up lt category ta]),
          rowid)
  | _, _ => Raise IntegrityError
  end.

(** [item.get('tax_category', 'pour/shot')] *)
Definition category_of (item : tx_item) : pyval :=
  match it_tax_category item with
  | Some c => c
  | None => PStr "pour/shot"
  end.

(** [line_total/quantity if quantity > 0 else 0] *)
Definition unit_price_of (line_total : num) (quantity : Z) : num :=
  if quantity >? 0 then py_truediv line_total quantity else NInt 0.

(** The loop over [items]: the working store, then the totals or the
    exception that ended it.  The connection of [create_transaction] has
    inserted the transaction row, so [record_tax_detail] runs against its
    write lock. *)
Fixpoint process_items (d : db) (transaction_id : Z) (items : list tx_item)
  (total_amount total_tax : num) : db * exc (num * num) :=
  match items with
  | [] => (d, Ok (total_amount, total_tax))
  | item :: items' =>
      let bev_id := it_id item in
      let quantity := it_quantity item in
      let tax_category := category_of item in
      match calculate_item_tax d bev_id quantity tax_category with
      | Raise e => (d, Raise e)
      | Ok (line_total, tax_amount) =>
          let unit_price := unit_price_of line_total quantity in
          match insert_transaction_item d transaction_id bev_id quantity
                  unit_price line_total tax_category tax_amount with
          | Raise e => (d, Raise e)
          | Ok (d1, rowid) =>
              match record_tax_detail true d1 rowid tax_category
                      (to_float tax_amount) with
              | Raise e => (d1, Raise e)
              | Ok d2 =>
                  process_items d2 transaction_id items'
                    (py_add total_amount line_total)
                    (py_add total_tax tax_amount)
              end
          end
      end
  end.

Definition update_totals (d : db) (transaction_id : Z)
  (total_amount total_tax : float) : db :=
  set_transactions d
    (map (fun t =>
            if Txn.transaction_id t =? transaction_id then
              Txn.mk (Txn.transaction_id t) (Txn.transaction_date t)
                     (Txn.transaction_time t) total_amount total_tax
                     (Txn.payment_method t) (Txn.employee_id t)
            else t)
         (transactions d)).

(** Creates a transaction with its items.  All rows are committed at the
    end; an exception before that leaves the store as it was. *)
Definition create_transaction (d : db) (now : clock) (payment_method : string)
  (items : list tx_item) (employee_id : option Z) : db * exc Z :=
  let transaction_id := lastrowid (map Txn.transaction_id (transactions d)) in
  let d1 :=
    set_transactions d
      (transactions d ++
       [Txn.mk transaction_id (date_str now) (time_str now) f0_0 f0_0
               payment_method employee_id]) in
  match process_items d1 transaction_id items (NInt 0) (NInt 0) with
  | (_, Raise e) => (d, Raise e)
  | (d2, Ok (total_amount, total_tax)) =>
      match real_not_null total_amount, real_not_null total_tax with
      | Ok total, Ok tax =>
          (update_totals d2 transaction_id total tax, Ok transaction_id)
      | _, _ => (d, Raise IntegrityError)
      end
  end.

End Rendering.

(* ================================================================== *)
(** ** [DatabaseDriver]: receipts, batches, recommendations *)

Record receipt_item : Type := mk_receipt_item {
  ri_name : string;
  ri_quantity : Z;
  ri_unit_price : float;
  ri_total : float;
  ri_tax : float
}.

Record receipt : Type := mk_receipt {
  r_transaction_id : Z;
  r_date : string;
  r_time : string;
  r_items : list receipt_item;
  r_subtotal : float;
  r_tax : float;
  r_total : float;
  r_payment_method : string
}.

(** A dict with the key ["error"], or the payload. *)
Inductive or_error (A : Type) : Type :=
| Error (msg : string)
| Found (a : A).
Arguments Error {A} msg.
Arguments Found {A} a.

Definition generate_receipt (d : db) (transaction_id : Z) : or_error receipt :=
  match find (fun t => Txn.transaction_id t =? transaction_id) (transactions d) with
  | None => Error "Transaction not found"
  | Some transaction =>
      let items :=
        flat_map
          (fun ti =>
             map (fun b =>
                    mk_receipt_item (Bev.name b) (TxnItem.quantity ti)
                      (TxnItem.unit_price ti) (TxnItem.line_total ti)
                      (TxnItem.tax_amount ti))
                 (filter (fun b => String.eqb (TxnItem.item_id ti) (Bev.id b))
                         (bevs d)))
          (filter (fun ti => TxnItem.transaction_id ti =? transaction_id)
                  (transaction_items d)) in
      Found (mk_receipt
               (Txn.transaction_id transaction)
               (Txn.transaction_date transaction)
               (Txn.transaction_time transaction)
               items
               (PrimFloat.sub (Txn.total_amount transaction)
                              (Txn.tax_amount transaction))
               (Txn.tax_amount transaction)
               (Txn.total_amount transaction)
               (Txn.payment_method transaction))
  end.

(** [timestamp] is SQLite's CURRENT_TIMESTAMP. *)
Definition create_batch_order (d : db) (timestamp : string)
  (table_number : string) (customer_id : option Z) : db * Z :=
  let batch_id := lastrowid (map Batch.batch_id (order_batches d)) in
  (set_order_batches d
     (order_batches d ++
      [Batch.mk batch_id timestamp table_number "pending" customer_id]),
   batch_id).

Definition add_to_batch (d : db) (batch_id : Z) (bev_id : string)
  (quantity : Z) (notes : option string) : db * bool :=
  (set_batch_items d
     (batch_items d ++
      [BatchItem.mk (lastrowid (map BatchItem.item_id (batch_items d)))
                    batch_id bev_id quantity notes "pending"]),
   true).

Record batch_order_item : Type := mk_batch_order_item {
  boi_id : Z;
  boi_name : string;
  boi_quantity : Z;
  boi_unit_price : Z;
  boi_notes : option string;
  boi_status : string
}.

Record batch_order : Type := mk_batch_order {
  bo_batch_id : Z;
  bo_order_time : string;
  bo_table_number : string;
  bo_status : string;
  bo_customer_id : option Z;
  bo_items : list batch_order_item;
  bo_subtotal : Z;
  bo_tax : num;
  bo_total : num
}.

Definition get_batch_order (d : db) (batch_id : Z) : or_error batch_order :=
  match find (fun b => Batch.batch_id b =? batch_id) (order_batches d) with
  | None => Error "Batch order not found"
  | Some batch =>
      let items :=
        flat_map
          (fun bi =>
             map (fun b =>
                    mk_batch_order_item (BatchItem.item_id bi) (Bev.name b)
                      (BatchItem.quantity bi) (Bev.price b)
                      (BatchItem.notes bi) (BatchItem.status bi))
                 (filter (fun b => String.eqb (BatchItem.bev_id bi) (Bev.id b))
                         (bevs d)))
          (filter (fun bi => BatchItem.batch_id bi =? batch_id) (batch_items d)) in
      let subtotal :=
        fold_left Z.add
          (map (fun item => boi_quantity item * boi_unit_price item) items) 0 in
      let tax_rate := f0_07 in
      let tax := py_mul (NInt subtotal) (NFloat tax_rate) in
      let total := py_add (NInt subtotal) tax in
      Found (mk_batch_order (Batch.batch_id batch) (Batch.order_time batch)
               (Batch.table_number batch) (Batch.status batch)
               (Batch.customer_id batch) items subtotal tax total)
  end.

Definition set_batch_status (d : db) (batch_id : Z) (status : string) : db :=
  set_order_batches d
    (map (fun b =>
            if Batch.batch_id b =? batch_id then
              Batch.mk (Batch.batch_id b) (Batch.order_time b)
                       (Batch.table_number b) status (Batch.customer_id b)
            else b)
         (order_batches d)).

Section RenderingBatches.

Variable real_text : float -> string.

(** Processes a batch order into a transaction; [-1] when the batch is not
    found.  The id handed to [create_transaction] is the ["id"] of the batch
    view, which is the row id of the batch item. *)
Definition process_batch_to_transaction (d : db) (now : clock) (batch_id : Z)
  (payment_method : string) : db * exc Z :=
  match get_batch_order d batch_id with
  | Error _ => (d, Ok (-1))
  | Found batch =>
      let items :=
        map (fun item =>
               mk_tx_item (PInt (boi_id item)) (boi_quantity item)
                          (Some (PStr "pour/shot")))
            (bo_items batch) in
      match create_transaction real_text d now payment_method items None with
      | (d1, Raise e) => (d1, Raise e)
      | (d1, Ok transaction_id) =>
          (set_batch_status d1 batch_id "completed", Ok transaction_id)
      end
  end.

End RenderingBatches.

Record recommendation_dict : Type := mk_recommendation_dict {
  rd_id : string;
  rd_name : string;
  rd_category : string;
  rd_price : Z;
  rd_confidence : float
}.

(** The first query of [get_recommendations]: the recommendation rows of
    [bev_id] joined with the catalog, highest confidence first. *)
Definition explicit_recommendations (d : db) (bev_id : string) (limit : Z)
  : list recommendation_dict :=
  limit_rows limit
    (order_by (fun x y => real_leb (rd_confidence y) (rd_confidence x))
       (flat_map
          (fun r =>
             map (fun b =>
                    mk_recommendation_dict
                      (Recommendation.recommended_bev_id r) (Bev.name b)
                      (Bev.category b) (Bev.price b)
                      (Recommendation.confidence r))
                 (filter (fun b =>
                            String.eqb (Recommendation.recommended_bev_id r)
                                       (Bev.id b))
                         (bevs d)))
          (filter (fun r => String.eqb (Recommendation.bev_id r) bev_id)
                  (drink_recommendations d)))).

(** The second query: the other beverages of a category and subcategory,
    best selling first. *)
Definition similar_bevs (d : db) (category subcategory bev_id : string)
  (limit : Z) : list Bev.t :=
  limit_rows limit
    (order_by (fun x y => Bev.sales y <=? Bev.sales x)
       (filter (fun b =>
                  andb (String.eqb (Bev.category b) category)
                    (andb (String.eqb (Bev.subcategory b) subcategory)
                          (negb (String.eqb (Bev.id b) bev_id))))
               (bevs d))).

Definition get_recommendations (d : db) (bev_id : string) (limit : Z)
  : list recommendation_dict :=
  match explicit_recommendations d bev_id limit with
  | (_ :: _) as recommendations => recommendations
  | [] =>
      match find (fun b => String.eqb (Bev.id b) bev_id) (bevs d) with
      | None => []
      | Some bev_data =>
          map (fun bev =>
                 mk_recommendation_dict (Bev.id bev) (Bev.name bev)
                   (Bev.category bev) (Bev.price bev) f0_7)
              (similar_bevs d (Bev.category bev_data) (Bev.subcategory bev_data)
                            bev_id limit)
      end
  end.

(** A NaN is bound as NULL, which the NOT NULL column refuses. *)
Definition add_recommendation (d : db) (bev_id recommended_bev_id : string)
  (confidence : float) : db * exc bool :=
  if is_nan confidence then (d, Raise IntegrityError)
  else
    let same r :=
      andb (String.eqb (Recommendation.bev_id r) bev_id)
           (String.eqb (Recommendation.recommended_bev_id r) recommended_bev_id) in
    if existsb same (drink_recommendations d) then
      (set_drink_recommendations d
         (map (fun r =>
                 if same r then
                   Recommendation.mk (Recommendation.recommendation_id r)
                     (Recommendation.bev_id r)
                     (Recommendation.recommended_bev_id r) confidence
                 else r)
              (drink_recommendations d)),
       Ok true)
    else
      (set_drink_recommendations d
         (drink_recommendations d ++
          [Recommendation.mk
             (lastrowid (map Recommendation.recommendation_id
                             (drink_recommendations d)))
             bev_id recommended_bev_id confidence]),
       Ok true).

(* ================================================================== *)
(** ** [DatabaseDriver]: the two methods on [self.conn] *)

(** The rows of the join in [finalize_batch]:
    [(bev_id, quantity, price, inventory)]. *)
Definition legacy_items (c : Legacy.t) (batch_id : Z)
  : list (string * Z * Z * Z) :=
  flat_map
    (fun it =>
       map (fun b => (Legacy.bev_id it, Legacy.quantity it,
                      Legacy.price b, Legacy.inventory b))
           (filter (fun b => String.eqb (Legacy.bev_id it) (Legacy.id b))
                   (Legacy.beverages c)))
    (filter (fun it => Legacy.item_batch_id it =? batch_id)
            (Legacy.batch_items c)).

(** The inventory loop; [None] is the ROLLBACK. *)
Fixpoint update_inventory (beverages : list Legacy.beverage)
  (items : list (string * Z * Z * Z)) : option (list Legacy.beverage) :=
  match items with
  | [] => Some beverages
  | (bev_id, quantity, _, curr_inventory) :: items' =>
      let new_inventory := curr_inventory - quantity in
      if new_inventory <? 0 then None
      else
        update_inventory
          (map (fun b =>
                  if String.eqb (Legacy.id b) bev_id then
                    Legacy.mk_beverage (Legacy.id b) (Legacy.price b)
                      new_inventory (Legacy.sales b + quantity)
                  else b)
               beverages)
          items'
  end.

(** Without [conn] the first statement raises AttributeError, which the
    outer handler turns into False. *)
Definition finalize_batch (drv : DatabaseDriver) (batch_id : Z)
  (payment_method : string) : DatabaseDriver * bool :=
  match conn drv with
  | None => (drv, false)
  | Some c =>
      match legacy_items c batch_id with
      | [] => (drv, false)
      | items =>
          let total :=
            fold_left Z.add
              (map (fun '(_, quantity, price, _) => quantity * price) items) 0 in
          match update_inventory (Legacy.beverages c) items with
          | None => (drv, false)
          | Some beverages =>
              (mkdriver (store drv)
                 (Some (Legacy.mk beverages
                          (map (fun b =>
                                  if Legacy.batch_id b =? batch_id then
                                    Legacy.mk_batch (Legacy.batch_id b) "paid"
                                      (Some payment_method) (Some total)
                                  else b)
                               (Legacy.batches c))
                          (Legacy.batch_items c))),
               true)
          end
      end
  end.

Definition cancel_batch (drv : DatabaseDriver) (batch_id : Z)
  : DatabaseDriver * bool :=
  match conn drv with
  | None => (drv, false)
  | Some c =>
      let hit b :=
        andb (Legacy.batch_id b =? batch_id)
             (String.eqb (Legacy.status b) "pending") in
      (mkdriver (store drv)
         (Some (Legacy.mk (Legacy.beverages c)
                  (map (fun b =>
                          if hit b then
                            Legacy.mk_batch (Legacy.batch_id b) "cancelled"
                              (Legacy.payment_method b) (Legacy.total b)
                          else b)
                       (Legacy.batches c))
                  (Legacy.batch_items c))),
       existsb hit (Legacy.batches c))
  end.

(** The driver with its database file replaced. *)
Definition on_store (drv : DatabaseDriver) (d : db) : DatabaseDriver :=
  mkdriver d (conn drv).

(* ================================================================== *)
(** ** [AssistantFnc]: the function-call surface of [api.py] *)

Module AssistantFnc.

(** The module-level [DB] and the session's [_current_batch_id]. *)
Record t : Type := mk {
  DB : DatabaseDriver;
  _current_batch_id : option Z
}.

(** Truth value of [self._current_batch_id]. *)
Definition has_batch (self : t) : option Z :=
  match _current_batch_id self with
  | Some 0 | None => None
  | Some batch_id => Some batch_id
  end.

(** The sentences the functions answer with. *)
Inductive reply : Type :=
| BatchCreated (batch_id : Z) (table_number : string)
| FailedToCreateBatch
| NoActiveBatch
| BeverageNotFound (bev_id : string)
| Added (quantity : Z) (name : string) (batch_id : Z)
| FailedToAdd
| NoValidItems
| TransactionCreated (transaction_id : Z)
| FailedToCreateTransaction
| InvalidItemsFormat
| ErrorProcessing (e : pyerr)
| ErrorFinalizing (e : pyerr)
| BatchCancelled
| FailedToCancel.

Definition create_batch_order (self : t) (timestamp table_number : string)
  (customer_id : option Z) : t * reply :=
  let (d, batch_id) :=
    create_batch_order (store (DB self)) timestamp table_number customer_id in
  if batch_id =? 0 then
    (mk (on_store (DB self) d) (_current_batch_id self), FailedToCreateBatch)
  else
    (mk (on_store (DB self) d) (Some batch_id),
     BatchCreated batch_id table_number).

(** The literal id first, then the id derived from the text as a name. *)
Definition resolve (d : db) (bev_id : string) : option (string * Bev.t) :=
  match get_bev_by_id d bev_id with
  | Some result => Some (bev_id, result)
  | None =>
      let generated_id := _generate_id bev_id in
      match get_bev_by_id d generated_id with
      | Some result => Some (generated_id, result)
      | None => None
      end
  end.

Definition add_to_batch (self : t) (bev_id : string) (quantity : Z)
  (notes : option string) : t * reply :=
  match has_batch self with
  | None => (self, NoActiveBatch)
  | Some batch_id =>
      match resolve (store (DB self)) bev_id with
      | None => (self, BeverageNotFound bev_id)
      | Some (bev_id', result) =>
          let (d, ok) :=
            add_to_batch (store (DB self)) batch_id bev_id' quantity notes in
          if ok then
            (mk (on_store (DB self) d) (_current_batch_id self),
             Added quantity (Bev.name result) batch_id)
          else (mk (on_store (DB self) d) (_current_batch_id self), FailedToAdd)
      end
  end.

(** [for item in items]: the elements of a list, the keys of a dict, the
    characters of a string. *)
Fixpoint chars (s : string) : list pyval :=
  match s with
  | EmptyString => []
  | String c s' => PStr (String c EmptyString) :: chars s'
  end.

Definition py_iter (v : pyval) : exc (list pyval) :=
  match v with
  | PList l => Ok l
  | PDict d => Ok (map (fun kv => PStr (fst kv)) d)
  | PStr s => Ok (chars s)
  | _ => Raise TypeError
  end.


(** The loop that builds [formatted_items]; [int] may raise.  A kept dict
    is recorded by the three keys that [create_transaction] reads. *)
Fixpoint format_items (items : list pyval) : exc (list tx_item) :=
  match items with
  | [] => Ok []
  | item :: items' =>
      match item with
      | PDict d =>
          match dict_get "id" d, dict_get "quantity" d with
          | Some id, Some quantity =>
              q <- py_int quantity ;;
              rest <- format_items items' ;;
              Ok (mk_tx_item id q (dict_get "tax_category" d) :: rest)
          | _, _ => format_items items'
          end
      | _ => format_items items'
      end
  end.

Section Rendering.

Variable real_text : float -> string.

(** [items] is the value of [json.loads(items_json)], or [None] when the
    text is not JSON. *)
Definition create_transaction (self : t) (now : clock) (items : option pyval)
  (payment_method : string) (employee_id : option Z) : t * reply :=
  match items with
  | None => (self, InvalidItemsFormat)
  | Some items =>
      match (elements <- py_iter items ;; format_items elements) with
      | Raise e => (self, ErrorProcessing e)
      | Ok [] => (self, NoValidItems)
      | Ok formatted_items =>
          match create_transaction real_text (store (DB self)) now
                  payment_method formatted_items employee_id with
          | (d, Raise e) =>
              (mk (on_store (DB self) d) (_current_batch_id self),
               ErrorProcessing e)
          | (d, Ok transaction_id) =>
              if transaction_id =? 0 then
                (mk (on_store (DB self) d) (_current_batch_id self),
                 FailedToCreateTransaction)
              else
                (mk (on_store (DB self) d) (_current_batch_id self),
                 TransactionCreated transaction_id)
          end
      end
  end.

End Rendering.

(** [DB.finalize_batch] is called with one positional argument more than
    the method takes. *)
Definition finalize_batch (self : t) (payment_method : string)
  (employee_id : option Z) : t * reply :=
  match has_batch self with
  | None => (self, NoActiveBatch)
  | Some _ => (self, ErrorFinalizing TypeError)
  end.

Definition cancel_batch (self : t) : t * reply :=
  match has_batch self with
  | None => (self, NoActiveBatch)
  | Some batch_id =>
      let (drv, ok) := cancel_batch (DB self) batch_id in
      if ok then (mk drv None, BatchCancelled)
      else (mk drv (_current_batch_id self), FailedToCancel)
  end.

End AssistantFnc.

(* ================================================================== *)
(** ** Calls on a driver *)

(** The methods of [DatabaseDriver] that write to the tables above. *)
Inductive call : Type :=
| CreateBev (id name category subcategory : string) (price inventory : Z)
            (image : string) (sales : Z)
| DeleteBev (id : string)
| InitializeTaxRates
| CreateTransaction (now : clock) (payment_method : string)
                    (items : list tx_item) (employee_id : option Z)
| CreateBatchOrder (timestamp table_number : string) (customer_id : option Z)
| AddToBatch (batch_id : Z) (bev_id : string) (quantity : Z)
             (notes : option string)
| ProcessBatchToTransaction (now : clock) (batch_id : Z)
                            (payment_method : string)
| AddRecommendation (bev_id recommended_bev_id : string) (confidence : float)
| FinalizeBatch (batch_id : Z) (payment_method : string)
| CancelBatch (batch_id : Z).

Definition run (real_text : float -> string) (drv : DatabaseDriver) (c : call)
  : DatabaseDriver :=
  match c with
  | CreateBev id name category subcategory price inventory image sales =>
      on_store drv
        (fst (create_bev (store drv) id name category subcategory price
                         inventory image sales))
  | DeleteBev id => on_store drv (fst (delete_bev (store drv) id))
  | InitializeTaxRates => on_store drv (initialize_tax_rates (store drv))
  | CreateTransaction now payment_method items employee_id =>
      on_store drv
        (fst (create_transaction real_text (store drv) now payment_method items
                                 employee_id))
  | CreateBatchOrder timestamp table_number customer_id =>
      on_store drv
        (fst (create_batch_order (store drv) timestamp table_number customer_id))
  | AddToBatch batch_id bev_id quantity notes =>
      on_store drv (fst (add_to_batch (store drv) batch_id bev_id quantity notes))
  | ProcessBatchToTransaction now batch_id payment_method =>
      on_store drv
        (fst (process_batch_to_transaction real_text (store drv) now batch_id
                                           payment_method))
  | AddRecommendation bev_id recommended_bev_id confidence =>
      on_store drv
        (fst (add_recommendation (store drv) bev_id recommended_bev_id confidence))
  | FinalizeBatch batch_id payment_method =>
      fst (finalize_batch drv batch_id payment_method)
  | CancelBatch batch_id => fst (cancel_batch drv batch_id)
  end.

(** The driver after [__init__] on a new database file, without seed data. *)
Definition new_driver : DatabaseDriver := mkdriver empty_db None.

(** The drivers that a sequence of calls leads to. *)
Inductive reachable (real_text : float -> string) : DatabaseDriver -> Prop :=
| reachable_new : reachable real_text new_driver
| reachable_run : forall drv c,
    reachable real_text drv -> reachable real_text (run real_text drv c).

(* ================================================================== *)
(** ** Vocabulary of the properties *)

(** *** Tax policy *)


(** The rows that [initialize_tax_rates] writes into an empty table. *)
Definition seeded_rates : list TaxRate.t :=
  [ TaxRate.mk 1 "pour/shot" f0_07 "Standard tax for individual pours/shots";
    TaxRate.mk 2 "glass" f0_07 "Standard tax for glass service";
    TaxRate.mk 3 "bottle" f0_09 "Higher tax rate for bottle service";
    TaxRate.mk 4 "event" f0_10 "Special tax rate for event packages" ].

(** *** Ledger *)

(** The tables that writing a transaction leaves alone. *)
Definition same_catalog (d d' : db) : Prop :=
  bevs d' = bevs d
  /\ tax_rates d' = tax_rates d
  /\ order_batches d' = order_batches d
  /\ batch_items d' = batch_items d
  /\ drink_recommendations d' = drink_recommendations d.

(** A computed line: the [line_total] and the [tax_amount] that
    [calculate_item_tax] returned for an item. *)
Definition line : Type := (num * float)%type.

(** [row] is the row that the loop of [create_transaction] writes for [item]
    when the item's line is [l]. *)
Definition item_row (real_text : float -> string) (d : db) (transaction_id : Z)
  (item : tx_item) (l : line) (row : TxnItem.t) : Prop :=
  calculate_item_tax real_text d (it_id item) (it_quantity item) (category_of item)
  = Ok (fst l, NFloat (snd l))
  /\ TxnItem.transaction_id row = transaction_id
  /\ (item_id <- bind_param (it_id item) ;; Ok (text_affinity real_text item_id))
     = Ok (Some (TxnItem.item_id row))
  /\ TxnItem.quantity row = it_quantity item
  /\ TxnItem.unit_price row = to_float (unit_price_of (fst l) (it_quantity item))
  /\ TxnItem.line_total row = to_float (fst l)
  /\ TxnItem.tax_amount row = snd l.

(** Python's running sum, from the int [0]. *)
Definition py_sum (l : list num) : num := fold_left py_add l (NInt 0).







(** *** Recommendations *)

(** The rows of the first query before ordering and limit: each
    recommendation row of [bev_id] joined with the catalog row of the
    beverage it recommends. *)
Definition joined_recommendations (d : db) (bev_id : string)
  : list recommendation_dict :=
  flat_map
    (fun r =>
       map (fun b =>
              mk_recommendation_dict
                (Recommendation.recommended_bev_id r) (Bev.name b)
                (Bev.category b) (Bev.price b) (Recommendation.confidence r))
           (filter (fun b =>
                      String.eqb (Recommendation.recommended_bev_id r) (Bev.id b))
                   (bevs d)))
    (filter (fun r => String.eqb (Recommendation.bev_id r) bev_id)
            (drink_recommendations d)).

(** The other beverages of the category and subcategory of [bev]. *)
Definition siblings (d : db) (bev : Bev.t) (bev_id : string) : list Bev.t :=
  filter (fun b =>
            andb (String.eqb (Bev.category b) (Bev.category bev))
              (andb (String.eqb (Bev.subcategory b) (Bev.subcategory bev))
                    (negb (String.eqb (Bev.id b) bev_id))))
         (bevs d).

Definition confidence_desc (x y : recommendation_dict) : Prop :=
  real_leb (rd_confidence y) (rd_confidence x) = true.

Definition sales_desc (x y : Bev.t) : Prop := Bev.sales y <= Bev.sales x.

(** No stored confidence is NaN: the column is NOT NULL and NaN is bound as
    NULL. *)
Definition confidences_stored (d : db) : Prop :=
  forall r, In r (drink_recommendations d) ->
            is_nan (Recommendation.confidence r) = false.

(** *** Batches *)

(** The row that [add_to_batch] appends. *)
Definition new_batch_item (d : db) (batch_id : Z) (bev_id : string)
  (quantity : Z) (notes : option string) : BatchItem.t :=
  BatchItem.mk (lastrowid (map BatchItem.item_id (batch_items d)))
               batch_id bev_id quantity notes "pending".

(** The status of a batch of the store. *)
Definition batch_status (d : db) (batch_id : Z) : option string :=
  option_map Batch.status
    (find (fun b => Batch.batch_id b =? batch_id) (order_batches d)).

(** Inventory and sales counter of a beverage of the catalog. *)
Definition stock (d : db) (id : string) : option (Z * Z) :=
  option_map (fun b => (Bev.inventory b, Bev.sales b)) (get_bev_by_id d id).

(* ================================================================== *)
(** ** Runs of the engine *)

(** No run below holds a REAL where a TEXT is expected, so the rendering of
    REAL values is never consulted in them. *)
Definition plain_text (f : float) : string := "".

Definition noon : clock := mkclock "2025-01-01" "12:00:00".

(** One beverage, ten in stock, and the call that leads there. *)
Definition bar : db :=
  fst (create_bev empty_db "mojito" "Mojito" "Cocktails" "Rum" 1000 10 "" 0).

Definition bar_driver : DatabaseDriver :=
  run plain_text new_driver
      (CreateBev "mojito" "Mojito" "Cocktails" "Rum" 1000 10 "" 0).

(** A pending batch for table 5 that asks for [quantity] mojitos. *)
Definition bar_with_batch (quantity : Z) : db :=
  let d := fst (create_batch_order bar "2025-01-01 11:59:00" "5" None) in
  fst (add_to_batch d 1 "mojito" quantity None).

(** The batch of three mojitos, processed into a transaction. *)
Definition served : db :=
  fst (process_batch_to_transaction plain_text (bar_with_batch 3) noon 1 "cash").







(** Three rums; "daiquiri" is recommended for "mojito" and then deleted. *)
Definition shelf : db :=
  let d := fst (create_bev bar "daiquiri" "Daiquiri" "Cocktails" "Rum" 900 5 "" 7) in
  let d := fst (create_bev d "cuba_libre" "Cuba Libre" "Cocktails" "Rum" 800 5 "" 3) in
  let d := fst (add_recommendation d "mojito" "daiquiri" 0.5%float) in
  fst (delete_bev d "daiquiri").

(** The calls that add a second rum to [bar] and recommend it for the
    mojito. *)
Definition pairing_driver : DatabaseDriver :=
  let drv := run plain_text bar_driver
               (CreateBev "cuba_libre" "Cuba Libre" "Cocktails" "Rum" 800 5 "" 3) in
  run plain_text drv (AddRecommendation "mojito" "cuba_libre" 0.5%float).

(* ================================================================== *)
(** ** [DatabaseDriver]: seed data, listings and rankings *)

(** [count > 0] for the number of rows of [bevs]. *)
Definition _has_data (d : db) : bool := 0 <? Z.of_nat (List.length (bevs d)).

(** An entry of [drinks.json], by the keys that the loader reads; ['sales']
    may be missing. *)
Record drink : Type := mk_drink {
  drink_name : string;
  drink_category : string;
  drink_subcategory : string;
  drink_price : Z;
  drink_inventory : Z;
  drink_sales : option Z
}.

(** The loop of [_load_initial_data]. *)
Fixpoint load_drinks (d : db) (drinks : list drink) : db :=
  match drinks with
  | [] => d
  | drink :: drinks' =>
      let id := _generate_id (drink_name drink) in
      load_drinks
        (fst (create_bev d id (drink_name drink) (drink_category drink)
                (drink_subcategory drink) (drink_price drink)
                (drink_inventory drink) ""
                (match drink_sales drink with Some sales => sales | None => 0 end)))
        drinks'
  end.

(** [drinks_json] is the content of [drinks.json], [None] when there is no
    such file. *)
Definition _load_initial_data (d : db) (drinks_json : option (list drink)) : db :=
  match drinks_json with
  | None => d
  | Some drinks => load_drinks d drinks
  end.

(** [DatabaseDriver(db_path)] on the database [file]: [_init_db] creates the
    tables that are missing and keeps the rows that are there. *)
Definition __init__ (file : db) (drinks_json : option (list drink))
  : DatabaseDriver :=
  mkdriver (if _has_data file then file else _load_initial_data file drinks_json)
           None.

Definition get_bevs_by_category (d : db) (category : string) : list Bev.t :=
  filter (fun b => String.eqb (Bev.category b) category) (bevs d).

(** The value of an optional text argument when it is true: neither [None]
    nor the empty string. *)
Definition truthy (s : option string) : option string :=
  match s with
  | None => None
  | Some EmptyString => None
  | Some s' => Some s'
  end.




(* ================================================================== *)
(** ** [DatabaseDriver]: events *)

Module Event.
Record t : Type := mk {
  event_id : Z;
  event_name : string;
  event_type : string;
  event_date : sqlval;
  event_time : sqlval;
  venue : string;
  description : option string;
  client_id : option Z;
  status : string
}.
End Event.

Module Booking.
Record t : Type := mk {
  booking_id : Z;
  event_id : Z;
  service_type : string;
  service_details : option string;
  cost : float;
  drink_package : string
}.
End Booking.

(** The tables [events] and [event_bookings] of the database file; the
    operations on them touch no other table. *)
Record event_db : Type := mk_event_db {
  events : list Event.t;
  event_bookings : list Booking.t
}.


Record event_details : Type := mk_event_details {
  ed_event_id : Z;
  ed_name : string;
  ed_type : string;
  ed_date : sqlval;
  ed_time : sqlval;
  ed_venue : string;
  ed_description : option string;
  ed_client_id : option Z;
  ed_status : string;
  ed_drink_package : option string;
  ed_package_cost : option float
}.

Section Events.

(** The columns [event_date] and [event_time] are declared DATE and TIME,
    which gives them NUMERIC affinity: [numeric_affinity] is what SQLite
    stores for a text bound to such a column (a text that reads as a number
    is stored as that number). *)
Variable numeric_affinity : string -> sqlval.

(** The status is the column's default. *)
Definition create_event (s : event_db) (name event_type date time venue : string)
  (client_id : option Z) (description : option string) : event_db * Z :=
  let event_id := lastrowid (map Event.event_id (events s)) in
  (mk_event_db
     (events s ++
      [Event.mk event_id name event_type (numeric_affinity date)
                (numeric_affinity time) venue description client_id "pending"])
     (event_bookings s),
   event_id).

End Events.

Definition create_event_booking (s : event_db) (event_id : Z)
  (service_type drink_package : string) (cost : num) (details : option string)
  : event_db * exc Z :=
  match real_not_null cost with
  | Raise e => (s, Raise e)
  | Ok cost' =>
      let booking_id := lastrowid (map Booking.booking_id (event_bookings s)) in
      (mk_event_db (events s)
         (event_bookings s ++
          [Booking.mk booking_id event_id service_type details cost'
                      drink_package]),
       Ok booking_id)
  end.

(** The first row of the left join: the event with its first booking, or
    with NULLs when it has none. *)
Definition get_event_details (s : event_db) (event_id : Z)
  : option event_details :=
  match find (fun e => Event.event_id e =? event_id) (events s) with
  | None => None
  | Some e =>
      let booking :=
        find (fun eb => Event.event_id e =? Booking.event_id eb)
             (event_bookings s) in
      Some (mk_event_details (Event.event_id e) (Event.event_name e)
              (Event.event_type e) (Event.event_date e) (Event.event_time e)
              (Event.venue e) (Event.description e) (Event.client_id e)
              (Event.status e)
              (option_map Booking.drink_package booking)
              (option_map Booking.cost booking))
  end.

(* ================================================================== *)
(** ** [AssistantFnc]: the selected beverage, listings and texts *)

(** [x < y] on two floats. *)
Definition real_ltb (x y : float) : bool := SFltb (Prim2SF x) (Prim2SF y).

Definition f0_3 : float := 0x1.3333333333333p-2%float.

Definition newline : string := String "010"%char EmptyString.

Module Assistant.

(** An [AssistantFnc] object: the part modelled in [AssistantFnc] and the
    attribute [_bev_details], a dict with the keys of [BevDetails]. *)
Record t : Type := mk {
  fnc : AssistantFnc.t;
  _bev_details : Bev.t
}.

(** The dict that [__init__] sets and that [delete_bev] resets to: [""] for
    the texts and [0] for the numbers. *)
Definition no_details : Bev.t := Bev.mk "" "" "" "" 0 0 "" 0.

Definition __init__ (DB : DatabaseDriver) : t :=
  mk (AssistantFnc.mk DB None) no_details.

(** The database file behind the session. *)
Definition file (self : t) : db := store (AssistantFnc.DB (fnc self)).

(** The session with the database file replaced and the selection set. *)
Definition with_file (self : t) (d : db) (details : Bev.t) : t :=
  mk (AssistantFnc.mk (on_store (AssistantFnc.DB (fnc self)) d)
                      (AssistantFnc._current_batch_id (fnc self)))
     details.

(** One line per key, in the order of the dict. *)
Definition get_bev_str (self : t) : string :=
  let b := _bev_details self in
  "id: " ++ Bev.id b ++ newline ++
  "name: " ++ Bev.name b ++ newline ++
  "category: " ++ Bev.category b ++ newline ++
  "subcategory: " ++ Bev.subcategory b ++ newline ++
  "price: " ++ dec_of_Z (Bev.price b) ++ newline ++
  "inventory: " ++ dec_of_Z (Bev.inventory b) ++ newline ++
  "image: " ++ Bev.image b ++ newline ++
  "sales: " ++ dec_of_Z (Bev.sales b) ++ newline.

Definition lookup_bev (self : t) (bev_id : string) : t * string :=
  let result :=
    match get_bev_by_id (file self) bev_id with
    | Some result => Some result
    | None => get_bev_by_id (file self) (_generate_id bev_id)
    end in
  match result with
  | None => (self, "Beverage not found")
  | Some result =>
      let self' := mk (fnc self) result in
      (self', "The beverage details are:" ++ newline ++ get_bev_str self')
  end.

Definition get_bev_details (self : t) : string :=
  "The beverage details are:" ++ newline ++ get_bev_str self.

Definition has_bev (self : t) : bool :=
  negb (String.eqb (Bev.id (_bev_details self)) "").

(** The answer of [check_inventory_levels]: a sentence, or [None]. *)
Inductive inventory_status : Type :=
| NoBeverageSelected
| LowInventory (bev_name : string) (inventory : Z)
| NoAlert.

Definition check_inventory_levels (self : t) : inventory_status :=
  if has_bev self then
    let bev_name := Bev.name (_bev_details self) in
    let inventory := Bev.inventory (_bev_details self) in
    let initial_inventory := 100 in
    if real_ltb (to_float (py_truediv (NInt inventory) initial_inventory)) f0_3
    then LowInventory bev_name inventory
    else NoAlert
  else NoBeverageSelected.

(** [new or current]: the current value when [new] is [None] or empty. *)
Definition or_current (new : option string) (current : string) : string :=
  match truthy new with
  | Some s => s
  | None => current
  end.

Definition update_bev (self : t) (bev_id : string)
  (name category subcategory : option string) (price inventory : option Z)
  (image : option string) : t * string :=
  match get_bev_by_id (file self) bev_id with
  | None => (self, "Beverage not found")
  | Some current_bev =>
      let name := or_current name (Bev.name current_bev) in
      let category := or_current category (Bev.category current_bev) in
      let subcategory := or_current subcategory (Bev.subcategory current_bev) in
      let price :=
        match price with Some p => p | None => Bev.price current_bev end in
      let inventory :=
        match inventory with Some i => i | None => Bev.inventory current_bev end in
      let image := or_current image (Bev.image current_bev) in
      let (d, result) :=
        create_bev (file self) bev_id name category subcategory price inventory
                   image (Bev.sales current_bev) in
      (with_file self d result, "Beverage updated successfully!")
  end.

Definition create_bev (self : t) (bev_id name category subcategory : string)
  (price inventory : Z) (image : string) (sales : Z) : t * string :=
  let (d, result) :=
    create_bev (file self) bev_id name category subcategory price inventory
               image sales in
  (with_file self d result, "beverage created!").

Definition delete_bev (self : t) (bev_id : string) : t * string :=
  let (d, deleted) := delete_bev (file self) bev_id in
  if deleted then
    (with_file self d
       (if String.eqb (Bev.id (_bev_details self)) bev_id then no_details
        else _bev_details self),
     "Beverage deleted successfully!")
  else (with_file self d (_bev_details self), "Failed to delete beverage").

Section Texts.

(** Python's [format(x, '.2f')] and [format(x, '.0f')]. *)
Variable format_2f : float -> string.
Variable format_0f : float -> string.

(** [price/100] in dollars, for an integer price. *)
Definition dollars (price : Z) : string :=
  format_2f (to_float (py_truediv (NInt price) 100)).

(** [amount/100] in dollars, for a float amount. *)
Definition dollars_of_real (amount : float) : string :=
  format_2f (to_float (py_truediv (NFloat amount) 100)).


Definition generate_receipt (self : t) (transaction_id : Z) : string :=
  match generate_receipt (file self) transaction_id with
  | Error msg => msg
  | Found receipt =>
      let receipt_text :=
        "Receipt #" ++ dec_of_Z (r_transaction_id receipt) ++ newline in
      let receipt_text :=
        receipt_text ++ "Date: " ++ r_date receipt ++ " " ++ r_time receipt
                     ++ newline ++ newline in
      let receipt_text := receipt_text ++ "Items:" ++ newline in
      let receipt_text :=
        fold_left
          (fun text item =>
             text ++ "  " ++ ri_name item ++ " x" ++ dec_of_Z (ri_quantity item)
                  ++ " @ $" ++ dollars_of_real (ri_unit_price item)
                  ++ " = $" ++ dollars_of_real (ri_total item) ++ newline)
          (r_items receipt) receipt_text in
      let receipt_text :=
        receipt_text ++ newline ++ "Subtotal: $"
                     ++ dollars_of_real (r_subtotal receipt) ++ newline in
      let receipt_text :=
        receipt_text ++ "Tax: $" ++ dollars_of_real (r_tax receipt) ++ newline in
      let receipt_text :=
        receipt_text ++ "Total: $" ++ dollars_of_real (r_total receipt)
                     ++ newline in
      receipt_text ++ "Payment method: " ++ r_payment_method receipt ++ newline
  end.

Definition get_recommendations (self : t) (bev_id : option string) (limit : Z)
  : string :=
  let bev_id :=
    match truthy bev_id with
    | Some id => Some id
    | None =>
        if has_bev self then truthy (Some (Bev.id (_bev_details self)))
        else None
    end in
  match bev_id with
  | None => "No beverage selected for recommendations"
  | Some bev_id =>
      match get_recommendations (file self) bev_id limit with
      | [] => "No recommendations found for " ++ bev_id
      | recommendations =>
          fold_left
            (fun result rec =>
               result ++ "- " ++ rd_name rec ++ " ($" ++ dollars (rd_price rec)
                      ++ ") - "
                      ++ format_0f (PrimFloat.mul (rd_confidence rec) (of_Z 100))
                      ++ "% match" ++ newline)
            recommendations
            ("Recommendations based on " ++ bev_id ++ ":" ++ newline)
      end
  end.

Definition get_batch_order (self : t) : string :=
  match AssistantFnc.has_batch (fnc self) with
  | None => "No active batch order"
  | Some batch_id =>
      match get_batch_order (file self) batch_id with
      | Error msg => msg
      | Found batch =>
          let batch_text :=
            "Batch Order #" ++ dec_of_Z (bo_batch_id batch) ++ newline in
          let batch_text :=
            batch_text ++ "Table: " ++ bo_table_number batch ++ newline in
          let batch_text :=
            batch_text ++ "Status: " ++ bo_status batch ++ newline ++ newline in
          let batch_text := batch_text ++ "Items:" ++ newline in
          let batch_text :=
            fold_left
              (fun text item =>
                 let text :=
                   text ++ "  " ++ boi_name item ++ " x"
                        ++ dec_of_Z (boi_quantity item) ++ " @ $"
                        ++ dollars (boi_unit_price item) in
                 let text :=
                   match truthy (boi_notes item) with
                   | Some notes => text ++ " - Note: " ++ notes
                   | None => text
                   end in
                 text ++ newline)
              (bo_items batch) batch_text in
          batch_text ++ newline ++ "Subtotal: $" ++ dollars (bo_subtotal batch)
      end
  end.

End Texts.

(** *** Events *)

Section EventTexts.

Variable numeric_affinity : string -> sqlval.

Definition create_event (s : event_db)
  (event_name event_type event_date event_time venue : string)
  (client_id : option Z) (description : option string) : event_db * string :=
  let (s', event_id) :=
    create_event numeric_affinity s event_name event_type event_date event_time
                 venue client_id description in
  if event_id =? 0 then (s', "Failed to create event")
  else (s', "Event " ++ dec_of_Z event_id ++ " created successfully!").

End EventTexts.

(** An exception of the driver leaves the function. *)
Definition add_event_package (s : event_db) (event_id : Z)
  (package_type : string) (cost : num) (details : option string)
  : event_db * exc string :=
  match create_event_booking s event_id "drink_package" package_type cost
                             details with
  | (s', Raise e) => (s', Raise e)
  | (s', Ok booking_id) =>
      if booking_id =? 0 then (s', Ok "Failed to add drink package")
      else (s', Ok ("Drink package added to event " ++ dec_of_Z event_id ++ "!"))
  end.

(** The text is ["Event Details:"] and the dict. *)
Definition get_event_details (s : event_db) (event_id : Z)
  : or_error event_details :=
  match get_event_details s event_id with
  | None => Error "Event not found"
  | Some event => Found event
  end.

(** *** Requests *)

(** The functions that may change the session or the database file. *)
Inductive request : Type :=
| LookupBev (bev_id : string)
| CreateBev (bev_id name category subcategory : string) (price inventory : Z)
            (image : string) (sales : Z)
| UpdateBev (bev_id : string) (name category subcategory : option string)
            (price inventory : option Z) (image : option string)
| DeleteBev (bev_id : string)
| CreateTransaction (now : clock) (items : option pyval)
                    (payment_method : string) (employee_id : option Z)
| CreateBatchOrder (timestamp table_number : string) (customer_id : option Z)
| AddToBatch (bev_id : string) (quantity : Z) (notes : option string)
| FinalizeBatch (payment_method : string) (employee_id : option Z)
| CancelBatch.

(** The session after a function of [AssistantFnc] on batches or
    transactions; the selection stays. *)
Definition on_fnc (self : t) (fnc' : AssistantFnc.t) : t :=
  mk fnc' (_bev_details self).

Definition respond (real_text : float -> string) (self : t) (r : request) : t :=
  match r with
  | LookupBev bev_id => fst (lookup_bev self bev_id)
  | CreateBev bev_id name category subcategory price inventory image sales =>
      fst (create_bev self bev_id name category subcategory price inventory
                      image sales)
  | UpdateBev bev_id name category subcategory price inventory image =>
      fst (update_bev self bev_id name category subcategory price inventory image)
  | DeleteBev bev_id => fst (delete_bev self bev_id)
  | CreateTransaction now items payment_method employee_id =>
      on_fnc self
        (fst (AssistantFnc.create_transaction real_text (fnc self) now items
                payment_method employee_id))
  | CreateBatchOrder timestamp table_number customer_id =>
      on_fnc self
        (fst (AssistantFnc.create_batch_order (fnc self) timestamp table_number
                customer_id))
  | AddToBatch bev_id quantity notes =>
      on_fnc self (fst (AssistantFnc.add_to_batch (fnc self) bev_id quantity notes))
  | FinalizeBatch payment_method employee_id =>
      on_fnc self
        (fst (AssistantFnc.finalize_batch (fnc self) payment_method employee_id))
  | CancelBatch => on_fnc self (fst (AssistantFnc.cancel_batch (fnc self)))
  end.

(** The sessions that requests lead to, from a new [AssistantFnc] object on
    a driver, the requests of the session being the only writes to the
    database file. *)
Inductive session (real_text : float -> string) : t -> Prop :=
| session_new : forall DB, session real_text (__init__ DB)
| session_respond : forall self r,
    session real_text self -> session real_text (respond real_text self r).

End Assistant.

(* ================================================================== *)
(** ** [Visualizer]: the beverages of the menu chart *)

(** The categories that [generate_visual_menu] asks for when it is given
    none. *)
Definition menu_categories : list string :=
  ["Signature"; "Classics"; "Beer"; "Wine"; "Spirits"; "Non-Alcoholic"].

Record menu_row : Type := mk_menu_row {
  mr_name : string;
  mr_category : string;
  mr_subcategory : string;
  mr_price : float;
  mr_inventory : Z
}.

(** The list [bevs] of [generate_visual_menu]. *)
Definition visual_menu_bevs (d : db) (category : option string) : list Bev.t :=
  match truthy category with
  | Some c => get_bevs_by_category d c
  | None => flat_map (get_bevs_by_category d) menu_categories
  end.

(** The rows of the data frame that [generate_visual_menu] charts, the price
    in dollars; the chart itself is plotly's. *)
Definition visual_menu_frame (d : db) (category : option string)
  : list menu_row :=
  map (fun bev =>
         mk_menu_row (Bev.name bev) (Bev.category bev) (Bev.subcategory bev)
           (to_float (py_truediv (NInt (Bev.price bev)) 100))
           (Bev.inventory bev))
      (visual_menu_bevs d category).

(* ================================================================== *)
(** ** The agent: [handle_query] of [agent.py] *)

(** [needle in hay] on two texts. *)
Definition contains (needle hay : string) : bool :=
  match String.index 0 needle hay with
  | Some _ => true
  | None => false
  end.

(** [sep.join(l)] *)
Fixpoint join (sep : string) (l : list string) : string :=
  match l with
  | [] => ""
  | [s] => s
  | s :: l' => s ++ sep ++ join sep l'
  end.

Definition CATEGORIES : list (string * list string) :=
  [ ("Signature", ["Fruity"; "Herbal"]);
    ("Classics", ["Whiskey"; "Vodka"]);
    ("Beer", ["Lagers"; "Ales"; "Other"]);
    ("Wine", ["Red"; "White"; "Sparkling"]);
    ("Spirits", ["Whiskey"; "Vodka"; "Rum"; "Tequila"; "Gin"; "Other"]);
    ("Non-Alcoholic", ["Sodas"; "Juices"; "Other"]) ].

Definition CATEGORY_HELP_MESSAGE : string :=
  newline ++ "Our menu is organized into the following categories:" ++ newline
  ++ join ", " (map fst CATEGORIES) ++ newline ++ newline
  ++ "Each category has specific types of drinks. Would you like to know more about any particular category?"
  ++ newline.

Definition get_subcategory_help (category : string) : string :=
  match find (fun entry => String.eqb (fst entry) category) CATEGORIES with
  | None =>
      "That category doesn't exist in our menu. Please choose from: "
      ++ join ", " (map fst CATEGORIES)
  | Some (_, types) =>
      "In " ++ category ++ " we have the following types: " ++ join ", " types
  end.

(** What [handle_query] puts into the conversation: a sentence of the
    assistant, the inventory alert, the answer of [create_transaction], or
    the user's message handed to the model. *)
Inductive agent_reply : Type :=
| Said (content : string)
| Alert (status : Assistant.inventory_status)
| TransactionResult (result : AssistantFnc.reply)
| PassedToModel (content : string).

Section Agent.

Variable real_text : float -> string.

(** [msg_content] is the text of the user's message and [now] the time of
    the call of [create_transaction].  The items of an order travel as JSON
    text, which [json.loads] reads back as the list that [json.dumps] was
    given. *)
Definition handle_query (bev_fnc : Assistant.t) (now : clock)
  (msg_content : string) : Assistant.t * agent_reply :=
  let content := str_map lower_ascii msg_content in
  match Assistant.check_inventory_levels bev_fnc with
  | Assistant.NoAlert =>
      if andb (contains "process" content)
              (orb (contains "order" content) (contains "transaction" content))
      then
        let items :=
          match truthy (Some (Bev.id (Assistant._bev_details bev_fnc))) with
          | Some id => [PDict [("id", PStr id); ("quantity", PInt 1)]]
          | None => []
          end in
        let (fnc', result) :=
          AssistantFnc.create_transaction real_text (Assistant.fnc bev_fnc) now
            (Some (PList items)) "cash" None in
        (Assistant.on_fnc bev_fnc fnc', TransactionResult result)
      else if orb (contains "categories" content) (contains "menu" content) then
        (bev_fnc, Said CATEGORY_HELP_MESSAGE)
      else if andb (contains "category" content) (contains "types" content) then
        match find (fun category =>
                      contains (str_map lower_ascii category) content)
                   (map fst CATEGORIES) with
        | Some category => (bev_fnc, Said (get_subcategory_help category))
        | None =>
            (bev_fnc,
             Said ("I'm not sure which category you're asking about. "
                   ++ CATEGORY_HELP_MESSAGE))
        end
      else (bev_fnc, PassedToModel msg_content)
  | inventory_status =>
      if andb (contains "yes" (str_map lower_ascii content))
              (contains "notify" (str_map lower_ascii content))
      then
        (bev_fnc,
         Said "I've notified Brian and Chris about the low inventory. They will handle the reorder soon.")
      else (bev_fnc, Alert inventory_status)
  end.

End Agent.

(* ================================================================== *)
(** ** Vocabulary of the further properties *)

(** The row that the loader writes for an entry of [drinks.json]. *)
Definition bev_of_drink (drink : drink) : Bev.t :=
  Bev.mk (_generate_id (drink_name drink)) (drink_name drink)
         (drink_category drink) (drink_subcategory drink) (drink_price drink)
         (drink_inventory drink) ""
         (match drink_sales drink with Some sales => sales | None => 0 end).


(** An ASCII capital letter. *)
Definition is_upper (c : ascii) : bool :=
  andb (Nat.leb 65 (nat_of_ascii c)) (Nat.leb (nat_of_ascii c) 90).

(** No two rows of [bevs] have the same id. *)
Definition catalog_keyed (d : db) : Prop := NoDup (map Bev.id (bevs d)).




(** The last entry of [drinks.json] whose name gives the id. *)
Definition last_drink (drinks : list drink) (id : string) : option drink :=
  find (fun drink => String.eqb id (_generate_id (drink_name drink)))
       (rev drinks).

(** A seed file of two entries whose names give the same id. *)
Definition two_mojitos : list drink :=
  [ mk_drink "Mojito" "Signature" "Herbal" 1000 10 None;
    mk_drink "mojito" "Classics" "Rum" 900 5 (Some 2) ].

(** The details of an event with the package of a booking filled in. *)
Definition with_package (details : event_details) (drink_package : string)
  (cost : float) : event_details :=
  mk_event_details (ed_event_id details) (ed_name details) (ed_type details)
    (ed_date details) (ed_time details) (ed_venue details)
    (ed_description details) (ed_client_id details) (ed_status details)
    (Some drink_package) (Some cost).


(** The selection of a session is current: it is the reset dict, or the row
    that the catalog holds under the selected id. *)
Definition selection_current (self : Assistant.t) : Prop :=
  Assistant._bev_details self = Assistant.no_details
  \/ get_bev_by_id (Assistant.file self) (Bev.id (Assistant._bev_details self))
     = Some (Assistant._bev_details self).

(** The current batch of a session, when it has one, is a pending batch of
    the store. *)
Definition batch_open (self : Assistant.t) : Prop :=
  forall batch_id,
    AssistantFnc.has_batch (Assistant.fnc self) = Some batch_id ->
    exists batch,
      find (fun b => Batch.batch_id b =? batch_id)
           (order_batches (Assistant.file self)) = Some batch
      /\ Batch.status batch = "pending".

(** The line of the batch view for a batch item and its beverage. *)
Definition view_line (bi : BatchItem.t) (b : Bev.t) : batch_order_item :=
  mk_batch_order_item (BatchItem.item_id bi) (Bev.name b) (BatchItem.quantity bi)
                      (Bev.price b) (BatchItem.notes bi) (BatchItem.status bi).

(** The tax categories that the tax table knows. *)
Definition taxed_categories (d : db) : list string :=
  map TaxRate.tax_type (tax_rates d).

(** An item whose tax category is a text of the tax table. *)
Definition taxed_item (d : db) (item : tx_item) : Prop :=
  exists c, category_of item = PStr c /\ In c (taxed_categories d).

(** The beverage id of a row of the join of [finalize_batch]. *)
Definition joined_id (row : string * Z * Z * Z) : string :=
  let '(bev_id, _, _, _) := row in bev_id.

(** The quantity that the rows of the join ask of a beverage id. *)
Definition asked (rows : list (string * Z * Z * Z)) (id : string) : Z :=
  fold_right Z.add 0
    (map (fun '(_, quantity, _, _) => quantity)
         (filter (fun row => String.eqb (joined_id row) id) rows)).

(** A beverage of [beverages] after [quantity] of it is sold. *)
Definition sold (quantity : Z) (b : Legacy.beverage) : Legacy.beverage :=
  Legacy.mk_beverage (Legacy.id b) (Legacy.price b)
                     (Legacy.inventory b - quantity) (Legacy.sales b + quantity).

(** The lines that the view of a batch id shows for the batch items of a
    store. *)
Definition view_lines (d : db) (batch_id : Z) : list batch_order_item :=
  flat_map
    (fun bi =>
       map (view_line bi)
           (filter (fun b => String.eqb (BatchItem.bev_id bi) (Bev.id b))
                   (bevs d)))
    (filter (fun bi => BatchItem.batch_id bi =? batch_id) (batch_items d)).

(** [p] holds of the [fuel] integers from [i] on. *)
Fixpoint all_from (fuel : nat) (i : Z) (p : Z -> bool) : bool :=
  match fuel with
  | O => true
  | S fuel' => andb (p i) (all_from fuel' (i + 1) p)
  end.

(** The test of [check_inventory_levels] on an inventory. *)
Definition runs_low (inventory : Z) : bool :=
  real_ltb (to_float (py_truediv (NInt inventory) 100)) f0_3.

(* ================================================================== *)
(** ** Further runs *)

(** The first entry of [two_mojitos]. *)
Definition first_mojito : drink :=
  mk_drink "Mojito" "Signature" "Herbal" 1000 10 None.

(** The mojito of [bar]. *)
Definition mojito : Bev.t :=
  Bev.mk "mojito" "Mojito" "Cocktails" "Rum" 1000 10 "" 0.

(** [bar] with batch 1 open for table 5 and no item. *)
Definition bar_with_empty_batch : db :=
  fst (create_batch_order bar "2025-01-01 11:59:00" "5" None).

(** [bar] with a second rum. *)
Definition two_rums : db :=
  fst (create_bev bar "cuba_libre" "Cuba Libre" "Cocktails" "Rum" 800 5 "" 3).

(** A session on [bar_driver] that has looked up the mojito by its name. *)
Definition regular : Assistant.t :=
  Assistant.respond plain_text (Assistant.__init__ bar_driver)
                    (Assistant.LookupBev "Mojito").

(** A session on [bar_driver] that has opened a batch for table 5. *)
Definition host : Assistant.t :=
  Assistant.respond plain_text (Assistant.__init__ bar_driver)
    (Assistant.CreateBatchOrder "2025-01-01 11:59:00" "5" None).

(** A session that has created a gin with fifty units in stock. *)
Definition stocked : Assistant.t :=
  Assistant.respond plain_text (Assistant.__init__ bar_driver)
    (Assistant.CreateBev "gin" "Gin" "Spirits" "Gin" 900 50 "" 0).

(** A connection with the tables of [finalize_batch]: two beverages, and a
    pending batch that asks for three mojitos. *)
Definition counter : Legacy.t :=
  Legacy.mk
    [ Legacy.mk_beverage "mojito" 1000 10 0; Legacy.mk_beverage "gin" 900 5 1 ]
    [ Legacy.mk_batch 1 "pending" None None ]
    [ Legacy.mk_item 1 "mojito" 3 ].

Definition counter_driver : DatabaseDriver := mkdriver empty_db (Some counter).





(* ================================================================== *)
(** * Properties *)

Unset Implicit Arguments.
Open Scope list_scope.

(** ** Lists *)

Lemma find_none_existsb {A : Type} (p : A -> bool) (l : list A) :
  existsb p l = false -> find p l = None.
Proof.
  induction l as [|a l IH]; simpl; [reflexivity|].
  destruct (p a); simpl; [discriminate | exact IH].
Qed.

Lemma find_app_none {A : Type} (p : A -> bool) (l l' : list A) :
  find p l = None -> find p (l ++ l') = find p l'.
Proof.
  induction l as [|a l IH]; simpl; [reflexivity|].
  destruct (p a); [discriminate | exact IH].
Qed.

Lemma find_app_some {A : Type} (p : A -> bool) (l l' : list A) (x : A) :
  find p l = Some x -> find p (l ++ l') = Some x.
Proof.
  induction l as [|a l IH]; simpl; [discriminate|].
  destruct (p a); [trivial | exact IH].
Qed.

Lemma find_replace {A : Type} (p : A -> bool) (x : A) (l : list A) :
  p x = true -> existsb p l = true ->
  find p (map (fun a => if p a then x else a) l) = Some x.
Proof.
  intros Hx. induction l as [|a l IH]; simpl; [discriminate|].
  destruct (p a) eqn:Ha; simpl.
  - rewrite Hx. reflexivity.
  - rewrite Ha. exact IH.
Qed.

Lemma existsb_replace {A : Type} (p : A -> bool) (x : A) (l : list A) :
  p x = true ->
  existsb p (map (fun a => if p a then x else a) l) = existsb p l.
Proof.
  intros Hx. induction l as [|a l IH]; simpl; [reflexivity|].
  destruct (p a) eqn:Ha; simpl.
  - rewrite Hx. reflexivity.
  - rewrite Ha. exact IH.
Qed.

Lemma replace_twice {A : Type} (p : A -> bool) (x : A) (l : list A) :
  p x = true ->
  map (fun a => if p a then x else a) (map (fun a => if p a then x else a) l)
  = map (fun a => if p a then x else a) l.
Proof.
  intros Hx. induction l as [|a l IH]; simpl; [reflexivity|].
  rewrite IH. destruct (p a) eqn:Ha; [rewrite Hx | rewrite Ha]; reflexivity.
Qed.

Lemma replace_absent {A : Type} (p : A -> bool) (x : A) (l : list A) :
  existsb p l = false -> map (fun a => if p a then x else a) l = l.
Proof.
  induction l as [|a l IH]; simpl; [reflexivity|].
  destruct (p a); simpl; [discriminate|].
  intros H. rewrite (IH H). reflexivity.
Qed.

Lemma find_replace_other {A : Type} (p q : A -> bool) (x : A) (l : list A) :
  q x = false -> (forall a, p a = true -> q a = false) ->
  find q (map (fun a => if p a then x else a) l) = find q l.
Proof.
  intros Hx Hpq. induction l as [|a l IH]; simpl; [reflexivity|].
  destruct (p a) eqn:Ha.
  - rewrite Hx, (Hpq a Ha). exact IH.
  - destruct (q a); [reflexivity | exact IH].
Qed.

Lemma existsb_app_singleton {A : Type} (p : A -> bool) (x : A) (l : list A) :
  p x = true -> existsb p (l ++ [x]) = true.
Proof.
  intros Hx. rewrite existsb_app. simpl. rewrite Hx.
  rewrite orb_true_r. reflexivity.
Qed.

(** ** Catalog *)

(** C8. Upserting a beverage and then looking its id up gives a record with
    the very fields that were written; a second upsert with the same data
    leaves the store as it is; the upsert appends a row when the id is absent
    and otherwise overwrites every field of the row that has it; rows of
    other ids are read as before. *)
Theorem C8_upsert_then_lookup :
  forall d id name category subcategory price inventory image sales,
    let bev := Bev.mk id name category subcategory price inventory image sales in
    let d' := fst (create_bev d id name category subcategory price inventory
                              image sales) in
    snd (create_bev d id name category subcategory price inventory image sales)
    = bev
    /\ get_bev_by_id d' id = Some bev
    /\ create_bev d' id name category subcategory price inventory image sales
       = (d', bev)
    /\ bevs d' =
       (if _bev_exists d id
        then map (fun b => if String.eqb (Bev.id b) id then bev else b) (bevs d)
        else bevs d ++ [bev])
    /\ (forall other, String.eqb other id = false ->
                      get_bev_by_id d' other = get_bev_by_id d other).
Proof.
  intros d id name category subcategory price inventory image sales bev d'.
  assert (Hbev : String.eqb (Bev.id bev) id = true) by apply String.eqb_refl.
  subst d'. unfold create_bev, get_bev_by_id, _bev_exists. fold bev.
  destruct (existsb (fun b => String.eqb (Bev.id b) id) (bevs d)) eqn:Hex; simpl.
  - repeat split.
    + apply (find_replace (fun b => String.eqb (Bev.id b) id) bev (bevs d) Hbev Hex).
    + rewrite (existsb_replace (fun b => String.eqb (Bev.id b) id) bev (bevs d) Hbev).
      rewrite Hex. simpl.
      rewrite (replace_twice (fun b => String.eqb (Bev.id b) id) bev (bevs d) Hbev).
      reflexivity.
    + intros other Hother.
      apply (find_replace_other (fun b => String.eqb (Bev.id b) id)
               (fun b => String.eqb (Bev.id b) other)).
      * simpl. rewrite String.eqb_sym. exact Hother.
      * intros a Ha. apply String.eqb_eq in Ha. rewrite Ha.
        rewrite String.eqb_sym. exact Hother.
  - repeat split.
    + rewrite find_app_none by (apply find_none_existsb; exact Hex).
      simpl. rewrite String.eqb_refl. reflexivity.
    + rewrite (existsb_app_singleton (fun b => String.eqb (Bev.id b) id) bev
                 (bevs d) Hbev).
      simpl. rewrite map_app. simpl. rewrite String.eqb_refl.
      rewrite (replace_absent (fun b => String.eqb (Bev.id b) id) bev (bevs d) Hex).
      reflexivity.
    + intros other Hother.
      destruct (find (fun b => String.eqb (Bev.id b) other) (bevs d)) eqn:Hf.
      * apply find_app_some. exact Hf.
      * rewrite find_app_none by exact Hf. simpl.
        rewrite String.eqb_sym, Hother. reflexivity.
Qed.

(** ** Tax policy *)

Lemma initialize_tax_rates_seeds (d : db) :
  tax_rates d = [] -> initialize_tax_rates d = set_tax_rates d seeded_rates.
Proof.
  intros H. unfold initialize_tax_rates. rewrite H. reflexivity.
Qed.



(** ** Receipts *)



(** ** The transaction writer *)

Lemma lastrowid_above (ids : list Z) (z : Z) : In z ids -> z < lastrowid ids.
Proof.
  unfold lastrowid. induction ids as [|a ids IH]; cbn [fold_right In]; [tauto|].
  intros [->|H]; [lia | specialize (IH H); lia].
Qed.

Lemma lastrowid_pos (ids : list Z) : 0 < lastrowid ids.
Proof.
  unfold lastrowid. induction ids as [|a ids IH]; cbn [fold_right]; lia.
Qed.

Lemma real_not_null_ok (n : num) (f : float) :
  real_not_null n = Ok f -> f = to_float n.
Proof.
  unfold real_not_null. destruct (is_nan (to_float n)); [discriminate|].
  intros H. injection H as <-. reflexivity.
Qed.

Lemma calculate_item_tax_float real_text d item_id quantity tax_category lt ta :
  calculate_item_tax real_text d item_id quantity tax_category = Ok (lt, ta) ->
  exists f, ta = NFloat f.
Proof.
  unfold calculate_item_tax.
  destruct (bind_param item_id) as [key|]; simpl; [|discriminate].
  destruct (find _ (bevs d)).
  - destruct (bind_param tax_category) as [cat|]; simpl; [|discriminate].
    intros H. injection H as _ <-. eexists. reflexivity.
  - intros H. injection H as _ <-. eexists. reflexivity.
Qed.

Lemma calculate_item_tax_reads real_text d d' item_id quantity tax_category :
  bevs d' = bevs d -> tax_rates d' = tax_rates d ->
  calculate_item_tax real_text d' item_id quantity tax_category
  = calculate_item_tax real_text d item_id quantity tax_category.
Proof.
  intros Hb Hr. unfold calculate_item_tax. rewrite Hb, Hr. reflexivity.
Qed.

Lemma insert_transaction_item_ok real_text d transaction_id bev_id quantity
      unit_price line_total tax_category tax_amount d1 rowid :
  insert_transaction_item real_text d transaction_id bev_id quantity unit_price
    line_total tax_category tax_amount = Ok (d1, rowid) ->
  exists row,
    d1 = set_transaction_items d (transaction_items d ++ [row])
    /\ TxnItem.transaction_id row = transaction_id
    /\ (item_id <- bind_param bev_id ;; Ok (text_affinity real_text item_id))
       = Ok (Some (TxnItem.item_id row))
    /\ TxnItem.quantity row = quantity
    /\ TxnItem.unit_price row = to_float unit_price
    /\ TxnItem.line_total row = to_float line_total
    /\ TxnItem.tax_amount row = to_float tax_amount.
Proof.
  unfold insert_transaction_item.
  destruct (bind_param bev_id) as [key|]; simpl; [|discriminate].
  destruct (bind_param tax_category) as [cat|]; simpl; [|discriminate].
  destruct (text_affinity real_text key) as [item_id|]; [|discriminate].
  destruct (text_affinity real_text cat) as [category|]; [|discriminate].
  destruct (real_not_null unit_price) as [up|] eqn:Hup; simpl; [|discriminate].
  destruct (real_not_null line_total) as [lt|] eqn:Hlt; simpl; [|discriminate].
  destruct (real_not_null tax_amount) as [ta|] eqn:Hta; simpl; [|discriminate].
  intros H. injection H as <- <-.
  apply real_not_null_ok in Hup, Hlt, Hta. subst.
  eexists. split; [reflexivity|]. simpl. repeat split.
Qed.

Lemma record_tax_detail_locked real_text d rowid tax_category tax_amount d' :
  record_tax_detail real_text true d rowid tax_category tax_amount = Ok d' ->
  d' = d.
Proof.
  unfold record_tax_detail.
  destruct (bind_param tax_category) as [cat|]; simpl; [|discriminate].
  destruct (find _ (tax_rates d)); [discriminate|].
  intros H. injection H as <-. reflexivity.
Qed.

(** What a completed loop has done. *)
Lemma process_items_ok real_text :
  forall items d transaction_id total_amount total_tax d' total_amount' total_tax',
    process_items real_text d transaction_id items total_amount total_tax
    = (d', Ok (total_amount', total_tax')) ->
    exists written : list (tx_item * line * TxnItem.t),
      map (fun w => fst (fst w)) written = items
      /\ transaction_items d' = transaction_items d ++ map snd written
      /\ Forall (fun w => item_row real_text d transaction_id
                            (fst (fst w)) (snd (fst w)) (snd w)) written
      /\ total_amount'
         = fold_left py_add (map (fun w => fst (snd (fst w))) written) total_amount
      /\ total_tax'
         = fold_left py_add (map (fun w => NFloat (snd (snd (fst w)))) written)
             total_tax
      /\ same_catalog d d'
      /\ transactions d' = transactions d
      /\ tax_details d' = tax_details d.
Proof.
  induction items as [|item items IH];
    intros d transaction_id total_amount total_tax d' ta' tt' H; simpl in H.
  - injection H as <- <- <-. exists []. simpl.
    rewrite app_nil_r. repeat split. constructor.
  - destruct (calculate_item_tax real_text d (it_id item) (it_quantity item)
                (category_of item)) as [[lt ta]|e] eqn:Hc; [|discriminate].
    destruct (insert_transaction_item real_text d transaction_id (it_id item)
                (it_quantity item) (unit_price_of lt (it_quantity item)) lt
                (category_of item) ta) as [[d1 rowid]|e] eqn:Hi; [|discriminate].
    destruct (record_tax_detail real_text true d1 rowid (category_of item)
                (to_float ta)) as [d2|e] eqn:Hr; [|discriminate].
    destruct (calculate_item_tax_float _ _ _ _ _ _ _ Hc) as [f ->].
    apply insert_transaction_item_ok in Hi.
    destruct Hi as (row & -> & Hrow).
    apply record_tax_detail_locked in Hr. subst d2.
    apply IH in H.
    destruct H as (written & Hitems & Hrows & Hall & Hta & Htt & Hcat & Htx & Htd).
    exists ((item, (lt, f), row) :: written). simpl.
    repeat split.
    + rewrite Hitems. reflexivity.
    + rewrite Hrows. simpl. rewrite <- app_assoc. reflexivity.
    + constructor.
      * simpl. unfold item_row. simpl. split; [exact Hc|]. exact Hrow.
      * apply Forall_forall. intros w Hw.
        rewrite Forall_forall in Hall. specialize (Hall w Hw).
        unfold item_row in *.
        rewrite <- (calculate_item_tax_reads real_text d
                      (set_transaction_items d (transaction_items d ++ [row])));
          [exact Hall | reflexivity | reflexivity].
    + exact Hta.
    + exact Htt.
    + destruct Hcat as (-> & _). reflexivity.
    + destruct Hcat as (_ & -> & _). reflexivity.
    + destruct Hcat as (_ & _ & -> & _). reflexivity.
    + destruct Hcat as (_ & _ & _ & -> & _). reflexivity.
    + destruct Hcat as (_ & _ & _ & _ & ->). reflexivity.
    + rewrite Htx. reflexivity.
    + rewrite Htd. reflexivity.
Qed.

(** A call that raises leaves the store as it was. *)
Lemma create_transaction_unchanged real_text d now payment_method items
      employee_id d' e :
  create_transaction real_text d now payment_method items employee_id
  = (d', Raise e) ->
  d' = d.
Proof.
  unfold create_transaction.
  destruct (process_items _ _ _ _ _ _) as [d2 [[ta tt]|e']].
  - destruct (real_not_null ta); destruct (real_not_null tt);
      intros H; try discriminate; injection H as <- _; reflexivity.
  - intros H. injection H as <- _. reflexivity.
Qed.

Lemma create_transaction_raise real_text d now payment_method items employee_id d' e :
  create_transaction real_text d now payment_method items employee_id
  = (d', Raise e) ->
  same_catalog d d'
  /\ transactions d' = transactions d
  /\ transaction_items d' = transaction_items d.
Proof.
  intros H. apply create_transaction_unchanged in H. subst d'. repeat split.
Qed.

(** What a committed [create_transaction] has written. *)
Lemma create_transaction_ok real_text d now payment_method items employee_id
      d' transaction_id :
  create_transaction real_text d now payment_method items employee_id
  = (d', Ok transaction_id) ->
  transaction_id = lastrowid (map Txn.transaction_id (transactions d))
  /\ same_catalog d d'
  /\ exists (written : list (tx_item * line * TxnItem.t)) total tax,
      map (fun w => fst (fst w)) written = items
      /\ transaction_items d' = transaction_items d ++ map snd written
      /\ Forall (fun w => item_row real_text d transaction_id
                            (fst (fst w)) (snd (fst w)) (snd w)) written
      /\ transactions d'
         = transactions d ++
           [Txn.mk transaction_id (date_str now) (time_str now) total tax
                   payment_method employee_id]
      /\ total = to_float (py_sum (map (fun w => fst (snd (fst w))) written))
      /\ tax = to_float
                 (py_sum (map (fun w => NFloat (snd (snd (fst w)))) written)).
Proof.
  unfold create_transaction.
  set (tid := lastrowid (map Txn.transaction_id (transactions d))).
  set (d1 := set_transactions d _).
  destruct (process_items real_text d1 tid items (NInt 0) (NInt 0))
    as [d2 [[ta tt]|e']] eqn:Hp; [|discriminate].
  destruct (real_not_null ta) as [total|] eqn:Hta; [|discriminate].
  destruct (real_not_null tt) as [tax|] eqn:Htt; [|discriminate].
  intros H. injection H as <- <-.
  apply process_items_ok in Hp.
  destruct Hp as (written & Hitems & Hrows & Hall & Hta' & Htt' & Hcat & Htx & _).
  apply real_not_null_ok in Hta, Htt.
  split; [reflexivity|]. split.
  - destruct Hcat as (a1 & a2 & a3 & a4 & a5). repeat split; assumption.
  - exists written, total, tax. repeat split.
    + exact Hitems.
    + exact Hrows.
    + apply Forall_forall. intros w Hw. rewrite Forall_forall in Hall.
      specialize (Hall w Hw). unfold item_row in *.
      rewrite <- (calculate_item_tax_reads real_text d d1); [exact Hall| |];
        reflexivity.
    + unfold update_totals. simpl. rewrite Htx. subst d1. simpl.
      rewrite map_app. simpl. rewrite Z.eqb_refl. f_equal.
      transitivity (map (fun t => t) (transactions d)); [| apply map_id].
      apply map_ext_in. intros t Ht.
      assert (Txn.transaction_id t < tid)
        by (apply lastrowid_above, in_map, Ht).
      destruct (Txn.transaction_id t =? tid) eqn:E;
        [apply Z.eqb_eq in E; lia | reflexivity].
    + subst total ta. reflexivity.
    + subst tax tt. reflexivity.
Qed.

(** ** The ledger invariant *)



Lemma filter_none {A : Type} (p : A -> bool) (l : list A) :
  (forall a, In a l -> p a = false) -> filter p l = [].
Proof.
  induction l as [|a l IH]; simpl; intros H; [reflexivity|].
  rewrite (H a (or_introl eq_refl)). apply IH. intros b Hb. apply H. right. exact Hb.
Qed.

Lemma filter_all {A : Type} (p : A -> bool) (l : list A) :
  (forall a, In a l -> p a = true) -> filter p l = l.
Proof.
  induction l as [|a l IH]; simpl; intros H; [reflexivity|].
  rewrite (H a (or_introl eq_refl)). f_equal. apply IH.
  intros b Hb. apply H. right. exact Hb.
Qed.






(** ** Calls and the ledger *)

Lemma finalize_batch_store drv batch_id payment_method :
  store (fst (finalize_batch drv batch_id payment_method)) = store drv.
Proof.
  unfold finalize_batch. destruct (conn drv) as [c|]; [|reflexivity].
  destruct (legacy_items c batch_id); [reflexivity|].
  destruct (update_inventory _ _); reflexivity.
Qed.

Lemma cancel_batch_store drv batch_id :
  store (fst (cancel_batch drv batch_id)) = store drv.
Proof.
  unfold cancel_batch. destruct (conn drv); reflexivity.
Qed.






(** ** The tax table along a run *)




(** ** A line of quantity zero *)



(** ** Transactions and their items *)



(** ** The direct entry point *)





(** ** Ordering *)

Lemma insert_by_perm {A : Type} (before : A -> A -> bool) (x : A) (l : list A) :
  Permutation (insert_by before x l) (x :: l).
Proof.
  induction l as [|y l IH]; simpl; [apply Permutation_refl|].
  destruct (before x y); [apply Permutation_refl|].
  apply perm_trans with (y :: x :: l); [apply perm_skip, IH | apply perm_swap].
Qed.

Lemma order_by_perm {A : Type} (before : A -> A -> bool) (l : list A) :
  Permutation (order_by before l) l.
Proof.
  induction l as [|x l IH]; simpl; [apply perm_nil|].
  apply perm_trans with (x :: order_by before l);
    [apply insert_by_perm | apply perm_skip, IH].
Qed.

Lemma insert_by_sorted {A : Type} (before : A -> A -> bool) (x : A) (l : list A) :
  (forall y, In y l -> before x y = false -> before y x = true) ->
  Sorted (fun a b => before a b = true) l ->
  Sorted (fun a b => before a b = true) (insert_by before x l).
Proof.
  intros Htotal Hs. induction Hs as [|y l Hs IH Hhd]; simpl.
  - repeat constructor.
  - destruct (before x y) eqn:E.
    + constructor; [constructor; assumption | constructor; exact E].
    + constructor.
      * apply IH. intros z Hz. apply Htotal. right. exact Hz.
      * destruct l as [|z l]; simpl.
        -- constructor. apply Htotal; [left; reflexivity | exact E].
        -- destruct (before x z).
           ++ constructor. apply Htotal; [left; reflexivity | exact E].
           ++ inversion Hhd; subst. constructor. assumption.
Qed.

Lemma order_by_sorted {A : Type} (before : A -> A -> bool) (l : list A) :
  (forall x y, In x l -> In y l -> before x y = false -> before y x = true) ->
  Sorted (fun a b => before a b = true) (order_by before l).
Proof.
  induction l as [|x l IH]; intros Htotal; simpl; [constructor|].
  apply insert_by_sorted.
  - intros y Hy. apply Htotal; [left; reflexivity|].
    right. apply (Permutation_in _ (order_by_perm before l)). exact Hy.
  - apply IH. intros a b Ha Hb. apply Htotal; right; assumption.
Qed.

Lemma Sorted_firstn {A : Type} (R : A -> A -> Prop) (n : nat) (l : list A) :
  Sorted R l -> Sorted R (firstn n l).
Proof.
  revert l. induction n as [|n IH]; intros l Hs; simpl; [constructor|].
  destruct l as [|x l]; [constructor|].
  inversion Hs as [|? ? Hs' Hhd]; subst. constructor; [apply IH, Hs'|].
  destruct n; simpl; [constructor|].
  destruct l; [constructor|]. inversion Hhd; subst. constructor. assumption.
Qed.

Lemma limit_rows_sorted {A : Type} (R : A -> A -> Prop) (n : Z) (l : list A) :
  Sorted R l -> Sorted R (limit_rows n l).
Proof.
  intros Hs. unfold limit_rows. destruct (n <? 0); [exact Hs|].
  apply Sorted_firstn, Hs.
Qed.

(** Comparison of REAL values is total away from NaN. *)
Lemma SFcompare_antisym (x y : spec_float) (c : comparison) :
  SFcompare x y = Some c -> SFcompare y x = Some (CompOpp c).
Proof.
  destruct x as [sx|sx| |sx mx ex], y as [sy|sy| |sy my ey]; simpl;
    try discriminate;
    try (intros H; injection H as <-;
         repeat match goal with s : bool |- _ => destruct s end; reflexivity).
  intros H. injection H as <-. f_equal.
  rewrite (Z.compare_antisym ex ey).
  change (Pos.compare_cont Eq my mx) with (Pos.compare my mx).
  change (Pos.compare_cont Eq mx my) with (Pos.compare mx my).
  rewrite (Pos.compare_antisym mx my).
  destruct sx, sy; try reflexivity;
    destruct (ex ?= ey); simpl; try reflexivity;
    destruct (mx ?= my); reflexivity.
Qed.

Lemma real_leb_total (x y : float) :
  is_nan x = false -> is_nan y = false ->
  real_leb x y = false -> real_leb y x = true.
Proof.
  unfold is_nan, real_leb, SFleb. intros Hx Hy.
  destruct (SFcompare (Prim2SF x) (Prim2SF y)) as [c|] eqn:E.
  - rewrite (SFcompare_antisym _ _ _ E). destruct c; simpl; congruence.
  - destruct (Prim2SF x), (Prim2SF y); simpl in E; discriminate.
Qed.

Lemma Sorted_weaken {A : Type} (R R' : A -> A -> Prop) (l : list A) :
  (forall a b, R a b -> R' a b) -> Sorted R l -> Sorted R' l.
Proof.
  intros HR Hs. induction Hs as [|x l Hs IH Hhd]; constructor; [exact IH|].
  destruct Hhd; constructor. apply HR. assumption.
Qed.

(** ** Recommendations *)

Lemma joined_confidence_stored d bev_id x :
  confidences_stored d -> In x (joined_recommendations d bev_id) ->
  is_nan (rd_confidence x) = false.
Proof.
  intros Hst Hx. unfold joined_recommendations in Hx.
  apply in_flat_map in Hx. destruct Hx as (r & Hr & Hx).
  apply filter_In in Hr. destruct Hr as (Hr & _).
  apply in_map_iff in Hx. destruct Hx as (b & <- & _). simpl.
  apply Hst, Hr.
Qed.

Lemma run_confidences real_text drv c :
  confidences_stored (store drv) ->
  confidences_stored (store (run real_text drv c)).
Proof.
  intros Hst. unfold confidences_stored in *.
  destruct c; simpl; try exact Hst.
  - unfold create_bev. destruct (_bev_exists _ _); exact Hst.
  - unfold initialize_tax_rates. destruct (tax_rates _); exact Hst.
  - destruct (create_transaction real_text (store drv) now payment_method items
                employee_id) as [d' [tid|e]] eqn:Hc; simpl.
    + apply create_transaction_ok in Hc.
      destruct Hc as (_ & (_ & _ & _ & _ & ->) & _). exact Hst.
    + apply create_transaction_raise in Hc.
      destruct Hc as ((_ & _ & _ & _ & ->) & _). exact Hst.
  - unfold process_batch_to_transaction.
    destruct (get_batch_order (store drv) batch_id); [exact Hst|].
    destruct (create_transaction real_text (store drv) now payment_method _ None)
      as [d' [tid|e]] eqn:Hc; simpl.
    + apply create_transaction_ok in Hc.
      destruct Hc as (_ & (_ & _ & _ & _ & ->) & _). exact Hst.
    + apply create_transaction_raise in Hc.
      destruct Hc as ((_ & _ & _ & _ & ->) & _). exact Hst.
  - unfold add_recommendation. destruct (is_nan confidence) eqn:Hnan; [exact Hst|].
    destruct (existsb _ _); simpl; intros r Hr.
    + apply in_map_iff in Hr. destruct Hr as (r0 & <- & Hr0).
      destruct (andb _ _); [exact Hnan | apply Hst, Hr0].
    + apply in_app_or in Hr. destruct Hr as [Hr|[<-|[]]];
        [apply Hst, Hr | exact Hnan].
  - rewrite finalize_batch_store. exact Hst.
  - rewrite cancel_batch_store. exact Hst.
Qed.

Lemma reachable_confidences real_text drv :
  reachable real_text drv -> confidences_stored (store drv).
Proof.
  induction 1 as [|drv c _ IH]; [intros r []|].
  apply run_confidences, IH.
Qed.

(** C9 as stated fails: [shelf] holds a recommendation row for "mojito", yet
    the answer is the sibling with the confidence 0.7, because the beverage
    that the row recommends is no longer in the catalog. *)
Lemma C9_explicit_row_passed_over :
  (exists r, In r (drink_recommendations shelf)
             /\ Recommendation.bev_id r = "mojito")
  /\ get_recommendations shelf "mojito" 3
     = [mk_recommendation_dict "cuba_libre" "Cuba Libre" "Cocktails" 800 f0_7].
Proof.
  split.
  - eexists. split; [left; reflexivity | reflexivity].
  - vm_compute. reflexivity.
Qed.

(** C9, amended. In every store that calls on a new driver lead to: the
    explicit rows are the recommendation rows of the beverage whose
    recommended beverage is in the catalog ([joined_recommendations]).
    Ranked by confidence, highest first, and cut to the limit, they are the
    answer when any is left; otherwise, for a beverage of the catalog, the
    answer is its siblings (same category and subcategory, itself excluded)
    ranked by sales, highest first, cut to the limit, each with the
    confidence 0.7; otherwise, for an id that is not in the catalog, the
    empty list. *)
Theorem C9_get_recommendations :
  forall real_text drv bev_id limit,
    reachable real_text drv ->
    let d := store drv in
    exists ranked,
      Permutation ranked (joined_recommendations d bev_id)
      /\ Sorted confidence_desc ranked
      /\ match limit_rows limit ranked with
         | _ :: _ =>
             get_recommendations d bev_id limit = limit_rows limit ranked
             /\ Sorted confidence_desc (get_recommendations d bev_id limit)
         | [] =>
             match get_bev_by_id d bev_id with
             | Some bev =>
                 exists best,
                   Permutation best (siblings d bev bev_id)
                   /\ Sorted sales_desc best
                   /\ Sorted sales_desc (limit_rows limit best)
                   /\ get_recommendations d bev_id limit
                      = map (fun b =>
                               mk_recommendation_dict (Bev.id b) (Bev.name b)
                                 (Bev.category b) (Bev.price b) f0_7)
                            (limit_rows limit best)
             | None => get_recommendations d bev_id limit = []
             end
         end.
Proof.
  intros real_text drv bev_id limit Hreach d.
  pose proof (reachable_confidences real_text drv Hreach) as Hst. fold d in Hst.
  set (ranked := order_by (fun x y => real_leb (rd_confidence y) (rd_confidence x))
                          (joined_recommendations d bev_id)).
  assert (Hsorted : Sorted confidence_desc ranked).
  { apply (order_by_sorted
             (fun x y => real_leb (rd_confidence y) (rd_confidence x))).
    intros x y Hx Hy. apply real_leb_total.
    - exact (joined_confidence_stored d bev_id y Hst Hy).
    - exact (joined_confidence_stored d bev_id x Hst Hx). }
  exists ranked.
  split; [apply order_by_perm|]. split; [exact Hsorted|].
  pose proof (limit_rows_sorted confidence_desc limit ranked Hsorted) as Hcut.
  unfold get_recommendations.
  change (explicit_recommendations d bev_id limit)
    with (limit_rows limit ranked).
  destruct (limit_rows limit ranked) as [|x l]; [|split; [reflexivity | exact Hcut]].
  unfold get_bev_by_id.
  destruct (find (fun b => String.eqb (Bev.id b) bev_id) (bevs d)) as [bev|];
    [|reflexivity].
  set (best := order_by (fun x y => Bev.sales y <=? Bev.sales x)
                        (siblings d bev bev_id)).
  assert (Hbest : Sorted sales_desc best).
  { apply (Sorted_weaken (fun a b => (Bev.sales b <=? Bev.sales a) = true)).
    - intros a b H. apply Z.leb_le. exact H.
    - apply (order_by_sorted (fun x y => Bev.sales y <=? Bev.sales x)).
      intros x y _ _ H. apply Z.leb_gt in H. apply Z.leb_le. lia. }
  exists best.
  split; [apply order_by_perm|]. split; [exact Hbest|].
  split; [apply limit_rows_sorted, Hbest | reflexivity].
Qed.


(** ** Batches: adding an item *)



(** ** Batches: the two methods on [self.conn] *)

(** The inventory loop rolls back as soon as one row of the join asks for
    more than the inventory read with it. *)
Lemma update_inventory_insufficient :
  forall items beverages,
    Exists (fun '(_, quantity, _, curr_inventory) => curr_inventory < quantity)
           items ->
    update_inventory beverages items = None.
Proof.
  induction items as [|[[[bev_id quantity] price] curr] items IH];
    intros beverages Hex; [inversion Hex|].
  simpl. destruct (curr - quantity <? 0) eqn:E; [reflexivity|].
  apply Z.ltb_ge in E. apply IH.
  inversion Hex as [? ? Hhd|? ? Htl]; subst; [lia | exact Htl].
Qed.

(** [finalize_batch] is all or nothing: when some line of the batch asks for
    more than the inventory, it returns False and the driver is as before. *)
Lemma finalize_batch_insufficient drv c batch_id payment_method :
  conn drv = Some c ->
  Exists (fun '(_, quantity, _, curr_inventory) => curr_inventory < quantity)
         (legacy_items c batch_id) ->
  finalize_batch drv batch_id payment_method = (drv, false).
Proof.
  intros Hc Hex. unfold finalize_batch. rewrite Hc.
  destruct (legacy_items c batch_id) as [|item items] eqn:E; [reflexivity|].
  rewrite (update_inventory_insufficient (item :: items) _ Hex). reflexivity.
Qed.

(** Without the attribute [conn] both methods return False and change
    nothing. *)
Lemma no_conn_no_effect drv batch_id payment_method :
  conn drv = None ->
  finalize_batch drv batch_id payment_method = (drv, false)
  /\ cancel_batch drv batch_id = (drv, false).
Proof.
  intros H. unfold finalize_batch, cancel_batch. rewrite H. split; reflexivity.
Qed.

Lemma reachable_no_conn real_text drv :
  reachable real_text drv -> conn drv = None.
Proof.
  induction 1 as [|drv c _ IH]; [reflexivity|].
  destruct c; simpl; try exact IH.
  - unfold finalize_batch. rewrite IH. exact IH.
  - unfold cancel_batch. rewrite IH. exact IH.
Qed.

(** On every driver that calls on a new driver lead to, both methods fail
    and change nothing. *)
Lemma reachable_finalize_cancel real_text drv batch_id payment_method :
  reachable real_text drv ->
  finalize_batch drv batch_id payment_method = (drv, false)
  /\ cancel_batch drv batch_id = (drv, false).
Proof.
  intros Hreach. apply no_conn_no_effect.
  exact (reachable_no_conn real_text drv Hreach).
Qed.

(** The session's [finalize_batch] never reaches the driver. *)
Lemma api_finalize_batch_fails self payment_method employee_id :
  fst (AssistantFnc.finalize_batch self payment_method employee_id) = self
  /\ (snd (AssistantFnc.finalize_batch self payment_method employee_id)
      = AssistantFnc.NoActiveBatch
      \/ snd (AssistantFnc.finalize_batch self payment_method employee_id)
         = AssistantFnc.ErrorFinalizing TypeError).
Proof.
  unfold AssistantFnc.finalize_batch.
  destruct (AssistantFnc.has_batch self); split;
    [reflexivity | right; reflexivity | reflexivity | left; reflexivity].
Qed.

(** [cancel_batch] succeeds exactly when [batches] holds a pending row of the
    id; it rewrites the status of such rows only and leaves the database file
    and the beverages alone. *)
Lemma cancel_batch_guard drv c batch_id :
  conn drv = Some c ->
  let drv' := fst (cancel_batch drv batch_id) in
  snd (cancel_batch drv batch_id)
  = existsb (fun b => andb (Legacy.batch_id b =? batch_id)
                           (String.eqb (Legacy.status b) "pending"))
            (Legacy.batches c)
  /\ store drv' = store drv
  /\ exists c',
      conn drv' = Some c'
      /\ Legacy.beverages c' = Legacy.beverages c
      /\ Legacy.batch_items c' = Legacy.batch_items c
      /\ (snd (cancel_batch drv batch_id) = false -> c' = c).
Proof.
  intros Hc. unfold cancel_batch. rewrite Hc. simpl.
  repeat split. eexists. repeat split. intros Hnone.
  destruct c as [beverages batches items]. simpl in *. f_equal.
  transitivity (map (fun b => b) batches); [| apply map_id].
  apply map_ext_in. intros b Hb.
  destruct (andb _ _) eqn:E; [|reflexivity].
  assert (existsb (fun b => andb (Legacy.batch_id b =? batch_id)
                                 (String.eqb (Legacy.status b) "pending"))
                  batches = true)
    by (apply existsb_exists; exists b; split; assumption).
  congruence.
Qed.

(** ** Batches: processing into a transaction *)

(** [process_batch_to_transaction] never writes to the catalog. *)
Lemma process_batch_keeps_catalog real_text d now batch_id payment_method :
  bevs (fst (process_batch_to_transaction real_text d now batch_id payment_method))
  = bevs d.
Proof.
  unfold process_batch_to_transaction.
  destruct (get_batch_order d batch_id); [reflexivity|].
  destruct (create_transaction real_text d now payment_method _ None)
    as [d' [tid|e]] eqn:Hc; simpl.
  - apply create_transaction_ok in Hc. destruct Hc as (_ & (H & _) & _). exact H.
  - apply create_transaction_raise in Hc. destruct Hc as ((H & _) & _). exact H.
Qed.

(** C1, on the code. A pending batch asks for eleven mojitos while ten are in
    stock: [process_batch_to_transaction] returns the new transaction id 1,
    one transaction and one transaction item are written and the batch is
    completed. *)
Theorem C1_process_batch_oversells :
  stock (bar_with_batch 11) "mojito" = Some (10, 0)
  /\ map BatchItem.quantity (batch_items (bar_with_batch 11)) = [11]
  /\ batch_status (bar_with_batch 11) 1 = Some "pending"
  /\ exists d',
      process_batch_to_transaction plain_text (bar_with_batch 11) noon 1 "cash"
      = (d', Ok 1)
      /\ map Txn.transaction_id (transactions d') = [1]
      /\ map TxnItem.quantity (transaction_items d') = [11]
      /\ batch_status d' 1 = Some "completed".
Proof.
  repeat split. eexists.
  split; [vm_compute; reflexivity|]. repeat split.
Qed.

(** C2, on the code. A pending batch of three mojitos is processed with
    success: inventory and sales of the mojito are 10 and 0 as before, and
    the transaction item carries the row id of the batch item as beverage id
    and a line total of 0.0. *)
Theorem C2_process_batch_keeps_inventory :
  stock (bar_with_batch 3) "mojito" = Some (10, 0)
  /\ exists d',
      process_batch_to_transaction plain_text (bar_with_batch 3) noon 1 "cash"
      = (d', Ok 1)
      /\ stock d' "mojito" = Some (10, 0)
      /\ map (fun ti => (TxnItem.item_id ti, TxnItem.quantity ti,
                         TxnItem.line_total ti))
             (transaction_items d')
         = [("1", 3, f0_0)]
      /\ map Txn.total_amount (transactions d') = [f0_0].
Proof.
  split; [reflexivity|]. eexists.
  split; [vm_compute; reflexivity|]. repeat split.
Qed.

(** C3, on the code. On the completed batch 1 of [served], [add_to_batch]
    returns True and appends an item, and [process_batch_to_transaction]
    returns a second transaction id. *)
Theorem C3_completed_batch_accepts_calls :
  batch_status served 1 = Some "completed"
  /\ (exists d',
        add_to_batch served 1 "mojito" 2 None = (d', true)
        /\ map BatchItem.quantity (batch_items d') = [3; 2]
        /\ batch_status d' 1 = Some "completed")
  /\ (exists d',
        process_batch_to_transaction plain_text served noon 1 "cash" = (d', Ok 2)
        /\ map Txn.transaction_id (transactions d') = [1; 2]).
Proof.
  split; [reflexivity|]. split; eexists.
  - split; [vm_compute; reflexivity|]. split; reflexivity.
  - split; [vm_compute; reflexivity|]. reflexivity.
Qed.

(* ================================================================== *)
(** * Instances *)




Lemma C8_upsert_then_lookup_witness :
  get_bev_by_id bar "mojito"
  = Some (Bev.mk "mojito" "Mojito" "Cocktails" "Rum" 1000 10 "" 0)
  /\ get_bev_by_id bar "gin" = get_bev_by_id empty_db "gin".
Proof.
  destruct (C8_upsert_then_lookup empty_db "mojito" "Mojito" "Cocktails" "Rum"
              1000 10 "" 0) as (_ & Hget & _ & _ & Hother).
  split; [exact Hget | exact (Hother "gin" eq_refl)].
Defined.

Lemma C9_get_recommendations_witness :
  reachable plain_text pairing_driver
  /\ exists ranked,
      Permutation ranked (joined_recommendations (store pairing_driver) "mojito")
      /\ Sorted confidence_desc ranked
      /\ get_recommendations (store pairing_driver) "mojito" 3
         = limit_rows 3 ranked.
Proof.
  assert (Hreach : reachable plain_text pairing_driver)
    by (unfold pairing_driver; repeat apply reachable_run; apply reachable_new).
  split; [exact Hreach|].
  destruct (C9_get_recommendations plain_text pairing_driver "mojito" 3 Hreach)
    as (ranked & Hperm & Hsorted & Hans).
  exists ranked. split; [exact Hperm|]. split; [exact Hsorted|].
  destruct (limit_rows 3 ranked) as [|x l] eqn:E; [|exact (proj1 Hans)].
  exfalso.
  assert (Hlen : List.length ranked = 1%nat)
    by (rewrite (Permutation_length Hperm); reflexivity).
  destruct ranked as [|y [|z ranked]]; simpl in Hlen; discriminate.
Defined.


(* ================================================================== *)
(** * Further properties *)

(** ** Derived ids *)


Lemma str_map_ext (f g : ascii -> ascii) (s : string) :
  (forall c, f c = g c) -> str_map f s = str_map g s.
Proof.
  intros H. induction s as [|c s IH]; simpl; [reflexivity | now rewrite H, IH].
Qed.

Lemma str_map_compose (f g : ascii -> ascii) (s : string) :
  str_map f (str_map g s) = str_map (fun c => f (g c)) s.
Proof.
  induction s as [|c s IH]; simpl; [reflexivity | now rewrite IH].
Qed.


(** The character map of [_generate_id]. *)
Lemma generate_id_char (c : ascii) :
  let g := fun c => if Ascii.eqb (lower_ascii c) " " then "_"%char
                    else lower_ascii c in
  g (g c) = g c /\ g c <> " "%char /\ is_upper (g c) = false.
Proof.
  destruct c as [[] [] [] [] [] [] [] []];
    (split; [reflexivity | split; [discriminate | reflexivity]]).
Qed.

Lemma generate_id_map (name : string) :
  _generate_id name
  = str_map (fun c => if Ascii.eqb (lower_ascii c) " " then "_"%char
                      else lower_ascii c) name.
Proof.
  unfold _generate_id. apply str_map_compose.
Qed.


Lemma generate_id_idem (name : string) :
  _generate_id (_generate_id name) = _generate_id name.
Proof.
  rewrite !generate_id_map, str_map_compose. apply str_map_ext.
  intros c. apply (generate_id_char c).
Qed.

(** ** The catalog *)

Lemma get_bev_by_id_key d id b : get_bev_by_id d id = Some b -> Bev.id b = id.
Proof.
  unfold get_bev_by_id. intros H. apply find_some in H.
  destruct H as (_ & H). now apply String.eqb_eq in H.
Qed.

Lemma get_bev_by_id_in d id b : get_bev_by_id d id = Some b -> In b (bevs d).
Proof.
  unfold get_bev_by_id. intros H. apply find_some in H. tauto.
Qed.

Lemma bev_exists_lookup d id :
  _bev_exists d id = true <-> exists b, get_bev_by_id d id = Some b.
Proof.
  unfold _bev_exists, get_bev_by_id. split.
  - intros H. destruct (find _ (bevs d)) as [b|] eqn:E; [now exists b|].
    apply existsb_exists in H. destruct H as (b & Hb & Hid).
    now rewrite (find_none _ _ E b Hb) in Hid.
  - intros (b & H). apply find_some in H. apply existsb_exists.
    exists b. exact H.
Qed.

Lemma create_bev_lookup d id name category subcategory price inventory image
      sales other :
  get_bev_by_id
    (fst (create_bev d id name category subcategory price inventory image sales))
    other
  = if String.eqb other id
    then Some (Bev.mk id name category subcategory price inventory image sales)
    else get_bev_by_id d other.
Proof.
  unfold create_bev, get_bev_by_id.
  destruct (_bev_exists d id) eqn:Hex; simpl.
  - destruct (String.eqb other id) eqn:E.
    + apply String.eqb_eq in E. subst other.
      apply (find_replace (fun b => String.eqb (Bev.id b) id)).
      * simpl. apply String.eqb_refl.
      * exact Hex.
    + apply (find_replace_other (fun b => String.eqb (Bev.id b) id)
                                (fun b => String.eqb (Bev.id b) other)).
      * simpl. now rewrite String.eqb_sym.
      * intros a Ha. apply String.eqb_eq in Ha. rewrite Ha.
        now rewrite String.eqb_sym.
  - destruct (find (fun b => String.eqb (Bev.id b) other) (bevs d)) as [b|] eqn:F.
    + rewrite (find_app_some _ _ _ _ F).
      destruct (String.eqb other id) eqn:E; [|reflexivity].
      apply String.eqb_eq in E. subst other.
      apply find_some in F. destruct F as (Hin & Hid).
      assert (existsb (fun b => String.eqb (Bev.id b) id) (bevs d) = true)
        by (apply existsb_exists; now exists b).
      unfold _bev_exists in Hex. congruence.
    + rewrite (find_app_none _ _ _ F). simpl.
      rewrite (String.eqb_sym id other).
      now destruct (String.eqb other id).
Qed.

Lemma create_bev_keys d id name category subcategory price inventory image sales :
  map Bev.id
      (bevs (fst (create_bev d id name category subcategory price inventory
                             image sales)))
  = if _bev_exists d id then map Bev.id (bevs d) else map Bev.id (bevs d) ++ [id].
Proof.
  unfold create_bev. destruct (_bev_exists d id); simpl.
  - rewrite map_map. apply map_ext. intros b.
    destruct (String.eqb (Bev.id b) id) eqn:E; [|reflexivity].
    apply String.eqb_eq in E. now rewrite E.
  - now rewrite map_app.
Qed.

Lemma find_filter_other {A : Type} (p q : A -> bool) (l : list A) :
  (forall a, p a = true -> q a = true) ->
  find p (filter q l) = find p l.
Proof.
  intros H. induction l as [|a l IH]; simpl; [reflexivity|].
  destruct (q a) eqn:Q; simpl.
  - now rewrite IH.
  - destruct (p a) eqn:P; [|exact IH]. rewrite (H a P) in Q. discriminate.
Qed.

Lemma delete_bev_lookup d id other :
  get_bev_by_id (fst (delete_bev d id)) other
  = if String.eqb other id then None else get_bev_by_id d other.
Proof.
  unfold delete_bev, get_bev_by_id. simpl.
  destruct (String.eqb other id) eqn:E.
  - apply String.eqb_eq in E. subst other.
    destruct (find _ (filter _ (bevs d))) as [b|] eqn:F; [|reflexivity].
    apply find_some in F. destruct F as (Hin & Hid).
    apply filter_In in Hin. destruct Hin as (_ & Hn).
    rewrite Hid in Hn. discriminate.
  - apply find_filter_other. intros a Ha. apply String.eqb_eq in Ha.
    rewrite Ha, E. reflexivity.
Qed.

Lemma set_bevs_same (d : db) : set_bevs d (bevs d) = d.
Proof. now destruct d. Qed.

(** ** Seed data *)

Lemma load_drinks_lookup :
  forall drinks d id,
    get_bev_by_id (load_drinks d drinks) id
    = match last_drink drinks id with
      | Some last => Some (bev_of_drink last)
      | None => get_bev_by_id d id
      end.
Proof.
  unfold last_drink.
  induction drinks as [|x drinks IH]; intros d id; simpl; [reflexivity|].
  rewrite IH.
  destruct (find _ (rev drinks)) as [last|] eqn:F.
  - now rewrite (find_app_some _ _ _ _ F).
  - rewrite (find_app_none _ _ _ F). simpl.
    rewrite create_bev_lookup.
    now destruct (String.eqb id (_generate_id (drink_name x))).
Qed.

Lemma has_data_false d : _has_data d = false -> bevs d = [].
Proof.
  unfold _has_data. destruct (bevs d); [reflexivity|].
  simpl. intros H. apply Z.ltb_ge in H. lia.
Qed.

Lemma last_drink_some drinks drink :
  In drink drinks ->
  exists last,
    last_drink drinks (_generate_id (drink_name drink)) = Some last
    /\ In last drinks
    /\ _generate_id (drink_name last) = _generate_id (drink_name drink).
Proof.
  intros Hin. unfold last_drink.
  destruct (find _ (rev drinks)) as [last|] eqn:F.
  - exists last. apply find_some in F. destruct F as (Hl & He).
    apply String.eqb_eq in He. rewrite <- in_rev in Hl. now repeat split.
  - exfalso. rewrite in_rev in Hin.
    pose proof (find_none _ _ F drink Hin) as H. simpl in H.
    now rewrite String.eqb_refl in H.
Qed.

(** X2. Seeding at construction.  A database file that holds beverages is
    taken as it is; on a file without beverages each entry of [drinks.json]
    is stored under the id derived from its name, so that an id resolves to
    the last entry of the file whose name derives it, with an empty image and
    sales 0 when the entry gives none; without the file nothing is loaded. *)
Theorem X2_seeding_at_construction :
  forall file drinks_json id,
    conn (__init__ file drinks_json) = None
    /\ get_bev_by_id (store (__init__ file drinks_json)) id
       = if _has_data file then get_bev_by_id file id
         else match drinks_json with
              | Some drinks => option_map bev_of_drink (last_drink drinks id)
              | None => None
              end.
Proof.
  intros file drinks_json id. split; [reflexivity|].
  unfold __init__. simpl.
  destruct (_has_data file) eqn:H; [reflexivity|].
  apply has_data_false in H.
  assert (Hnone : get_bev_by_id file id = None)
    by (unfold get_bev_by_id; now rewrite H).
  destruct drinks_json as [drinks|]; simpl; [|exact Hnone].
  rewrite load_drinks_lookup, Hnone.
  now destruct (last_drink drinks id).
Qed.

(** The ids that the loader writes are derived ids. *)
Lemma load_drinks_keys :
  forall drinks d,
    (forall b, In b (bevs d) -> _generate_id (Bev.id b) = Bev.id b) ->
    forall b, In b (bevs (load_drinks d drinks)) ->
              _generate_id (Bev.id b) = Bev.id b.
Proof.
  induction drinks as [|x drinks IH]; intros d Hd b Hb; simpl in Hb;
    [now apply Hd|].
  apply (IH _) in Hb; [exact Hb|].
  clear b Hb. intros b Hb.
  assert (Hk : In (Bev.id b)
                  (map Bev.id
                     (bevs (fst (create_bev d (_generate_id (drink_name x))
                                   (drink_name x) (drink_category x)
                                   (drink_subcategory x) (drink_price x)
                                   (drink_inventory x) ""
                                   match drink_sales x with
                                   | Some sales => sales
                                   | None => 0
                                   end)))))
    by now apply in_map.
  rewrite create_bev_keys in Hk.
  assert (Hcases : In (Bev.id b) (map Bev.id (bevs d))
                   \/ Bev.id b = _generate_id (drink_name x)).
  { destruct (_bev_exists d _); [now left|].
    apply in_app_or in Hk. destruct Hk as [Hk|[Hk|[]]]; [now left | now right]. }
  destruct Hcases as [Hk'|Hk'].
  - apply in_map_iff in Hk'. destruct Hk' as (b' & Hid & Hb').
    rewrite <- Hid. now apply Hd.
  - rewrite Hk'. apply generate_id_idem.
Qed.

(** X3. After seeding, a beverage is found by its display name: on a driver
    constructed over a file without beverages, [lookup_bev] with the name of
    an entry of [drinks.json] selects the beverage stored under the id
    derived from that name, which is the last entry deriving that id, and
    answers with the details that [get_bev_details] then reports. *)
Theorem X3_lookup_by_name_after_seeding :
  forall file drinks drink,
    _has_data file = false ->
    In drink drinks ->
    exists last,
      last_drink drinks (_generate_id (drink_name drink)) = Some last
      /\ Assistant._bev_details
           (fst (Assistant.lookup_bev
                   (Assistant.__init__ (__init__ file (Some drinks)))
                   (drink_name drink)))
         = bev_of_drink last
      /\ Assistant.has_bev
           (fst (Assistant.lookup_bev
                   (Assistant.__init__ (__init__ file (Some drinks)))
                   (drink_name drink)))
         = negb (String.eqb (_generate_id (drink_name drink)) "")
      /\ snd (Assistant.lookup_bev
                (Assistant.__init__ (__init__ file (Some drinks)))
                (drink_name drink))
         = Assistant.get_bev_details
             (fst (Assistant.lookup_bev
                     (Assistant.__init__ (__init__ file (Some drinks)))
                     (drink_name drink))).
Proof.
  intros file drinks drink Hempty Hin.
  destruct (last_drink_some drinks drink Hin) as (last & Hlast & _ & Hid).
  exists last. split; [exact Hlast|].
  unfold Assistant.lookup_bev, Assistant.file, Assistant.__init__, __init__.
  simpl. rewrite Hempty. simpl.
  pose proof (has_data_false _ Hempty) as Hb.
  assert (Hderived :
            get_bev_by_id (load_drinks file drinks)
                          (_generate_id (drink_name drink))
            = Some (bev_of_drink last)).
  { rewrite load_drinks_lookup, Hlast. reflexivity. }
  assert (Hsel :
            match get_bev_by_id (load_drinks file drinks) (drink_name drink) with
            | Some result => Some result
            | None => get_bev_by_id (load_drinks file drinks)
                                    (_generate_id (drink_name drink))
            end = Some (bev_of_drink last)).
  { destruct (get_bev_by_id (load_drinks file drinks) (drink_name drink))
      as [r|] eqn:E; [|exact Hderived].
    pose proof (get_bev_by_id_key _ _ _ E) as Hk.
    pose proof (get_bev_by_id_in _ _ _ E) as Hr.
    apply (load_drinks_keys drinks file) in Hr.
    - rewrite Hk in Hr. rewrite Hr in Hderived. congruence.
    - rewrite Hb. intros b []. }
  rewrite Hsel. simpl. split; [reflexivity|]. split; [|reflexivity].
  unfold Assistant.has_bev. simpl. now rewrite Hid.
Qed.

(** ** Deleting *)

(** X4. [delete_bev] answers whether the id was in the catalog; afterwards
    the id is not found and every other id is found as before; deleting an
    id that is not there leaves the store as it is, and deleting a beverage
    that was just created under a new id restores the store. *)
Theorem X4_delete_bev :
  forall d id,
    let d' := fst (delete_bev d id) in
    snd (delete_bev d id)
    = match get_bev_by_id d id with Some _ => true | None => false end
    /\ (forall other,
          get_bev_by_id d' other
          = if String.eqb other id then None else get_bev_by_id d other)
    /\ (get_bev_by_id d id = None -> d' = d)
    /\ (get_bev_by_id d id = None ->
        forall name category subcategory price inventory image sales,
          fst (delete_bev
                 (fst (create_bev d id name category subcategory price inventory
                                  image sales)) id)
          = d).
Proof.
  intros d id d'. subst d'.
  assert (Hkeep : get_bev_by_id d id = None ->
                  filter (fun b => negb (String.eqb (Bev.id b) id)) (bevs d)
                  = bevs d).
  { intros Hnone. apply filter_all. intros b Hb.
    unfold get_bev_by_id in Hnone.
    now rewrite (find_none _ _ Hnone b Hb). }
  split; [|split; [|split]].
  - simpl. destruct (get_bev_by_id d id) as [b|] eqn:E.
    + apply bev_exists_lookup. now exists b.
    + destruct (_bev_exists d id) eqn:Hex; [|reflexivity].
      apply bev_exists_lookup in Hex. destruct Hex as (b & Hb). congruence.
  - intros other. apply delete_bev_lookup.
  - intros Hnone. unfold delete_bev. simpl. rewrite (Hkeep Hnone).
    apply set_bevs_same.
  - intros Hnone name category subcategory price inventory image sales.
    assert (Hex : _bev_exists d id = false).
    { destruct (_bev_exists d id) eqn:Hex; [|reflexivity].
      apply bev_exists_lookup in Hex. destruct Hex as (b & Hb). congruence. }
    unfold create_bev. rewrite Hex. unfold delete_bev. simpl.
    rewrite filter_app. simpl. rewrite String.eqb_refl. simpl.
    rewrite app_nil_r, (Hkeep Hnone). now destruct d.
Qed.

(** ** Listings by category *)

Lemma create_bev_rows d id name category subcategory price inventory image sales b :
  In b (bevs (fst (create_bev d id name category subcategory price inventory
                              image sales)))
  <-> b = Bev.mk id name category subcategory price inventory image sales
      \/ (In b (bevs d) /\ Bev.id b <> id).
Proof.
  unfold create_bev. destruct (_bev_exists d id) eqn:Hex; simpl.
  - rewrite in_map_iff. split.
    + intros (a & Ha & Hin).
      destruct (String.eqb (Bev.id a) id) eqn:E; [left; now symmetry|].
      right. subst a. split; [exact Hin|]. now apply String.eqb_neq.
    + intros [->|(Hin & Hne)].
      * apply existsb_exists in Hex. destruct Hex as (a & Hin & Ha).
        exists a. now rewrite Ha.
      * exists b. apply String.eqb_neq in Hne. now rewrite Hne.
  - rewrite in_app_iff. simpl. split.
    + intros [Hin|[<-|[]]]; [right | now left].
      split; [exact Hin|]. intros Hid.
      assert (_bev_exists d id = true); [|congruence].
      apply existsb_exists. exists b. split; [exact Hin|].
      now apply String.eqb_eq.
    + intros [->|(Hin & _)]; [right; now left | now left].
Qed.

(** X5. The listings of [get_bevs_by_category] follow the catalog.  After
    [create_bev] the beverage stands in the listing of its category in its
    new form, no listing shows an older row of its id, and the other
    beverages are listed as before; after [delete_bev] no listing shows the
    id. *)
Theorem X5_listings_follow_catalog :
  forall d id name category subcategory price inventory image sales listing b,
    let bev := Bev.mk id name category subcategory price inventory image sales in
    let created :=
      fst (create_bev d id name category subcategory price inventory image sales) in
    (In b (get_bevs_by_category created listing)
     <-> (b = bev /\ listing = category)
         \/ (In b (get_bevs_by_category d listing) /\ Bev.id b <> id))
    /\ (In b (get_bevs_by_category (fst (delete_bev d id)) listing)
        <-> In b (get_bevs_by_category d listing) /\ Bev.id b <> id).
Proof.
  intros d id name category subcategory price inventory image sales listing b
         bev created.
  unfold get_bevs_by_category. rewrite !filter_In. subst created.
  rewrite create_bev_rows. fold bev. split.
  - split.
    + intros ([->|(Hin & Hne)] & Hc).
      * left. split; [reflexivity|]. simpl in Hc. apply String.eqb_eq in Hc.
        now symmetry.
      * right. now repeat split.
    + intros [(-> & ->)|((Hin & Hc) & Hne)].
      * split; [now left|]. simpl. apply String.eqb_refl.
      * split; [right; now split | exact Hc].
  - unfold delete_bev. simpl. rewrite filter_In, negb_true_iff, String.eqb_neq.
    tauto.
Qed.

(** ** Popular items *)




(** ** Events *)


(** X8. [add_event_package] books without looking for the event.  A cost
    that is NaN is refused by the NOT NULL column and nothing is written.
    Otherwise one booking of service type 'drink_package' is appended and the
    answer is the sentence of success, whether or not [events] holds the id:
    the details of an unknown event stay unknown, an event that shows a
    package keeps showing that one, and an event without a package shows the
    new one. *)
Theorem X8_add_event_package :
  forall s event_id package_type cost details,
    let result := Assistant.add_event_package s event_id package_type cost details in
    if is_nan (to_float cost) then result = (s, Raise IntegrityError)
    else
      snd result
      = Ok ("Drink package added to event " ++ dec_of_Z event_id ++ "!")%string
      /\ events (fst result) = events s
      /\ event_bookings (fst result)
         = event_bookings s ++
           [Booking.mk (lastrowid (map Booking.booking_id (event_bookings s)))
                       event_id "drink_package" details (to_float cost)
                       package_type]
      /\ (forall e,
            get_event_details (fst result) e
            = match get_event_details s e with
              | None => None
              | Some shown =>
                  Some (match ed_drink_package shown with
                        | Some _ => shown
                        | None =>
                            if e =? event_id
                            then with_package shown package_type (to_float cost)
                            else shown
                        end)
              end).
Proof.
  intros s event_id package_type cost details result. subst result.
  unfold Assistant.add_event_package, create_event_booking, real_not_null.
  destruct (is_nan (to_float cost)) eqn:Hnan; [reflexivity|].
  pose proof (lastrowid_pos (map Booking.booking_id (event_bookings s))) as Hpos.
  destruct (lastrowid (map Booking.booking_id (event_bookings s)) =? 0) eqn:E;
    [apply Z.eqb_eq in E; lia|].
  simpl. repeat split.
  intros e. unfold get_event_details. simpl.
  destruct (find (fun ev => Event.event_id ev =? e) (events s)) as [ev|] eqn:F;
    [|reflexivity].
  apply find_some in F. destruct F as (_ & Hid). apply Z.eqb_eq in Hid.
  destruct (find (fun eb => Event.event_id ev =? Booking.event_id eb)
                 (event_bookings s)) as [eb|] eqn:G.
  - rewrite (find_app_some _ _ _ _ G). reflexivity.
  - rewrite (find_app_none _ _ _ G). simpl. rewrite Hid.
    destruct (e =? event_id); reflexivity.
Qed.

(** ** Sessions *)

Lemma create_bev_result d id name category subcategory price inventory image sales :
  snd (create_bev d id name category subcategory price inventory image sales)
  = Bev.mk id name category subcategory price inventory image sales.
Proof. unfold create_bev. now destruct (_bev_exists d id). Qed.

Lemma create_bev_other_tables d id name category subcategory price inventory
      image sales :
  let d' := fst (create_bev d id name category subcategory price inventory
                            image sales) in
  tax_rates d' = tax_rates d
  /\ transactions d' = transactions d
  /\ transaction_items d' = transaction_items d
  /\ order_batches d' = order_batches d
  /\ batch_items d' = batch_items d
  /\ drink_recommendations d' = drink_recommendations d.
Proof. unfold create_bev. destruct (_bev_exists d id); now repeat split. Qed.

Lemma lookup_reads d d' id :
  bevs d' = bevs d -> get_bev_by_id d' id = get_bev_by_id d id.
Proof. unfold get_bev_by_id. now intros ->. Qed.

(** The functions on batches and transactions leave the catalog alone. *)
Lemma fnc_keeps_bevs real_text self r :
  match r with
  | Assistant.CreateTransaction _ _ _ _ | Assistant.CreateBatchOrder _ _ _
  | Assistant.AddToBatch _ _ _ | Assistant.FinalizeBatch _ _
  | Assistant.CancelBatch =>
      bevs (Assistant.file (Assistant.respond real_text self r))
      = bevs (Assistant.file self)
      /\ Assistant._bev_details (Assistant.respond real_text self r)
         = Assistant._bev_details self
  | _ => True
  end.
Proof.
  destruct r; try exact I; unfold Assistant.file; simpl; (split; [|reflexivity]).
  - unfold AssistantFnc.create_transaction.
    destruct items as [items|]; [|reflexivity].
    destruct (bind_exc (AssistantFnc.py_iter items) _) as [[|f formatted]|e];
      [reflexivity | | reflexivity].
    destruct (create_transaction real_text _ now payment_method (f :: formatted)
                                 employee_id) as [d' [tid|e]] eqn:Hc.
    + apply create_transaction_ok in Hc. destruct Hc as (_ & (H & _) & _).
      now destruct (tid =? 0).
    + apply create_transaction_unchanged in Hc. now subst d'.
  - unfold AssistantFnc.create_batch_order. simpl.
    now destruct (lastrowid _ =? 0).
  - unfold AssistantFnc.add_to_batch.
    destruct (AssistantFnc.has_batch _); [|reflexivity].
    now destruct (AssistantFnc.resolve _ _) as [[id' result]|].
  - unfold AssistantFnc.finalize_batch.
    now destruct (AssistantFnc.has_batch _).
  - unfold AssistantFnc.cancel_batch.
    destruct (AssistantFnc.has_batch _) as [batch_id|]; [|reflexivity].
    pose proof (cancel_batch_store (AssistantFnc.DB (Assistant.fnc self)) batch_id)
      as Hs.
    destruct (cancel_batch _ batch_id) as [drv ok]. simpl in Hs.
    destruct ok; simpl; now rewrite Hs.
Qed.

Lemma respond_keeps_selection real_text self r :
  selection_current self ->
  selection_current (Assistant.respond real_text self r).
Proof.
  intros Hsel.
  pose proof (fnc_keeps_bevs real_text self r) as Hfnc.
  destruct r;
    try (destruct Hfnc as (Hb & Hd); unfold selection_current in *;
         rewrite Hd; destruct Hsel as [Hsel|Hsel]; [now left | right];
         now rewrite (lookup_reads _ _ _ Hb)).
  - (* lookup_bev *)
    simpl. unfold Assistant.lookup_bev.
    destruct (get_bev_by_id (Assistant.file self) bev_id) as [b|] eqn:E.
    + right. simpl. unfold Assistant.file. simpl.
      fold (Assistant.file self).
      now rewrite (get_bev_by_id_key _ _ _ E).
    + destruct (get_bev_by_id (Assistant.file self) (_generate_id bev_id))
        as [b|] eqn:G; [|exact Hsel].
      right. simpl. unfold Assistant.file. simpl.
      fold (Assistant.file self).
      now rewrite (get_bev_by_id_key _ _ _ G).
  - (* create_bev *)
    right. simpl. unfold Assistant.create_bev.
    pose proof (create_bev_lookup (Assistant.file self) bev_id name category
                  subcategory price inventory image sales bev_id) as Hl.
    pose proof (create_bev_result (Assistant.file self) bev_id name category
                  subcategory price inventory image sales) as Hr.
    destruct (create_bev (Assistant.file self) bev_id name category subcategory
                         price inventory image sales) as [d result].
    simpl in *. subst result. unfold Assistant.file. simpl.
    now rewrite Hl, String.eqb_refl.
  - (* update_bev *)
    simpl. unfold Assistant.update_bev.
    destruct (get_bev_by_id (Assistant.file self) bev_id) as [current|];
      [|exact Hsel].
    right.
    match goal with
    | |- context [create_bev ?d ?i ?n ?c ?s ?p ?v ?m ?x] =>
        pose proof (create_bev_lookup d i n c s p v m x i) as Hl;
        pose proof (create_bev_result d i n c s p v m x) as Hr;
        destruct (create_bev d i n c s p v m x) as [d' result]
    end.
    simpl in *. subst result. unfold Assistant.file. simpl.
    now rewrite Hl, String.eqb_refl.
  - (* delete_bev *)
    simpl. unfold Assistant.delete_bev.
    pose proof (delete_bev_lookup (Assistant.file self) bev_id
                  (Bev.id (Assistant._bev_details self))) as Hl.
    assert (Hans : snd (delete_bev (Assistant.file self) bev_id)
                   = _bev_exists (Assistant.file self) bev_id) by reflexivity.
    destruct (delete_bev (Assistant.file self) bev_id) as [d deleted].
    simpl in Hl, Hans.
    destruct (String.eqb (Bev.id (Assistant._bev_details self)) bev_id) eqn:E.
    + destruct deleted; simpl; [now left|].
      destruct Hsel as [Hsel|Hsel]; [now left|].
      apply String.eqb_eq in E. rewrite E in Hsel.
      assert (_bev_exists (Assistant.file self) bev_id = true)
        by (apply bev_exists_lookup; eauto).
      congruence.
    + destruct Hsel as [Hsel|Hsel].
      * destruct deleted; now left.
      * destruct deleted; right; unfold Assistant.file; simpl;
          now rewrite Hl.
Qed.

(** X9. The selected beverage of a session is never stale.  Whatever
    requests a new [AssistantFnc] object has answered, these being the only
    writes to the database file, its [_bev_details] is the reset dict or
    exactly the row that the catalog holds under the selected id; so the
    inventory that [check_inventory_levels] reads is the stored one. *)
Theorem X9_selection_is_current :
  forall real_text self,
    Assistant.session real_text self ->
    selection_current self
    /\ (Assistant.has_bev self = true ->
        get_bev_by_id (Assistant.file self)
                      (Bev.id (Assistant._bev_details self))
        = Some (Assistant._bev_details self)).
Proof.
  intros real_text self Hs.
  assert (Hsel : selection_current self).
  { induction Hs as [DB|self r _ IH]; [now left|].
    now apply respond_keeps_selection. }
  split; [exact Hsel|]. intros Hhas.
  destruct Hsel as [Hsel|Hsel]; [|exact Hsel].
  unfold Assistant.has_bev in Hhas. rewrite Hsel in Hhas. discriminate.
Qed.

Lemma respond_keeps_batches real_text self r :
  match r with
  | Assistant.CreateBatchOrder _ _ _ => True
  | _ =>
      order_batches (Assistant.file (Assistant.respond real_text self r))
      = order_batches (Assistant.file self)
      /\ (AssistantFnc.has_batch (Assistant.fnc (Assistant.respond real_text self r))
          = AssistantFnc.has_batch (Assistant.fnc self)
          \/ AssistantFnc.has_batch
               (Assistant.fnc (Assistant.respond real_text self r)) = None)
  end.
Proof.
  destruct r; try exact I; unfold Assistant.file; simpl.
  - unfold Assistant.lookup_bev.
    destruct (match get_bev_by_id _ bev_id with Some _ => _ | None => _ end);
      split; auto.
  - unfold Assistant.create_bev.
    pose proof (create_bev_other_tables (Assistant.file self) bev_id name
                  category subcategory price inventory image sales) as H.
    destruct (create_bev (Assistant.file self) bev_id name category subcategory
                         price inventory image sales) as [d result].
    simpl in *. split; [tauto | now left].
  - unfold Assistant.update_bev.
    destruct (get_bev_by_id (Assistant.file self) bev_id) as [current|];
      [|split; auto].
    match goal with
    | |- context [create_bev ?d ?i ?n ?c ?s ?p ?v ?m ?x] =>
        pose proof (create_bev_other_tables d i n c s p v m x) as H;
        destruct (create_bev d i n c s p v m x) as [d' result]
    end.
    simpl in *. split; [tauto | now left].
  - unfold Assistant.delete_bev, delete_bev. simpl.
    destruct (_bev_exists _ _); simpl; split; auto.
  - unfold AssistantFnc.create_transaction.
    destruct items as [items|]; [|split; auto].
    destruct (bind_exc (AssistantFnc.py_iter items) _) as [[|f formatted]|e];
      [split; auto | | split; auto].
    destruct (create_transaction real_text _ now payment_method (f :: formatted)
                                 employee_id) as [d' [tid|e]] eqn:Hc.
    + apply create_transaction_ok in Hc.
      destruct Hc as (_ & (_ & _ & H & _) & _).
      destruct (tid =? 0); simpl; split; auto.
    + apply create_transaction_unchanged in Hc. subst d'. simpl. split; auto.
  - unfold AssistantFnc.add_to_batch.
    destruct (AssistantFnc.has_batch _) eqn:Hb; [|split; auto].
    destruct (AssistantFnc.resolve _ _) as [[id' result]|]; [|split; auto].
    simpl. split; auto.
  - unfold AssistantFnc.finalize_batch.
    destruct (AssistantFnc.has_batch _) eqn:Hb; simpl; split; auto.
  - unfold AssistantFnc.cancel_batch.
    destruct (AssistantFnc.has_batch _) as [batch_id|] eqn:Hb; [|split; auto].
    pose proof (cancel_batch_store (AssistantFnc.DB (Assistant.fnc self)) batch_id)
      as Hs.
    destruct (cancel_batch _ batch_id) as [drv ok]. simpl in Hs.
    destruct ok; simpl; rewrite Hs; split; auto.
Qed.

Lemma respond_keeps_batch_open real_text self r :
  batch_open self -> batch_open (Assistant.respond real_text self r).
Proof.
  intros Hopen.
  pose proof (respond_keeps_batches real_text self r) as Hk.
  destruct r;
    try (destruct Hk as (Hb & [Hp|Hp]); unfold batch_open in *;
         rewrite Hb, Hp; [exact Hopen | discriminate]).
  clear Hk. unfold batch_open, Assistant.file in *. simpl.
  unfold AssistantFnc.create_batch_order. simpl.
  set (d := store (AssistantFnc.DB (Assistant.fnc self))) in *.
  pose proof (lastrowid_pos (map Batch.batch_id (order_batches d))) as Hpos.
  destruct (lastrowid (map Batch.batch_id (order_batches d)) =? 0) eqn:E;
    [apply Z.eqb_eq in E; lia|].
  simpl. intros batch_id Hb.
  assert (Hid : batch_id = lastrowid (map Batch.batch_id (order_batches d))).
  { unfold AssistantFnc.has_batch in Hb. simpl in Hb.
    destruct (lastrowid (map Batch.batch_id (order_batches d)));
      now inversion Hb. }
  subst batch_id.
  assert (Hnone : find (fun b => Batch.batch_id b
                                 =? lastrowid (map Batch.batch_id (order_batches d)))
                       (order_batches d) = None).
  { destruct (find _ (order_batches d)) as [b|] eqn:F; [|reflexivity].
    apply find_some in F. destruct F as (Hin & Hid). apply Z.eqb_eq in Hid.
    pose proof (lastrowid_above (map Batch.batch_id (order_batches d))
                  (Batch.batch_id b) (in_map _ _ _ Hin)). lia. }
  rewrite (find_app_none _ _ _ Hnone). simpl. rewrite Z.eqb_refl.
  eexists. split; reflexivity.
Qed.

(** X10. The current batch of a session is always there and pending.
    Whatever requests a new [AssistantFnc] object has answered, when it has a
    current batch the store holds that batch with the status 'pending', and
    [get_batch_order] finds it: no request changes the status of a row of
    [order_batches]. *)
Theorem X10_current_batch_is_pending :
  forall real_text self batch_id,
    Assistant.session real_text self ->
    AssistantFnc.has_batch (Assistant.fnc self) = Some batch_id ->
    exists batch,
      get_batch_order (Assistant.file self) batch_id = Found batch
      /\ bo_batch_id batch = batch_id
      /\ bo_status batch = "pending".
Proof.
  intros real_text self batch_id Hs Hb.
  assert (Hopen : batch_open self).
  { clear Hb. induction Hs as [DB|self r _ IH].
    - intros b Hb. discriminate.
    - now apply respond_keeps_batch_open. }
  destruct (Hopen batch_id Hb) as (batch & Hfind & Hstatus).
  unfold get_batch_order. rewrite Hfind.
  eexists. split; [reflexivity|]. simpl. split; [|exact Hstatus].
  apply find_some in Hfind. destruct Hfind as (_ & Hid).
  now apply Z.eqb_eq in Hid.
Qed.

(** ** Updating and deleting through the session *)

(** X11. [update_bev] patches the stored row.  For an id that the catalog
    does not hold it answers 'Beverage not found' and changes nothing; it
    never creates.  Otherwise each text that is passed and not empty replaces
    the stored one, an absent or empty text keeps it, a price or inventory
    that is passed replaces the stored one, 0 included, and the sales counter
    is kept; the row read back under the id is the patched one, it becomes
    the selection, and the other ids are found as before.  With no value
    passed the selection becomes the stored row itself. *)
Theorem X11_update_bev :
  forall self bev_id name category subcategory price inventory image,
    let result :=
      Assistant.update_bev self bev_id name category subcategory price inventory
                           image in
    match get_bev_by_id (Assistant.file self) bev_id with
    | None => result = (self, "Beverage not found"%string)
    | Some current =>
        let patched :=
          Bev.mk bev_id
            (Assistant.or_current name (Bev.name current))
            (Assistant.or_current category (Bev.category current))
            (Assistant.or_current subcategory (Bev.subcategory current))
            (match price with Some p => p | None => Bev.price current end)
            (match inventory with Some i => i | None => Bev.inventory current end)
            (Assistant.or_current image (Bev.image current))
            (Bev.sales current) in
        snd result = "Beverage updated successfully!"%string
        /\ Assistant._bev_details (fst result) = patched
        /\ (forall other,
              get_bev_by_id (Assistant.file (fst result)) other
              = if String.eqb other bev_id then Some patched
                else get_bev_by_id (Assistant.file self) other)
        /\ Assistant._bev_details
             (fst (Assistant.update_bev self bev_id None None None None None
                                        None))
           = current
    end.
Proof.
  intros self bev_id name category subcategory price inventory image result.
  subst result. unfold Assistant.update_bev.
  destruct (get_bev_by_id (Assistant.file self) bev_id) as [current|] eqn:E;
    [|reflexivity].
  match goal with
  | |- context [create_bev ?d ?i ?n ?c ?s ?p ?v ?m ?x] =>
      pose proof (create_bev_lookup d i n c s p v m x) as Hl;
      pose proof (create_bev_result d i n c s p v m x) as Hr;
      destruct (create_bev d i n c s p v m x) as [d' result]
  end.
  simpl in *. subst result.
  split; [reflexivity|]. split; [reflexivity|]. split.
  - intros other. unfold Assistant.file. simpl. apply Hl.
  - pose proof (create_bev_result (Assistant.file self) bev_id
                  (Assistant.or_current None (Bev.name current))
                  (Assistant.or_current None (Bev.category current))
                  (Assistant.or_current None (Bev.subcategory current))
                  (Bev.price current) (Bev.inventory current)
                  (Assistant.or_current None (Bev.image current))
                  (Bev.sales current)) as Hr.
    destruct (create_bev (Assistant.file self) bev_id _ _ _ _ _ _ _)
      as [d0 result0].
    simpl in *. subst result0.
    pose proof (get_bev_by_id_key _ _ _ E) as Hk. subst bev_id.
    now destruct current.
Qed.

(** X12. The session's [delete_bev] takes the id literally.  For an id that
    the catalog does not hold it answers 'Failed to delete beverage' and
    changes neither the catalog nor the selection, also when the text, read
    as a name, derives the id of a stored beverage.  Otherwise the beverage
    is deleted, and the selection is reset exactly when it was the deleted
    beverage. *)
Theorem X12_session_delete_bev :
  forall self bev_id,
    let result := Assistant.delete_bev self bev_id in
    match get_bev_by_id (Assistant.file self) bev_id with
    | None =>
        snd result = "Failed to delete beverage"%string
        /\ bevs (Assistant.file (fst result)) = bevs (Assistant.file self)
        /\ Assistant._bev_details (fst result) = Assistant._bev_details self
    | Some _ =>
        snd result = "Beverage deleted successfully!"%string
        /\ (forall other,
              get_bev_by_id (Assistant.file (fst result)) other
              = if String.eqb other bev_id then None
                else get_bev_by_id (Assistant.file self) other)
        /\ Assistant._bev_details (fst result)
           = if String.eqb (Bev.id (Assistant._bev_details self)) bev_id
             then Assistant.no_details
             else Assistant._bev_details self
    end.
Proof.
  intros self bev_id result. subst result. unfold Assistant.delete_bev.
  pose proof (delete_bev_lookup (Assistant.file self) bev_id) as Hl.
  assert (Hans : snd (delete_bev (Assistant.file self) bev_id)
                 = _bev_exists (Assistant.file self) bev_id) by reflexivity.
  assert (Hrows : bevs (fst (delete_bev (Assistant.file self) bev_id))
                  = filter (fun b => negb (String.eqb (Bev.id b) bev_id))
                           (bevs (Assistant.file self))) by reflexivity.
  destruct (delete_bev (Assistant.file self) bev_id) as [d deleted].
  simpl in Hl, Hans, Hrows.
  destruct (get_bev_by_id (Assistant.file self) bev_id) as [b|] eqn:E.
  - assert (deleted = true)
      by (rewrite Hans; apply bev_exists_lookup; eauto).
    clear Hans. subst deleted. simpl. split; [reflexivity|]. split; [|reflexivity].
    intros other. unfold Assistant.file. simpl. apply Hl.
  - assert (deleted = false).
    { rewrite Hans. destruct (_bev_exists _ _) eqn:Hex; [|reflexivity].
      apply bev_exists_lookup in Hex. destruct Hex as (b & Hb). congruence. }
    clear Hans. subst deleted. simpl. split; [reflexivity|]. split; [|reflexivity].
    unfold Assistant.file at 1. simpl. rewrite Hrows.
    apply filter_all. intros b Hb. unfold get_bev_by_id in E.
    now rewrite (find_none _ _ E b Hb).
Qed.

(** ** Recommendations through the session *)

Lemma limit_rows_zero {A : Type} (l : list A) : limit_rows 0 l = [].
Proof. reflexivity. Qed.

(** X13. The session's [get_recommendations] asks for the selected beverage
    when no id is passed: with [None] or the empty text and a selection the
    answer is the one for the selected id; without a selection it is 'No
    beverage selected for recommendations'.  With the limit 0 both queries of
    the driver return no row, so the answer is 'No recommendations found'. *)
Theorem X13_session_get_recommendations :
  forall format_2f format_0f self limit,
    let answer := Assistant.get_recommendations format_2f format_0f self in
    (if Assistant.has_bev self
     then answer None limit
          = answer (Some (Bev.id (Assistant._bev_details self))) limit
          /\ answer (Some ""%string) limit = answer None limit
     else answer None limit
          = "No beverage selected for recommendations"%string
          /\ answer (Some ""%string) limit = answer None limit)
    /\ (forall bev_id,
          get_recommendations (Assistant.file self) bev_id 0 = []
          /\ (truthy (Some bev_id) = Some bev_id ->
              answer (Some bev_id) 0
              = ("No recommendations found for " ++ bev_id)%string)).
Proof.
  intros format_2f format_0f self limit answer. subst answer.
  unfold Assistant.get_recommendations. split.
  - unfold Assistant.has_bev.
    destruct (Bev.id (Assistant._bev_details self)) as [|c s]; simpl;
      split; reflexivity.
  - intros bev_id.
    assert (H0 : get_recommendations (Assistant.file self) bev_id 0 = []).
    { unfold get_recommendations, explicit_recommendations, similar_bevs.
      rewrite !limit_rows_zero.
      now destruct (find _ (bevs (Assistant.file self))). }
    split; [exact H0|]. intros ->. now rewrite H0.
Qed.

(** ** The batch view *)

Lemma keyed_filter d id b :
  catalog_keyed d -> get_bev_by_id d id = Some b ->
  filter (fun x => String.eqb id (Bev.id x)) (bevs d) = [b].
Proof.
  unfold catalog_keyed, get_bev_by_id.
  induction (bevs d) as [|a l IH]; simpl; intros Hnd Hf; [discriminate|].
  inversion Hnd as [|? ? Hn Hd]; subst.
  rewrite (String.eqb_sym id (Bev.id a)).
  destruct (String.eqb (Bev.id a) id) eqn:E.
  - inversion Hf; subst a. f_equal. apply filter_none. intros x Hx.
    destruct (String.eqb id (Bev.id x)) eqn:Ex; [|reflexivity].
    apply String.eqb_eq in E, Ex. exfalso. apply Hn. rewrite E, Ex.
    now apply in_map.
  - now apply IH.
Qed.

Lemma fold_left_add_acc (l : list Z) (acc : Z) :
  fold_left Z.add l acc = acc + fold_left Z.add l 0.
Proof.
  revert acc. induction l as [|a l IH]; intros acc; simpl; [lia|].
  rewrite (IH (acc + a)), (IH a). lia.
Qed.

Lemma fold_left_add_app (l l' : list Z) (acc : Z) :
  fold_left Z.add (l ++ l') acc = fold_left Z.add l acc + fold_left Z.add l' 0.
Proof.
  rewrite fold_left_app. apply fold_left_add_acc.
Qed.

(** X14. The view of a batch grows with its items.  In a store whose catalog
    is keyed by id, [add_to_batch] for a stored beverage adds one line at
    the end of the view of that batch, with the name and the price of the
    beverage, and the subtotal grows by quantity times price, tax and total
    being computed from the new subtotal at 0.07; an item for an id that the
    catalog does not hold is not shown and changes no amount; the views of
    the other batches are as before. *)
Theorem X14_batch_view_grows :
  forall d batch_id bev_id quantity notes batch,
    catalog_keyed d ->
    get_batch_order d batch_id = Found batch ->
    let d' := fst (add_to_batch d batch_id bev_id quantity notes) in
    (forall other, other <> batch_id ->
                   get_batch_order d' other = get_batch_order d other)
    /\ match get_bev_by_id d bev_id with
       | None => get_batch_order d' batch_id = Found batch
       | Some bev =>
           let subtotal := bo_subtotal batch + quantity * Bev.price bev in
           get_batch_order d' batch_id
           = Found (mk_batch_order (bo_batch_id batch) (bo_order_time batch)
                      (bo_table_number batch) (bo_status batch)
                      (bo_customer_id batch)
                      (bo_items batch ++
                       [view_line (new_batch_item d batch_id bev_id quantity notes)
                                  bev])
                      subtotal
                      (py_mul (NInt subtotal) (NFloat f0_07))
                      (py_add (NInt subtotal)
                              (py_mul (NInt subtotal) (NFloat f0_07))))
       end.
Proof.
  intros d batch_id bev_id quantity notes batch Hkey Hview d'. subst d'.
  unfold get_batch_order in *. simpl. split.
  - intros other Hne.
    destruct (find (fun b => Batch.batch_id b =? other) (order_batches d));
      [|reflexivity].
    rewrite filter_app. simpl.
    destruct (batch_id =? other) eqn:E; [apply Z.eqb_eq in E; congruence|].
    now rewrite app_nil_r.
  - destruct (find (fun b => Batch.batch_id b =? batch_id) (order_batches d))
      as [row|]; [|discriminate].
    inversion Hview as [Hb]. clear Hview. simpl.
    rewrite filter_app. simpl. rewrite Z.eqb_refl.
    rewrite flat_map_app. simpl. rewrite app_nil_r.
    destruct (get_bev_by_id d bev_id) as [bev|] eqn:E.
    + rewrite (keyed_filter d bev_id bev Hkey E). simpl.
      rewrite map_app, fold_left_add_app. simpl. reflexivity.
    + assert (Hnone : filter (fun b => String.eqb bev_id (Bev.id b)) (bevs d)
                      = []).
      { apply filter_none. intros x Hx. unfold get_bev_by_id in E.
        pose proof (find_none _ _ E x Hx) as H. simpl in H.
        now rewrite String.eqb_sym. }
      rewrite Hnone. simpl. now rewrite app_nil_r.
Qed.

(** ** Processing a batch: the edges *)

Lemma set_batch_status_status d batch_id status :
  batch_status (set_batch_status d batch_id status) batch_id
  = option_map (fun _ => status) (batch_status d batch_id).
Proof.
  unfold batch_status, set_batch_status. simpl.
  induction (order_batches d) as [|b l IH]; simpl; [reflexivity|].
  destruct (Batch.batch_id b =? batch_id) eqn:E; simpl.
  - now rewrite E.
  - now rewrite E.
Qed.

(** X15. The edges of [process_batch_to_transaction].  For a batch id that
    [order_batches] does not hold it returns -1 and leaves the store as it
    is.  For a batch whose view shows no item it still writes a transaction:
    the next key is returned, the transaction has total 0.0 and tax 0.0 and
    no item, and the batch is marked 'completed'. *)
Theorem X15_process_batch_edges :
  forall real_text d now batch_id payment_method,
    match get_batch_order d batch_id with
    | Error _ =>
        process_batch_to_transaction real_text d now batch_id payment_method
        = (d, Ok (-1))
    | Found batch =>
        bo_items batch = [] ->
        let transaction_id := lastrowid (map Txn.transaction_id (transactions d)) in
        exists d',
          process_batch_to_transaction real_text d now batch_id payment_method
          = (d', Ok transaction_id)
          /\ transactions d'
             = transactions d ++
               [Txn.mk transaction_id (date_str now) (time_str now) f0_0 f0_0
                       payment_method None]
          /\ transaction_items d' = transaction_items d
          /\ batch_status d' batch_id = Some "completed"%string
    end.
Proof.
  intros real_text d now batch_id payment_method.
  unfold process_batch_to_transaction.
  destruct (get_batch_order d batch_id) as [msg|batch] eqn:Hview;
    [reflexivity|].
  intros Hempty. rewrite Hempty. cbn [map].
  set (transaction_id := lastrowid (map Txn.transaction_id (transactions d))).
  destruct (create_transaction real_text d now payment_method [] None)
    as [d1 [tid|e]] eqn:Hc.
  - pose proof (create_transaction_ok _ _ _ _ _ _ _ _ Hc)
      as (Htid & (_ & _ & Hbatches & _)
          & written & total & tax & Hw & Hitems & _ & Htx & Htotal & Htax).
    destruct written as [|w written]; [|discriminate]. simpl in *.
    exists (set_batch_status d1 batch_id "completed").
    subst tid. fold transaction_id. split; [reflexivity|].
    split; [|split].
    + simpl. rewrite Htx, Htotal, Htax. reflexivity.
    + simpl. now rewrite Hitems, app_nil_r.
    + rewrite set_batch_status_status. unfold batch_status.
      rewrite Hbatches. unfold get_batch_order in Hview.
      now destruct (find _ (order_batches d)).
  - exfalso. unfold create_transaction in Hc. simpl in Hc.
    unfold real_not_null in Hc. simpl in Hc.
    change (is_nan (of_Z 0)) with false in Hc. discriminate.
Qed.

(** ** The tax table and the write lock *)

Lemma insert_transaction_item_rates real_text d transaction_id bev_id quantity
      unit_price line_total tax_category tax_amount d1 rowid :
  insert_transaction_item real_text d transaction_id bev_id quantity unit_price
    line_total tax_category tax_amount = Ok (d1, rowid) ->
  tax_rates d1 = tax_rates d.
Proof.
  intros H. apply insert_transaction_item_ok in H.
  destruct H as (row & -> & _). reflexivity.
Qed.

Lemma process_items_taxed real_text :
  forall items d0 d transaction_id total_amount total_tax,
    tax_rates d = tax_rates d0 ->
    Exists (taxed_item d0) items ->
    exists d' e,
      process_items real_text d transaction_id items total_amount total_tax
      = (d', Raise e).
Proof.
  induction items as [|item items IH];
    intros d0 d transaction_id total_amount total_tax Hrates Hex;
    [inversion Hex|].
  cbn [process_items].
  destruct (calculate_item_tax real_text d (it_id item) (it_quantity item)
                               (category_of item)) as [[line_total tax_amount]|e];
    [|now eauto].
  destruct (insert_transaction_item real_text d transaction_id (it_id item)
              (it_quantity item) (unit_price_of line_total (it_quantity item))
              line_total (category_of item) tax_amount) as [[d1 rowid]|e] eqn:Hi;
    [|now eauto].
  pose proof (insert_transaction_item_rates _ _ _ _ _ _ _ _ _ _ _ Hi) as Hr1.
  destruct (record_tax_detail real_text true d1 rowid (category_of item)
                              (to_float tax_amount)) as [d2|e] eqn:Hrec;
    [|now eauto].
  pose proof (record_tax_detail_locked _ _ _ _ _ _ Hrec) as ->.
  inversion Hex as [? ? Hhd|? ? Htl]; subst.
  - exfalso. destruct Hhd as (c & Hc & Hin).
    unfold record_tax_detail in Hrec. rewrite Hc in Hrec. simpl in Hrec.
    rewrite Hr1, Hrates in Hrec.
    destruct (find _ (tax_rates d0)) as [row|] eqn:F; [discriminate|].
    unfold taxed_categories in Hin. apply in_map_iff in Hin.
    destruct Hin as (row & Hty & Hrow).
    pose proof (find_none _ _ F row Hrow) as Hno. simpl in Hno.
    unfold text_eq in Hno. simpl in Hno.
    rewrite Hty, String.eqb_refl in Hno. discriminate.
  - apply (IH d0); [congruence | exact Htl].
Qed.

(** X16. A tax table with rows blocks the transaction writer.  When some
    item of the call has a tax category that the tax table knows (the
    default 'pour/shot' after [initialize_tax_rates]), [create_transaction]
    raises and commits nothing: [record_tax_detail] writes through a second
    connection while the transaction row of the first is not committed.  In
    particular, once the default rates are seeded no call with an item of the
    default category records a transaction. *)
Theorem X16_tax_rows_block_transactions :
  forall real_text d now payment_method items employee_id,
    (Exists (taxed_item d) items ->
     exists e,
       create_transaction real_text d now payment_method items employee_id
       = (d, Raise e))
    /\ (tax_rates d = [] ->
        forall item, category_of item = PStr "pour/shot" ->
                     taxed_item (initialize_tax_rates d) item).
Proof.
  intros real_text d now payment_method items employee_id. split.
  - intros Hex. unfold create_transaction.
    match goal with
    | |- context [process_items real_text ?d1 ?t items ?a ?b] =>
        destruct (process_items_taxed real_text items d d1 t a b eq_refl Hex)
          as (d' & e & ->)
    end.
    now exists e.
  - intros Hempty item Hc. exists "pour/shot"%string. split; [exact Hc|].
    unfold taxed_categories. rewrite (initialize_tax_rates_seeds d Hempty).
    simpl. now left.
Qed.

(** ** Recommendations: writing and reading back *)

Lemma add_recommendation_rows d bev_id recommended_bev_id confidence :
  is_nan confidence = false ->
  let d' := fst (add_recommendation d bev_id recommended_bev_id confidence) in
  bevs d' = bevs d
  /\ (exists r, In r (drink_recommendations d')
                /\ Recommendation.bev_id r = bev_id
                /\ Recommendation.recommended_bev_id r = recommended_bev_id
                /\ Recommendation.confidence r = confidence)
  /\ (forall r, In r (drink_recommendations d') ->
                Recommendation.bev_id r = bev_id ->
                Recommendation.recommended_bev_id r = recommended_bev_id ->
                Recommendation.confidence r = confidence).
Proof.
  intros Hnan. unfold add_recommendation. rewrite Hnan.
  set (same := fun r => andb (String.eqb (Recommendation.bev_id r) bev_id)
                             (String.eqb (Recommendation.recommended_bev_id r)
                                         recommended_bev_id)).
  assert (Hsame : forall r, Recommendation.bev_id r = bev_id ->
                            Recommendation.recommended_bev_id r = recommended_bev_id ->
                            same r = true).
  { intros r H1 H2. unfold same. now rewrite H1, H2, !String.eqb_refl. }
  destruct (existsb same (drink_recommendations d)) eqn:Hex; simpl.
  - split; [reflexivity|]. split.
    + apply existsb_exists in Hex. destruct Hex as (r & Hr & Hs).
      exists (Recommendation.mk (Recommendation.recommendation_id r)
                (Recommendation.bev_id r) (Recommendation.recommended_bev_id r)
                confidence).
      split.
      * apply in_map_iff. exists r. fold (same r). now rewrite Hs.
      * unfold same in Hs. apply andb_true_iff in Hs. destruct Hs as (H1 & H2).
        apply String.eqb_eq in H1, H2. now repeat split.
    + intros r Hr H1 H2. apply in_map_iff in Hr. destruct Hr as (r0 & Hr0 & _).
      fold (same r0) in Hr0. destruct (same r0) eqn:E; [now subst r|].
      subst r0. rewrite (Hsame r H1 H2) in E. discriminate.
  - split; [reflexivity|]. split.
    + eexists. split; [apply in_or_app; right; left; reflexivity|].
      now repeat split.
    + intros r Hr H1 H2. apply in_app_or in Hr. destruct Hr as [Hr|[<-|[]]];
        [|reflexivity].
      exfalso. assert (existsb same (drink_recommendations d) = true);
        [|congruence].
      apply existsb_exists. exists r. split; [exact Hr | now apply Hsame].
Qed.

(** X17. A recommendation is read back as written.  After
    [add_recommendation] with a confidence that is a number, for a
    recommended beverage of the catalog, [get_recommendations] without limit
    lists that beverage for the first one with the confidence just passed,
    and every row it lists for that beverage carries this confidence: a
    second call for the same pair replaces the confidence.  A confidence that
    is NaN is refused and nothing is written. *)
Theorem X17_recommendation_read_back :
  forall d bev_id recommended_bev_id confidence limit,
    let result := add_recommendation d bev_id recommended_bev_id confidence in
    if is_nan confidence then result = (d, Raise IntegrityError)
    else
      snd result = Ok true
      /\ forall bev,
          get_bev_by_id d recommended_bev_id = Some bev ->
          limit < 0 ->
          In (mk_recommendation_dict recommended_bev_id (Bev.name bev)
                (Bev.category bev) (Bev.price bev) confidence)
             (get_recommendations (fst result) bev_id limit)
          /\ (forall x, In x (get_recommendations (fst result) bev_id limit) ->
                        rd_id x = recommended_bev_id ->
                        rd_confidence x = confidence).
Proof.
  intros d bev_id recommended_bev_id confidence limit result. subst result.
  destruct (is_nan confidence) eqn:Hnan.
  - unfold add_recommendation. now rewrite Hnan.
  - split.
    { unfold add_recommendation. rewrite Hnan. now destruct (existsb _ _). }
    intros bev Hbev Hlimit.
    destruct (add_recommendation_rows d bev_id recommended_bev_id confidence Hnan)
      as (Hbevs & (r & Hr & Hr1 & Hr2 & Hr3) & Hall).
    set (d' := fst (add_recommendation d bev_id recommended_bev_id confidence))
      in *.
    assert (Hexp : explicit_recommendations d' bev_id limit
                   = order_by (fun x y => real_leb (rd_confidence y)
                                                   (rd_confidence x))
                              (joined_recommendations d' bev_id)).
    { unfold explicit_recommendations, limit_rows.
      apply Z.ltb_lt in Hlimit. now rewrite Hlimit. }
    assert (Hjoin : forall x,
               In x (explicit_recommendations d' bev_id limit)
               <-> In x (joined_recommendations d' bev_id)).
    { intros x. rewrite Hexp. split; intros H.
      - apply (Permutation_in _ (order_by_perm _ _)) in H. exact H.
      - apply (Permutation_in _ (Permutation_sym (order_by_perm _ _))). exact H. }
    assert (Hin : In (mk_recommendation_dict recommended_bev_id (Bev.name bev)
                        (Bev.category bev) (Bev.price bev) confidence)
                     (explicit_recommendations d' bev_id limit)).
    { apply Hjoin. unfold joined_recommendations. apply in_flat_map.
      exists r. split.
      - apply filter_In. split; [exact Hr|]. rewrite Hr1. apply String.eqb_refl.
      - apply in_map_iff. exists bev. rewrite Hr2, Hr3. split; [reflexivity|].
        apply filter_In. split.
        + rewrite Hbevs. now apply (get_bev_by_id_in d recommended_bev_id).
        + rewrite (get_bev_by_id_key _ _ _ Hbev). apply String.eqb_refl. }
    assert (Hres : get_recommendations d' bev_id limit
                   = explicit_recommendations d' bev_id limit).
    { unfold get_recommendations.
      destruct (explicit_recommendations d' bev_id limit); [contradiction|].
      reflexivity. }
    rewrite Hres. split; [exact Hin|].
    intros x Hx Hid. apply Hjoin in Hx. unfold joined_recommendations in Hx.
    apply in_flat_map in Hx. destruct Hx as (r0 & Hr0 & Hx).
    apply filter_In in Hr0. destruct Hr0 as (Hr0 & Ha).
    apply String.eqb_eq in Ha.
    apply in_map_iff in Hx. destruct Hx as (b & <- & _). simpl in *.
    now apply Hall.
Qed.

(** ** Receipts and the catalog *)



(** ** [finalize_batch] and [cancel_batch] on a connection *)

Lemma NoDup_map_eq {A B : Type} (f : A -> B) (l : list A) (x y : A) :
  NoDup (map f l) -> In x l -> In y l -> f x = f y -> x = y.
Proof.
  induction l as [|a l IH]; simpl; intros Hnd Hx Hy Hf; [contradiction|].
  inversion Hnd as [|? ? Hn Hd]; subst.
  destruct Hx as [->|Hx], Hy as [->|Hy]; try reflexivity.
  - exfalso. apply Hn. rewrite Hf. now apply in_map.
  - exfalso. apply Hn. rewrite <- Hf. now apply in_map.
  - now apply IH.
Qed.

Lemma sold_nothing (b : Legacy.beverage) : sold 0 b = b.
Proof.
  destruct b as [id price inventory sales]. unfold sold. simpl.
  now rewrite Z.sub_0_r, Z.add_0_r.
Qed.

Lemma asked_absent rows id :
  ~ In id (map joined_id rows) -> asked rows id = 0.
Proof.
  intros H. unfold asked. rewrite filter_none; [reflexivity|].
  intros row Hrow. destruct (String.eqb (joined_id row) id) eqn:E;
    [|reflexivity].
  apply String.eqb_eq in E. exfalso. apply H. rewrite <- E. now apply in_map.
Qed.

Lemma asked_cons row rows id :
  asked (row :: rows) id
  = (if String.eqb (joined_id row) id
     then let '(_, quantity, _, _) := row in quantity
     else 0)
    + asked rows id.
Proof.
  unfold asked. simpl. destruct (String.eqb (joined_id row) id); reflexivity.
Qed.

(** The inventory loop on rows that name each beverage once, each with the
    inventory that the beverage has. *)
Lemma update_inventory_distinct :
  forall rows beverages beverages',
    NoDup (map joined_id rows) ->
    (forall bev_id quantity price curr b,
        In (bev_id, quantity, price, curr) rows -> In b beverages ->
        Legacy.id b = bev_id -> Legacy.inventory b = curr) ->
    update_inventory beverages rows = Some beverages' ->
    beverages' = map (fun b => sold (asked rows (Legacy.id b)) b) beverages
    /\ Forall (fun '(_, quantity, _, curr) => quantity <= curr) rows.
Proof.
  induction rows as [|[[[bev_id quantity] price] curr] rows IH];
    intros beverages beverages' Hnd Hsnap Hup.
  - simpl in Hup. injection Hup as <-. split; [|constructor].
    transitivity (map (fun b => b) beverages); [now rewrite map_id|].
    apply map_ext. intros b. unfold asked. simpl. now rewrite sold_nothing.
  - simpl in Hup. destruct (curr - quantity <? 0) eqn:E; [discriminate|].
    apply Z.ltb_ge in E.
    inversion Hnd as [|? ? Hn Hd]; subst. simpl in Hn.
    apply IH in Hup; [|exact Hd|].
    + destruct Hup as (-> & Hall). split; [|constructor; [lia | exact Hall]].
      rewrite map_map. apply map_ext_in. intros b Hb.
      destruct (String.eqb (Legacy.id b) bev_id) eqn:Eb; simpl.
      * apply String.eqb_eq in Eb.
        pose proof (Hsnap bev_id quantity price curr b (or_introl eq_refl) Hb Eb)
          as Hinv.
        rewrite asked_cons. simpl. rewrite <- Eb at 1. rewrite String.eqb_refl.
        rewrite (asked_absent rows (Legacy.id b)); [|now rewrite Eb].
        unfold sold. simpl. rewrite Hinv. f_equal; lia.
      * rewrite asked_cons. simpl. rewrite (String.eqb_sym bev_id), Eb.
        reflexivity.
    + intros k q p cu b1 Hrow Hb1 Hid.
      apply in_map_iff in Hb1. destruct Hb1 as (b & Hfb & Hb).
      assert (Hne : Legacy.id b <> bev_id).
      { intros Heq. apply Hn. apply in_map_iff.
        exists (k, q, p, cu). split; [|exact Hrow]. simpl.
        destruct (String.eqb (Legacy.id b) bev_id) eqn:Eb;
          subst b1; simpl in Hid; congruence. }
      apply String.eqb_neq in Hne. rewrite Hne in Hfb. subst b1.
      apply (Hsnap k q p cu b); [now right | exact Hb | exact Hid].
Qed.

Lemma legacy_items_snapshot c batch_id :
  NoDup (map joined_id (legacy_items c batch_id)) ->
  forall bev_id quantity price curr b,
    In (bev_id, quantity, price, curr) (legacy_items c batch_id) ->
    In b (Legacy.beverages c) ->
    Legacy.id b = bev_id -> Legacy.inventory b = curr.
Proof.
  intros Hnd bev_id quantity price curr b Hrow Hb Hid.
  pose proof Hrow as Hrow'. unfold legacy_items in Hrow'.
  apply in_flat_map in Hrow'. destruct Hrow' as (it & Hit & Hrow').
  apply in_map_iff in Hrow'. destruct Hrow' as (b0 & Heq & _).
  injection Heq as Hk Hq _ _.
  assert (Hother : In (bev_id, quantity, Legacy.price b, Legacy.inventory b)
                      (legacy_items c batch_id)).
  { unfold legacy_items. apply in_flat_map. exists it. split; [exact Hit|].
    apply in_map_iff. exists b. split; [now rewrite Hk, Hq|].
    apply filter_In. split; [exact Hb|]. rewrite Hk, Hid.
    apply String.eqb_refl. }
  pose proof (NoDup_map_eq joined_id _ _ _ Hnd Hrow Hother eq_refl) as Heq.
  now inversion Heq.
Qed.

(** X19. [finalize_batch], given a connection, is all or nothing and
    conserves inventory.  When it returns False the driver is as before.
    When it returns True for a batch whose join names every beverage once,
    every line asked for no more than the inventory, and each beverage has
    its inventory lowered and its sales raised by the quantity asked of it,
    the beverages that the batch does not name being unchanged; the database
    file and the batch items are as before. *)
Theorem X19_finalize_batch_conserves :
  forall drv c batch_id payment_method,
    conn drv = Some c ->
    let rows := legacy_items c batch_id in
    let result := finalize_batch drv batch_id payment_method in
    store (fst result) = store drv
    /\ (snd result = false -> fst result = drv)
    /\ (snd result = true ->
        NoDup (map joined_id rows) ->
        rows <> []
        /\ Forall (fun '(_, quantity, _, curr) => quantity <= curr) rows
        /\ exists c',
            conn (fst result) = Some c'
            /\ Legacy.beverages c'
               = map (fun b => sold (asked rows (Legacy.id b)) b)
                     (Legacy.beverages c)
            /\ Legacy.batch_items c' = Legacy.batch_items c).
Proof.
  intros drv c batch_id payment_method Hc rows result. subst result.
  split; [apply finalize_batch_store|].
  unfold finalize_batch. rewrite Hc. fold rows.
  destruct rows as [|row rows'] eqn:Hrows; [split; [reflexivity|discriminate]|].
  destruct (update_inventory (Legacy.beverages c) (row :: rows'))
    as [beverages'|] eqn:Hup; simpl; [|split; [reflexivity|discriminate]].
  split; [discriminate|]. intros _ Hnd.
  split; [discriminate|].
  assert (Hsnap := legacy_items_snapshot c batch_id).
  fold rows in Hsnap. rewrite Hrows in Hsnap.
  destruct (update_inventory_distinct (row :: rows') _ _ Hnd (Hsnap Hnd) Hup)
    as (-> & Hall).
  split; [exact Hall|]. eexists. split; [reflexivity|]. now split.
Qed.

Lemma cancel_batch_none_pending drv c batch_id :
  conn drv = Some c ->
  (forall b, In b (Legacy.batches c) ->
             andb (Legacy.batch_id b =? batch_id)
                  (String.eqb (Legacy.status b) "pending") = false) ->
  cancel_batch drv batch_id = (drv, false).
Proof.
  intros Hc Hmiss. unfold cancel_batch. rewrite Hc. f_equal.
  - destruct drv as [d co]. simpl in *. subst co. f_equal. f_equal.
    destruct c as [beverages batches items]. simpl in *. f_equal.
    transitivity (map (fun b => b) batches); [|apply map_id].
    apply map_ext_in. intros b Hb. now rewrite (Hmiss b Hb).
  - destruct (existsb _ (Legacy.batches c)) eqn:E; [|reflexivity].
    apply existsb_exists in E. destruct E as (b & Hb & Hhit).
    now rewrite (Hmiss b Hb) in Hhit.
Qed.

(** X20. [cancel_batch], given a connection, cancels once.  After a call, no
    row of [batches] with the id is pending, so a second call returns False
    and changes nothing.  [finalize_batch] does not read the status: on the
    driver left by [cancel_batch] it returns what it returns on the driver
    before. *)
Theorem X20_cancel_batch_once :
  forall drv c batch_id payment_method,
    conn drv = Some c ->
    let drv' := fst (cancel_batch drv batch_id) in
    cancel_batch drv' batch_id = (drv', false)
    /\ snd (finalize_batch drv' batch_id payment_method)
       = snd (finalize_batch drv batch_id payment_method).
Proof.
  intros drv c batch_id payment_method Hc drv'. subst drv'.
  unfold cancel_batch at 2 3 4. rewrite Hc. cbn [fst]. split.
  - eapply cancel_batch_none_pending; [reflexivity|].
    cbn [Legacy.batches]. intros b Hb.
    apply in_map_iff in Hb. destruct Hb as (b0 & <- & _).
    destruct (andb (Legacy.batch_id b0 =? batch_id)
                   (String.eqb (Legacy.status b0) "pending")) eqn:E;
      [|exact E].
    simpl. apply andb_false_r.
  - unfold finalize_batch. rewrite Hc. cbn [conn].
    unfold legacy_items. cbn [Legacy.beverages Legacy.batch_items].
    fold (legacy_items c batch_id).
    destruct (legacy_items c batch_id) as [|row rows]; [reflexivity|].
    now destruct (update_inventory (Legacy.beverages c) (row :: rows)).
Qed.

(** ** Opening a batch *)

(** X21. A batch is read back as it was opened.  [create_batch_order]
    returns a key above every key of [order_batches]; the view of that key
    has the table number and the customer as passed, the status 'pending',
    and the lines of the batch items that already name the key, so no line,
    subtotal 0 and tax 0.0 when none does.  The views of the other keys are
    as before. *)
Theorem X21_create_batch_order_round_trip :
  forall d timestamp table_number customer_id,
    let d' := fst (create_batch_order d timestamp table_number customer_id) in
    let batch_id := snd (create_batch_order d timestamp table_number customer_id) in
    let subtotal :=
      fold_left Z.add
        (map (fun item => boi_quantity item * boi_unit_price item)
             (view_lines d batch_id)) 0 in
    Forall (fun b => Batch.batch_id b < batch_id) (order_batches d)
    /\ get_batch_order d batch_id = Error "Batch order not found"
    /\ get_batch_order d' batch_id
       = Found (mk_batch_order batch_id timestamp table_number "pending"
                  customer_id (view_lines d batch_id) subtotal
                  (py_mul (NInt subtotal) (NFloat f0_07))
                  (py_add (NInt subtotal)
                          (py_mul (NInt subtotal) (NFloat f0_07))))
    /\ (view_lines d batch_id = [] ->
        exists batch,
          get_batch_order d' batch_id = Found batch
          /\ bo_items batch = [] /\ bo_subtotal batch = 0
          /\ bo_tax batch = NFloat f0_0 /\ bo_total batch = NFloat f0_0)
    /\ (forall other, other <> batch_id ->
                      get_batch_order d' other = get_batch_order d other).
Proof.
  intros d timestamp table_number customer_id d' batch_id subtotal.
  subst d' batch_id subtotal. cbn [create_batch_order fst snd].
  set (batch_id := lastrowid (map Batch.batch_id (order_batches d))).
  assert (Hfresh : Forall (fun b => Batch.batch_id b < batch_id) (order_batches d)).
  { apply Forall_forall. intros b Hb. apply lastrowid_above. now apply in_map. }
  assert (Hnone : find (fun b => Batch.batch_id b =? batch_id) (order_batches d)
                  = None).
  { destruct (find _ (order_batches d)) as [b|] eqn:F; [|reflexivity].
    apply find_some in F. destruct F as (Hb & Hid). apply Z.eqb_eq in Hid.
    rewrite Forall_forall in Hfresh. specialize (Hfresh b Hb). lia. }
  assert (Hview :
            get_batch_order
              (set_order_batches d
                 (order_batches d ++
                  [Batch.mk batch_id timestamp table_number "pending" customer_id]))
              batch_id
            = Found (mk_batch_order batch_id timestamp table_number "pending"
                       customer_id (view_lines d batch_id)
                       (fold_left Z.add
                          (map (fun item => boi_quantity item * boi_unit_price item)
                               (view_lines d batch_id)) 0)
                       (py_mul
                          (NInt (fold_left Z.add
                                   (map (fun item =>
                                           boi_quantity item * boi_unit_price item)
                                        (view_lines d batch_id)) 0))
                          (NFloat f0_07))
                       (py_add
                          (NInt (fold_left Z.add
                                   (map (fun item =>
                                           boi_quantity item * boi_unit_price item)
                                        (view_lines d batch_id)) 0))
                          (py_mul
                             (NInt (fold_left Z.add
                                      (map (fun item =>
                                              boi_quantity item
                                              * boi_unit_price item)
                                           (view_lines d batch_id)) 0))
                             (NFloat f0_07))))).
  { unfold get_batch_order. cbn [order_batches set_order_batches].
    rewrite (find_app_none _ _ _ Hnone). cbn [find Batch.batch_id].
    rewrite Z.eqb_refl. reflexivity. }
  split; [exact Hfresh|]. split; [|split; [|split]].
  - unfold get_batch_order. now rewrite Hnone.
  - exact Hview.
  - intros Hempty. rewrite Hview, Hempty. eexists. split; [reflexivity|].
    cbn. repeat split; vm_compute; reflexivity.
  - intros other Hne. unfold get_batch_order.
    cbn [order_batches set_order_batches bevs batch_items].
    destruct (find (fun b => Batch.batch_id b =? other) (order_batches d))
      as [b|] eqn:F.
    + now rewrite (find_app_some _ _ _ _ F).
    + rewrite (find_app_none _ _ _ F). cbn [find Batch.batch_id].
      destruct (batch_id =? other) eqn:E; [|reflexivity].
      apply Z.eqb_eq in E. congruence.
Qed.

(** ** The inventory alert *)

Lemma all_from_spec (p : Z -> bool) :
  forall fuel i, all_from fuel i p = true ->
                 forall z, i <= z < i + Z.of_nat fuel -> p z = true.
Proof.
  induction fuel as [|fuel IH]; intros i H z Hz; [lia|].
  simpl in H. apply andb_true_iff in H. destruct H as (Hi & Hrest).
  destruct (Z.eq_dec z i) as [->|Hne]; [exact Hi|].
  apply (IH (i + 1) Hrest). lia.
Qed.

Lemma runs_low_below_30 :
  all_from (Z.to_nat 20001) (-10000)
           (fun i => Bool.eqb (runs_low i) (i <? 30)) = true.
Proof. vm_compute. reflexivity. Qed.

(** X22. The alert of [check_inventory_levels] is for fewer than 30 units.
    For a selected beverage whose inventory lies between -10000 and 10000 the
    answer is the low inventory alert, with the name and the inventory of the
    selection, exactly when the inventory is below 30, and [None] otherwise;
    without a selection it is 'No beverage selected'. *)
Theorem X22_inventory_alert_below_30 :
  forall self,
    -10000 <= Bev.inventory (Assistant._bev_details self) <= 10000 ->
    Assistant.check_inventory_levels self
    = if Assistant.has_bev self
      then if Bev.inventory (Assistant._bev_details self) <? 30
           then Assistant.LowInventory (Bev.name (Assistant._bev_details self))
                  (Bev.inventory (Assistant._bev_details self))
           else Assistant.NoAlert
      else Assistant.NoBeverageSelected.
Proof.
  intros self Hrange. unfold Assistant.check_inventory_levels.
  destruct (Assistant.has_bev self); [|reflexivity].
  fold (runs_low (Bev.inventory (Assistant._bev_details self))).
  pose proof (all_from_spec _ _ _ runs_low_below_30
                (Bev.inventory (Assistant._bev_details self))) as H.
  rewrite Z2Nat.id in H by lia. cbv beta in H.
  rewrite (eqb_prop _ _ (H ltac:(lia))). reflexivity.
Qed.

(** ** The menu chart *)

(** X23. The menu chart without a category shows the six categories of the
    source only.  A beverage is among the beverages charted exactly when the
    catalog holds it and its category is one of 'Signature', 'Classics',
    'Beer', 'Wine', 'Spirits' and 'Non-Alcoholic'; with a category the chart
    is made of the listing of that category.  The frame has one row for each
    of these beverages. *)
Theorem X23_visual_menu_beverages :
  forall d category b,
    (In b (visual_menu_bevs d None)
     <-> In b (bevs d) /\ In (Bev.category b) menu_categories)
    /\ (truthy category = None ->
        visual_menu_bevs d category = visual_menu_bevs d None)
    /\ (forall c, truthy category = Some c ->
                  visual_menu_bevs d category = get_bevs_by_category d c)
    /\ List.length (visual_menu_frame d category)
       = List.length (visual_menu_bevs d category).
Proof.
  intros d category b. split; [|split; [|split]].
  - unfold visual_menu_bevs. cbn [truthy]. rewrite in_flat_map. split.
    + intros (c & Hc & Hb). unfold get_bevs_by_category in Hb.
      apply filter_In in Hb. destruct Hb as (Hb & Hcat).
      apply String.eqb_eq in Hcat. split; [exact Hb | now rewrite Hcat].
    + intros (Hb & Hc). exists (Bev.category b). split; [exact Hc|].
      unfold get_bevs_by_category. apply filter_In. split; [exact Hb|].
      apply String.eqb_refl.
  - intros H. unfold visual_menu_bevs. now rewrite H.
  - intros c H. unfold visual_menu_bevs. now rewrite H.
  - unfold visual_menu_frame. apply length_map.
Qed.

(** ** The agent *)

(** X24. [handle_query] processes no order while the inventory check
    speaks.  When [check_inventory_levels] gives an alert or 'No beverage
    selected', the session and the database file are as before whatever the
    message says.  Otherwise a message that holds 'process' and 'order' or
    'transaction', in any case of letters, is answered by [create_transaction]
    for one unit of the selected beverage, paid in cash; every other message
    leaves the session and the database file as they are. *)
Theorem X24_handle_query :
  forall real_text bev_fnc now msg_content,
    let content := str_map lower_ascii msg_content in
    let result := handle_query real_text bev_fnc now msg_content in
    let order :=
      match truthy (Some (Bev.id (Assistant._bev_details bev_fnc))) with
      | Some id => [PDict [("id", PStr id); ("quantity", PInt 1)]]
      | None => []
      end in
    (Assistant.check_inventory_levels bev_fnc <> Assistant.NoAlert ->
     fst result = bev_fnc
     /\ forall r, snd result <> TransactionResult r)
    /\ (Assistant.check_inventory_levels bev_fnc = Assistant.NoAlert ->
        if andb (contains "process" content)
                (orb (contains "order" content) (contains "transaction" content))
        then
          result
          = (Assistant.on_fnc bev_fnc
               (fst (AssistantFnc.create_transaction real_text
                       (Assistant.fnc bev_fnc) now (Some (PList order))
                       "cash" None)),
             TransactionResult
               (snd (AssistantFnc.create_transaction real_text
                       (Assistant.fnc bev_fnc) now (Some (PList order))
                       "cash" None)))
        else fst result = bev_fnc).
Proof.
  intros real_text bev_fnc now msg_content content result order.
  subst result. unfold handle_query. fold content. fold order. split.
  - intros Halert.
    destruct (Assistant.check_inventory_levels bev_fnc);
      try congruence;
      destruct (andb (contains "yes" _) _); split; try reflexivity;
      intros r; discriminate.
  - intros ->.
    destruct (andb (contains "process" content) _).
    + now destruct (AssistantFnc.create_transaction real_text
                      (Assistant.fnc bev_fnc) now (Some (PList order)) "cash" None).
    + destruct (orb (contains "categories" content) _); [reflexivity|].
      destruct (andb (contains "category" content) _); [|reflexivity].
      now destruct (find _ (map fst CATEGORIES)).
Qed.

(** ** The texts of the session *)






(** ** Receipts of stored transactions *)




(* ================================================================== *)
(** * Further instances *)


Lemma X3_lookup_by_name_after_seeding_witness :
  _has_data empty_db = false
  /\ In first_mojito two_mojitos
  /\ Assistant._bev_details
       (fst (Assistant.lookup_bev
               (Assistant.__init__ (__init__ empty_db (Some two_mojitos)))
               "Mojito"))
     = Bev.mk "mojito" "mojito" "Classics" "Rum" 900 5 "" 2.
Proof.
  split; [reflexivity|]. split; [now left|].
  destruct (X3_lookup_by_name_after_seeding empty_db two_mojitos first_mojito
              eq_refl (or_introl eq_refl)) as (last & Hlast & Hsel & _).
  injection Hlast as <-. exact Hsel.
Defined.

Lemma X4_delete_bev_witness :
  get_bev_by_id bar "gin" = None
  /\ fst (delete_bev bar "gin") = bar
  /\ fst (delete_bev (fst (create_bev bar "gin" "Gin" "Spirits" "Gin" 900 50 "" 0))
                     "gin")
     = bar.
Proof.
  destruct (X4_delete_bev bar "gin") as (_ & _ & Hsame & Hback).
  split; [reflexivity|]. split; [exact (Hsame eq_refl)|].
  exact (Hback eq_refl "Gin" "Spirits" "Gin" 900 50 "" 0).
Defined.

Lemma X5_listings_follow_catalog_witness :
  In (Bev.mk "mojito" "Mojito" "Classics" "Rum" 1000 10 "" 0)
     (get_bevs_by_category
        (fst (create_bev bar "mojito" "Mojito" "Classics" "Rum" 1000 10 "" 0))
        "Classics")
  /\ ~ In mojito
         (get_bevs_by_category
            (fst (create_bev bar "mojito" "Mojito" "Classics" "Rum" 1000 10 "" 0))
            "Cocktails").
Proof.
  split.
  - apply (proj1 (X5_listings_follow_catalog bar "mojito" "Mojito" "Classics"
                    "Rum" 1000 10 "" 0 "Classics"
                    (Bev.mk "mojito" "Mojito" "Classics" "Rum" 1000 10 "" 0))).
    left. now split.
  - intros Hin.
    apply (proj1 (X5_listings_follow_catalog bar "mojito" "Mojito" "Classics"
                    "Rum" 1000 10 "" 0 "Cocktails" mojito)) in Hin.
    destruct Hin as [(Heq & _)|(_ & Hne)]; [discriminate | now apply Hne].
Defined.



Lemma X9_selection_is_current_witness :
  Assistant.session plain_text regular
  /\ Assistant.has_bev regular = true
  /\ get_bev_by_id (Assistant.file regular) "mojito" = Some mojito.
Proof.
  assert (Hs : Assistant.session plain_text regular)
    by (unfold regular; apply Assistant.session_respond, Assistant.session_new).
  split; [exact Hs|]. split; [reflexivity|].
  exact (proj2 (X9_selection_is_current plain_text regular Hs) eq_refl).
Defined.

Lemma X10_current_batch_is_pending_witness :
  Assistant.session plain_text host
  /\ AssistantFnc.has_batch (Assistant.fnc host) = Some 1
  /\ exists batch,
      get_batch_order (Assistant.file host) 1 = Found batch
      /\ bo_status batch = "pending"%string.
Proof.
  assert (Hs : Assistant.session plain_text host)
    by (unfold host; apply Assistant.session_respond, Assistant.session_new).
  split; [exact Hs|]. split; [reflexivity|].
  destruct (X10_current_batch_is_pending plain_text host 1 Hs eq_refl)
    as (batch & Hview & _ & Hstatus).
  exists batch. now split.
Defined.

Lemma X13_session_get_recommendations_witness :
  truthy (Some "mojito"%string) = Some "mojito"%string
  /\ Assistant.get_recommendations plain_text plain_text regular (Some "mojito"%string) 0
     = "No recommendations found for mojito"%string.
Proof.
  split; [reflexivity|].
  exact (proj2 (proj2 (X13_session_get_recommendations plain_text plain_text
                         regular 0) "mojito"%string) eq_refl).
Defined.

Lemma X14_batch_view_grows_witness :
  catalog_keyed bar_with_empty_batch
  /\ exists batch,
      get_batch_order (fst (add_to_batch bar_with_empty_batch 1 "mojito" 2 None)) 1
      = Found batch
      /\ bo_subtotal batch = 2000
      /\ map boi_name (bo_items batch) = ["Mojito"%string].
Proof.
  assert (Hkey : catalog_keyed bar_with_empty_batch).
  { unfold catalog_keyed. simpl. constructor; [intros []|constructor]. }
  split; [exact Hkey|].
  pose proof (proj2 (X14_batch_view_grows bar_with_empty_batch 1 "mojito" 2 None
                       _ Hkey eq_refl)) as H.
  change (get_bev_by_id bar_with_empty_batch "mojito") with (Some mojito) in H.
  cbv beta iota zeta in H. eexists. split; [exact H|]. split; reflexivity.
Defined.

Lemma X15_process_batch_edges_witness :
  exists batch d',
    get_batch_order bar_with_empty_batch 1 = Found batch
    /\ bo_items batch = []
    /\ process_batch_to_transaction plain_text bar_with_empty_batch noon 1 "cash"
       = (d', Ok 1)
    /\ transaction_items d' = []
    /\ map Txn.total_amount (transactions d') = [f0_0].
Proof.
  pose proof (X15_process_batch_edges plain_text bar_with_empty_batch noon 1
                "cash") as H.
  destruct (get_batch_order bar_with_empty_batch 1) as [msg|batch] eqn:E;
    [discriminate E|].
  assert (Hempty : bo_items batch = [])
    by (injection E as <-; reflexivity).
  destruct (H Hempty) as (d' & Hrun & Htx & Hitems & _).
  exists batch, d'. split; [reflexivity|]. split; [exact Hempty|].
  split; [exact Hrun|]. split; [exact Hitems|]. now rewrite Htx.
Defined.

Lemma X16_tax_rows_block_transactions_witness :
  tax_rates bar = []
  /\ exists e,
      create_transaction plain_text (initialize_tax_rates bar) noon "cash"
        [mk_tx_item (PStr "mojito") 1 None] None
      = (initialize_tax_rates bar, Raise e).
Proof.
  split; [reflexivity|].
  pose proof (proj2 (X16_tax_rows_block_transactions plain_text bar noon "cash"
                       [] None) eq_refl (mk_tx_item (PStr "mojito") 1 None)
                    eq_refl) as Hitem.
  exact (proj1 (X16_tax_rows_block_transactions plain_text
                  (initialize_tax_rates bar) noon "cash"
                  [mk_tx_item (PStr "mojito") 1 None] None)
               (Exists_cons_hd _ _ _ Hitem)).
Defined.

Lemma X17_recommendation_read_back_witness :
  get_bev_by_id two_rums "cuba_libre"
  = Some (Bev.mk "cuba_libre" "Cuba Libre" "Cocktails" "Rum" 800 5 "" 3)
  /\ -1 < 0
  /\ In (mk_recommendation_dict "cuba_libre" "Cuba Libre" "Cocktails" 800
                                0.5%float)
        (get_recommendations
           (fst (add_recommendation two_rums "mojito" "cuba_libre" 0.5%float))
           "mojito" (-1)).
Proof.
  assert (Hlt : -1 < 0) by reflexivity.
  split; [reflexivity|]. split; [exact Hlt|].
  pose proof (X17_recommendation_read_back two_rums "mojito" "cuba_libre"
                0.5%float (-1)) as H.
  change (is_nan 0.5%float) with false in H. cbv beta iota zeta in H.
  exact (proj1 (proj2 H _ eq_refl Hlt)).
Defined.


Lemma X19_finalize_batch_conserves_witness :
  conn counter_driver = Some counter
  /\ snd (finalize_batch counter_driver 1 "cash") = true
  /\ exists c',
      conn (fst (finalize_batch counter_driver 1 "cash")) = Some c'
      /\ Legacy.beverages c'
         = [ Legacy.mk_beverage "mojito" 1000 7 3;
             Legacy.mk_beverage "gin" 900 5 1 ].
Proof.
  split; [reflexivity|]. split; [reflexivity|].
  destruct (X19_finalize_batch_conserves counter_driver counter 1 "cash" eq_refl)
    as (_ & _ & Htrue).
  destruct (Htrue eq_refl) as (_ & _ & c' & Hc' & Hbevs & _).
  { simpl. constructor; [intros []|constructor]. }
  exists c'. split; [exact Hc'|]. rewrite Hbevs. reflexivity.
Defined.

Lemma X20_cancel_batch_once_witness :
  conn counter_driver = Some counter
  /\ snd (cancel_batch counter_driver 1) = true
  /\ snd (cancel_batch (fst (cancel_batch counter_driver 1)) 1) = false.
Proof.
  split; [reflexivity|]. split; [reflexivity|].
  now rewrite (proj1 (X20_cancel_batch_once counter_driver counter 1 "cash"
                        eq_refl)).
Defined.

Lemma X21_create_batch_order_round_trip_witness :
  view_lines bar 1 = []
  /\ exists batch,
      get_batch_order bar_with_empty_batch 1 = Found batch
      /\ bo_items batch = []
      /\ bo_subtotal batch = 0.
Proof.
  split; [reflexivity|].
  destruct (X21_create_batch_order_round_trip bar "2025-01-01 11:59:00" "5" None)
    as (_ & _ & _ & Hempty & _).
  destruct (Hempty eq_refl) as (batch & Hview & Hitems & Hsub & _).
  exists batch. split; [exact Hview|]. now split.
Defined.

Lemma X22_inventory_alert_below_30_witness :
  -10000 <= Bev.inventory (Assistant._bev_details regular) <= 10000
  /\ Assistant.check_inventory_levels regular = Assistant.LowInventory "Mojito" 10
  /\ Assistant.check_inventory_levels stocked = Assistant.NoAlert.
Proof.
  assert (H1 : -10000 <= Bev.inventory (Assistant._bev_details regular) <= 10000)
    by (split; discriminate).
  assert (H2 : -10000 <= Bev.inventory (Assistant._bev_details stocked) <= 10000)
    by (split; discriminate).
  split; [exact H1|].
  split; [exact (X22_inventory_alert_below_30 regular H1)
         | exact (X22_inventory_alert_below_30 stocked H2)].
Defined.

Lemma X23_visual_menu_beverages_witness :
  truthy (Some ""%string) = None
  /\ visual_menu_bevs bar (Some ""%string) = visual_menu_bevs bar None
  /\ ~ In mojito (visual_menu_bevs bar None).
Proof.
  split; [reflexivity|].
  destruct (X23_visual_menu_beverages bar (Some ""%string) mojito)
    as (Hin & Hnone & _).
  split; [exact (Hnone eq_refl)|].
  intros H. apply (proj1 Hin) in H. destruct H as (_ & Hcat).
  simpl in Hcat. repeat (destruct Hcat as [Hcat|Hcat]; [discriminate|]).
  exact Hcat.
Defined.

Lemma X24_handle_query_witness :
  Assistant.check_inventory_levels regular <> Assistant.NoAlert
  /\ fst (handle_query plain_text regular noon "Process my order") = regular
  /\ Assistant.check_inventory_levels stocked = Assistant.NoAlert
  /\ snd (handle_query plain_text stocked noon "Process my ORDER")
     = TransactionResult (AssistantFnc.TransactionCreated 1).
Proof.
  assert (Hlow : Assistant.check_inventory_levels regular <> Assistant.NoAlert)
    by discriminate.
  split; [exact Hlow|].
  split; [exact (proj1 (proj1 (X24_handle_query plain_text regular noon
                                 "Process my order") Hlow))|].
  split; [reflexivity|].
  pose proof (proj2 (X24_handle_query plain_text stocked noon "Process my ORDER")
                    eq_refl) as H.
  cbv beta zeta in H.
  change (andb (contains "process" (str_map lower_ascii "Process my ORDER"))
               (orb (contains "order" (str_map lower_ascii "Process my ORDER"))
                    (contains "transaction"
                              (str_map lower_ascii "Process my ORDER"))))
    with true in H.
  cbv iota in H. rewrite H. reflexivity.
Defined.


